(** * Saas-backend: the Express handlers of [src/index.js], embedded in Rocq

    The handlers work on schema-less documents ([strict: false], [.lean()]),
    so the embedding keeps the JavaScript value universe: every field access
    may find any value, truthiness decides the branches, and an operation on
    a value of the wrong kind throws a [TypeError], which the handler's
    [try]/[catch] turns into a 500 response.

    - Numbers are IEEE 754 binary64, as [spec_float] with [prec = 53] and
      [emax = 1024]; division is [SFdiv].
    - Strings are sequences of UTF-16 code units; the embedding covers code
      units below 256, one [ascii] each.
    - Objects are association lists in insertion order; [get] reads the first
      binding of a key.
    - Builtins of the host that are whole algorithms of their own
      ([Number::toString], [StringToNumber], [Date.parse], [Date] printing)
      are operations of the [Host] class. *)

From Stdlib Require Import ZArith Floats.SpecFloat Strings.String Strings.Ascii.
From Stdlib Require Import Structures.OrdersEx.
From stdpp Require Import base option list strings pretty sorting.

Set Warnings "-register-all".

Open Scope string_scope.
Open Scope Z_scope.

(** ** Completion records: a value, or a thrown exception *)

Inductive exn : Type :=
| TypeError
| StoreError (message : string).

Inductive result (A : Type) : Type :=
| Ok (a : A)
| Throw (e : exn).
Arguments Ok {A} a.
Arguments Throw {A} e.

#[global] Instance result_ret : MRet result := @Ok.
#[global] Instance result_bind : MBind result :=
  fun A B f m => match m with Ok a => f a | Throw e => Throw e end.
#[global] Instance result_fmap : FMap result :=
  fun A B f m => match m with Ok a => Ok (f a) | Throw e => Throw e end.

(** ** Numbers *)

Module Num.

Definition number := spec_float.

Definition prec : Z := 53.
Definition emax : Z := 1024.

Definition NaN : number := S754_nan.
Definition zero : number := S754_zero false.

(** The number nearest to an integer (exact below [2^53]). *)
Definition of_Z (z : Z) : number := binary_normalize prec emax z 0 false.

Definition div (x y : number) : number := SFdiv prec emax x y.

Definition ltb (x y : number) : bool := SFltb x y.

(** [ToBoolean] on a number: [+0], [-0] and [NaN] are falsy. *)
Definition truthy (x : number) : bool :=
  match x with
  | S754_zero _ | S754_nan => false
  | S754_infinity _ | S754_finite _ _ _ => true
  end.

Definition is_nan (x : number) : bool :=
  match x with S754_nan => true | _ => false end.

Definition is_finite (x : number) : bool :=
  match x with S754_zero _ | S754_finite _ _ _ => true | _ => false end.

(** Strict equality of numbers: [NaN] differs from itself, the zeros are
    equal. *)
Definition eqb (x y : number) : bool := SFeqb x y.

(** [m * 2^e >= 10^21], on the exact value. *)
Definition ge_1e21 (m : positive) (e : Z) : bool :=
  if 0 <=? e then 10 ^ 21 <=? Z.pos m * 2 ^ e
  else 10 ^ 21 * 2 ^ (- e) <=? Z.pos m.

(** The integer [n] for which [n / 10^f] is nearest to [m * 2^e], the larger
    one on a tie. *)
Definition round_scaled (m : positive) (e : Z) (f : nat) : Z :=
  if 0 <=? e then Z.pos m * 2 ^ e * 10 ^ Z.of_nat f
  else (2 * Z.pos m * 10 ^ Z.of_nat f + 2 ^ (- e)) / 2 ^ (1 - e).

(** Truncation toward zero of a finite number. *)
Definition trunc (x : number) : option Z :=
  match x with
  | S754_zero _ => Some 0
  | S754_finite s m e =>
      let a := if 0 <=? e then Z.pos m * 2 ^ e else Z.pos m / 2 ^ (- e) in
      Some (if s then - a else a)
  | S754_infinity _ | S754_nan => None
  end.

End Num.

Abbreviation number := Num.number.

(** ** Values *)

Inductive value : Type :=
| VUndefined
| VNull
| VBool (b : bool)
| VNum (n : number)
| VStr (s : string)
| VDate (t : option Z)
| VArr (elems : list value)
| VObj (fields : list (string * value)).

(** A [VDate] is a [Date] object (what a BSON date becomes under [.lean()]):
    its time value in milliseconds, [None] for an invalid date. *)

Definition object := list (string * value).

(** [ToBoolean]. *)
Definition truthy (v : value) : bool :=
  match v with
  | VUndefined | VNull => false
  | VBool b => b
  | VNum n => Num.truthy n
  | VStr s => negb (String.eqb s "")
  | VDate _ | VArr _ | VObj _ => true
  end.

Definition nullish (v : value) : bool :=
  match v with VUndefined | VNull => true | _ => false end.

Definition lookup_field (k : string) (o : object) : option value :=
  snd <$> List.find (fun kv => String.eqb (fst kv) k) o.

Definition has_key (k : string) (o : object) : bool :=
  bool_decide (is_Some (lookup_field k o)).

Definition field (o : object) (k : string) : value :=
  default VUndefined (lookup_field k o).

(** The own data property [k] of [v], [undefined] when there is none. Only
    plain objects carry data properties: a primitive, an array or a [Date]
    has none of the names the handlers read ([name], [ticker],
    [income_statement], ...; [length] is read through [length_positive]
    below). *)
Definition member (v : value) (k : string) : value :=
  match v with
  | VObj o => field o k
  | _ => VUndefined
  end.

(** [v.k]: reading a property of [null] or [undefined] throws. *)
Definition get (v : value) (k : string) : result value :=
  if nullish v then Throw TypeError else Ok (member v k).

(** [v?.k]. *)
Definition get_opt (v : value) (k : string) : result value :=
  if nullish v then Ok VUndefined else get v k.

(** [a || b], with [b] already evaluated (used where [b] cannot throw). *)
Definition or_else (a b : value) : value := if truthy a then a else b.

(** [o[k] = v] on a plain object. *)
Fixpoint obj_set (k : string) (v : value) (o : object) : object :=
  match o with
  | [] => [(k, v)]
  | (k', v') :: o' =>
      if String.eqb k' k then (k, v) :: o' else (k', v') :: obj_set k v o'
  end.

Definition index_key (i : nat) : string := pretty (N.of_nat i).

(** The own enumerable properties copied by [{...v}]. *)
Definition spread (v : value) : object :=
  match v with
  | VObj o => o
  | VArr l => imap (fun i x => (index_key i, x)) l
  | VStr s =>
      imap (fun i c => (index_key i, VStr (String c EmptyString)))
           (list_ascii_of_string s)
  | VUndefined | VNull | VBool _ | VNum _ | VDate _ => []
  end.

(** ** Host builtins *)

Class Host := {
  (** [Number::toString(x, 10)] *)
  NumberToString : number -> string;
  (** [StringToNumber] *)
  StringToNumber : string -> number;
  (** [Date.parse]: the time value, [None] for [NaN] *)
  DateParse : string -> option Z;
  (** [Date.prototype.toString] *)
  DateToString : option Z -> string;
  (** the [message] of a [TypeError] of the engine *)
  TypeErrorMessage : string
}.

Section Coercions.
Context `{Host}.

(** [ToString]. An array prints as its elements joined by commas, [null]
    and [undefined] elements as the empty string. A plain object prints
    through [Object.prototype.toString], unless an own [toString] property
    shadows it: stored values are never callable, and [OrdinaryToPrimitive]
    then throws. *)
Fixpoint ToString (v : value) : result string :=
  match v with
  | VUndefined => Ok "undefined"
  | VNull => Ok "null"
  | VBool b => Ok (if b then "true" else "false")
  | VNum n => Ok (NumberToString n)
  | VStr s => Ok s
  | VDate t => Ok (DateToString t)
  | VArr l =>
      (fix join (first : bool) (l : list value) : result string :=
         match l with
         | [] => Ok ""
         | x :: r =>
             sx ← (if nullish x then Ok "" else ToString x);
             sr ← join false r;
             Ok ((if first then "" else ",") +:+ sx +:+ sr)
         end) true l
  | VObj o => if has_key "toString" o then Throw TypeError else Ok "[object Object]"
  end.

(** [ToNumber]. Objects go through [ToPrimitive] with hint number: a [Date]
    gives its time value, an array or plain object its string. *)
Definition ToNumber (v : value) : result number :=
  match v with
  | VUndefined => Ok Num.NaN
  | VNull => Ok Num.zero
  | VBool b => Ok (if b then Num.of_Z 1 else Num.zero)
  | VNum n => Ok n
  | VStr s => Ok (StringToNumber s)
  | VDate t => Ok (from_option Num.of_Z Num.NaN t)
  | VArr _ | VObj _ => s ← ToString v; Ok (StringToNumber s)
  end.

(** [a / b]. *)
Definition js_div (a b : value) : result number :=
  x ← ToNumber a; y ← ToNumber b; Ok (Num.div x y).

(** [v > 0]. *)
Definition gt0 (v : value) : result bool :=
  x ← ToNumber v; Ok (Num.ltb Num.zero x).

(** [v.length > 0]. The length of an array or of a string is its number of
    elements; a plain object has the property only as a stored field; any
    other value has none, and [undefined > 0] is false. *)
Definition length_positive (v : value) : result bool :=
  match v with
  | VUndefined | VNull => Throw TypeError
  | VArr l => Ok (bool_decide (l <> []))
  | VStr s => Ok (negb (String.eqb s ""))
  | VObj o => gt0 (field o "length")
  | VBool _ | VNum _ | VDate _ => Ok false
  end.

(** [TimeClip]. *)
Definition TimeClip (x : number) : option Z :=
  t ← Num.trunc x;
  if Z.abs t <=? 8640000000000000 then Some t else None.

(** The time value of [new Date(v)]; [None] is an invalid date. *)
Definition Date_new (v : value) : result (option Z) :=
  match v with
  | VDate t => Ok t
  | VStr s => Ok (DateParse s)
  | VArr _ | VObj _ => s ← ToString v; Ok (DateParse s)
  | VUndefined | VNull | VBool _ | VNum _ => x ← ToNumber v; Ok (TimeClip x)
  end.

(** The decimal digits of [n] with [f] of them behind the point. *)
Definition fixed_digits (n : Z) (f : nat) : string :=
  let m := pretty (Z.to_N n) in
  if decide (f = 0%nat) then m
  else
    let k := String.length m in
    let m := if decide (k <= f)%nat
             then string_of_list_ascii (replicate (f + 1 - k) "0"%char) +:+ m
             else m in
    let k := String.length m in
    String.substring 0 (k - f) m +:+ "." +:+ String.substring (k - f) f m.

(** [Number.prototype.toFixed(f)], for [0 <= f <= 100]. *)
Definition toFixed (x : number) (f : nat) : string :=
  match x with
  | S754_nan => "NaN"
  | S754_infinity false => "Infinity"
  | S754_infinity true => "-Infinity"
  | S754_zero _ => fixed_digits 0 f
  | S754_finite s m e =>
      (if s then "-" else "") +:+
      (if Num.ge_1e21 m e then NumberToString (S754_finite false m e)
       else fixed_digits (Num.round_scaled m e f) f)
  end.

(** [v.toFixed(f)]: only numbers have the method. *)
Definition call_toFixed (v : value) (f : nat) : result value :=
  match v with
  | VNum x => Ok (VStr (toFixed x f))
  | _ => Throw TypeError
  end.

(** [v?.toFixed(f)]. *)
Definition call_toFixed_opt (v : value) (f : nat) : result value :=
  if nullish v then Ok VUndefined else call_toFixed v f.

End Coercions.

(** ** [Array.prototype.sort]

    The sort is stable. The order in which an engine calls the comparator is
    its own; with a comparator that is consistent on the array every stable
    algorithm returns the same array, and the comparators of the handlers
    throw on an element or on none of its comparisons, so insertion from the
    right stands for all of them. With an inconsistent comparator (an invalid
    date makes the difference [NaN]) the order is implementation-defined and
    the embedding shows one possible outcome. *)

Section Sort.
Context {A : Type} (cmp : A -> A -> result Z).

(** [cmp x y <= 0] keeps [x], which came first, in front of [y]. *)
Fixpoint insert_sorted (x : A) (l : list A) : result (list A) :=
  match l with
  | [] => Ok [x]
  | y :: l' =>
      c ← cmp x y;
      if c <=? 0 then Ok (x :: y :: l')
      else r ← insert_sorted x l'; Ok (y :: r)
  end.

Fixpoint sort_by (l : list A) : result (list A) :=
  match l with
  | [] => Ok []
  | x :: l' => s ← sort_by l'; insert_sorted x s
  end.

End Sort.

Definition is_undefined (v : value) : bool :=
  match v with VUndefined => true | _ => false end.

(** [arr.sort(comparefn)]: [undefined] elements go to the end without a call
    of the comparator. *)
Definition js_sort (cmp : value -> value -> result Z) (l : list value)
  : result (list value) :=
  s ← sort_by cmp (List.filter (fun v => negb (is_undefined v)) l);
  Ok (s ++ List.filter is_undefined l)%list.

Section Enrichment.
Context `{Host}.

(** [(a, b) => new Date(b.date) - new Date(a.date)]. Only the sign of the
    difference is used; [NaN] counts as [+0]. *)
Definition byDateDesc (a b : value) : result Z :=
  db ← get b "date"; tb ← Date_new db;
  da ← get a "date"; ta ← Date_new da;
  Ok (match tb, ta with
      | Some x, Some y => x - y
      | _, _ => 0
      end).

(** [index.js] 258-263 and 266-271, for [series] the [income_statement] or
    the [market_cap] property of the financial data:
    [null], or [series.sort(...)[0]] when [series && series.length > 0]. *)
Definition latestEntry (series : value) : result value :=
  if truthy series then
    positive ← length_positive series;
    if positive : bool then
      match series with
      | VArr l => sorted ← js_sort byDateDesc l; Ok (List.hd VUndefined sorted)
      | _ => Throw TypeError
      end
    else Ok VNull
  else Ok VNull.

Definition latestIncomeStatementOf (financialData : value) : result value :=
  series ← get financialData "income_statement"; latestEntry series.

Definition latestMarketCapOf (financialData : value) : result value :=
  series ← get financialData "market_cap"; latestEntry series.

Inductive tier := Precomputed | Derived | NoData.

(** The conditions of the [if] / [else if] / [else] at [index.js] 279, 310
    and 334. *)
Definition select_tier
    (valuationMetrics growth_metrics raw_values
     latestIncomeStatement latestMarketCap : value) : tier :=
  if truthy valuationMetrics && (truthy growth_metrics || truthy raw_values)
  then Precomputed
  else if truthy latestIncomeStatement && truthy latestMarketCap
  then Derived
  else NoData.

(** [a || latestIncomeStatement?.k]. *)
Definition or_statement (a latestIncomeStatement : value) (k : string)
  : result value :=
  if truthy a then Ok a else get_opt latestIncomeStatement k.

(** [o?.k?.toFixed(f)]. *)
Definition fixed_field (o : value) (k : string) (f : nat) : result value :=
  x ← get_opt o k; call_toFixed_opt x f.

(** [index.js] 280-307. *)
Definition precomputed
    (company valuationMetrics growth_metrics raw_values
     current_revenue current_grossProfit current_netIncome
     latestIncomeStatement : value) : result value :=
  marketCap ← get valuationMetrics "market_cap";
  revenue ← or_statement current_revenue latestIncomeStatement "revenue";
  grossProfit ←
    or_statement current_grossProfit latestIncomeStatement "grossProfit";
  netIncome ← or_statement current_netIncome latestIncomeStatement "netIncome";
  revenueGrowth ← fixed_field growth_metrics "revenue_growth_pct" 1;
  grossProfitGrowth ← fixed_field growth_metrics "gross_profit_growth_pct" 1;
  netIncomeGrowth ← fixed_field growth_metrics "net_income_growth_pct" 1;
  latest_fiscal_year ← get valuationMetrics "latest_fiscal_year";
  year ← or_statement latest_fiscal_year latestIncomeStatement "calendarYear";
  multiples ← get valuationMetrics "valuation_multiples_raw";
  toRevenue ← fixed_field multiples "marketcap_to_revenue" 2;
  toNetIncome ← fixed_field multiples "marketcap_to_netincome" 2;
  toGrossProfit ← fixed_field multiples "marketcap_to_grossprofit" 2;
  Ok (VObj (obj_set "financials"
    (VObj [("marketCap", marketCap);
           ("revenue", revenue);
           ("grossProfit", grossProfit);
           ("netIncome", netIncome);
           ("revenueGrowth", revenueGrowth);
           ("grossProfitGrowth", grossProfitGrowth);
           ("netIncomeGrowth", netIncomeGrowth);
           ("year", year);
           ("marketCapToRevenueMultiple", or_else toRevenue VNull);
           ("marketCapToNetIncomeMultiple", or_else toNetIncome VNull);
           ("marketCapToGrossProfitMultiple", or_else toGrossProfit VNull);
           ("raw_values", raw_values);
           ("current_revenue", current_revenue);
           ("current_grossProfit", current_grossProfit);
           ("current_netIncome", current_netIncome)])
    (spread company))).

(** [d ? (marketCap / d).toFixed(2) : null]. *)
Definition multiple (marketCap d : value) : result value :=
  if truthy d then q ← js_div marketCap d; Ok (VStr (toFixed q 2))
  else Ok VNull.

(** [index.js] 311-333. *)
Definition derived (company latestIncomeStatement latestMarketCap : value)
  : result value :=
  marketCap ← get latestMarketCap "marketCap";
  netIncome ← get latestIncomeStatement "netIncome";
  grossProfit ← get latestIncomeStatement "grossProfit";
  revenue ← get latestIncomeStatement "revenue";
  marketCapToNetIncomeMultiple ← multiple marketCap netIncome;
  marketCapToGrossProfitMultiple ← multiple marketCap grossProfit;
  marketCapToRevenueMultiple ← multiple marketCap revenue;
  calendarYear ← get latestIncomeStatement "calendarYear";
  Ok (VObj (obj_set "financials"
    (VObj [("marketCap", marketCap);
           ("revenue", revenue);
           ("grossProfit", grossProfit);
           ("netIncome", netIncome);
           ("marketCapToRevenueMultiple", marketCapToRevenueMultiple);
           ("marketCapToNetIncomeMultiple", marketCapToNetIncomeMultiple);
           ("marketCapToGrossProfitMultiple", marketCapToGrossProfitMultiple);
           ("year", calendarYear)])
    (spread company))).

(** The body of the [companies.map] callback from [index.js] 257 on, with
    [financialData] and [valuationMetrics] bound as at 254-255. *)
Definition enrich (company financialData valuationMetrics : value)
  : result value :=
  latestIncomeStatement ← latestIncomeStatementOf financialData;
  latestMarketCap ← latestMarketCapOf financialData;
  raw_values ← get valuationMetrics "raw_values";
  current_revenue ← get_opt raw_values "current_revenue";
  current_grossProfit ← get_opt raw_values "current_grossProfit";
  current_netIncome ← get_opt raw_values "current_netIncome";
  growth_metrics ← get valuationMetrics "growth_metrics";
  match select_tier valuationMetrics growth_metrics raw_values
          latestIncomeStatement latestMarketCap with
  | Precomputed =>
      precomputed company valuationMetrics growth_metrics raw_values
        current_revenue current_grossProfit current_netIncome
        latestIncomeStatement
  | Derived => derived company latestIncomeStatement latestMarketCap
  | NoData => Ok company
  end.

End Enrichment.

(** ** Iteration over arrays with callbacks that may throw *)

Fixpoint mapM {A B : Type} (f : A -> result B) (l : list A)
  : result (list B) :=
  match l with
  | [] => Ok []
  | x :: r => y ← f x; ys ← mapM f r; Ok (y :: ys)
  end.

(** [Array.prototype.find]: [None] is [undefined]. *)
Fixpoint findM {A : Type} (p : A -> result bool) (l : list A)
  : result (option A) :=
  match l with
  | [] => Ok None
  | x :: r => b ← p x; if b : bool then Ok (Some x) else findM p r
  end.

(** [Array.prototype.reduce] with an initial value. *)
Fixpoint reduceM {A B : Type} (f : B -> A -> result B) (l : list A) (acc : B)
  : result B :=
  match l with
  | [] => Ok acc
  | x :: r => acc' ← f acc x; reduceM f r acc'
  end.

(** The receiver of an array method: anything but an array has no such
    method, and calling it throws. *)
Definition as_array (v : value) : result (list value) :=
  match v with
  | VArr l => Ok l
  | _ => Throw TypeError
  end.

Definition is_array (v : value) : bool :=
  match v with VArr _ => true | _ => false end.

(** [a === b] for values that are not the same object: two objects are
    never equal. *)
Definition strict_eq (a b : value) : bool :=
  match a, b with
  | VUndefined, VUndefined => true
  | VNull, VNull => true
  | VBool x, VBool y => Bool.eqb x y
  | VNum x, VNum y => Num.eqb x y
  | VStr x, VStr y => String.eqb x y
  | _, _ => false
  end.

(** ** Strings *)

(** [WhiteSpace] and [LineTerminator] code units below 256: TAB, LF, VT, FF,
    CR, SP and NBSP. *)
Definition is_white (c : ascii) : bool :=
  let n := nat_of_ascii c in
  ((9 <=? n) && (n <=? 13) || (n =? 32) || (n =? 160))%nat.

Fixpoint trim_start (s : string) : string :=
  match s with
  | EmptyString => EmptyString
  | String c r => if is_white c then trim_start r else s
  end.

(** [String.prototype.trim]. *)
Definition trim (s : string) : string :=
  String.rev (trim_start (String.rev (trim_start s))).

(** The capture of [/^([^(]+)/]: the longest prefix without ["("]; the
    match fails when that prefix is empty. *)
Fixpoint before_paren (s : string) : string :=
  match s with
  | EmptyString => EmptyString
  | String c r =>
      if Ascii.eqb c "("%char then EmptyString else String c (before_paren r)
  end.

(** [String.prototype.startsWith]. *)
Definition startsWith (s searchString : string) : bool :=
  String.prefix searchString s.

(** ** Region and category index *)

(** The callback of [data.regions.map] at [index.js] 83-94. *)
Definition countryNameOf (region : value) : result string :=
  if negb (truthy region) then Ok "Unknown"
  else
    name ← get region "name";
    if negb (truthy name) then Ok "Unknown"
    else
      match name with
      | VStr regionName =>
          let countryMatch := before_paren regionName in
          Ok (if String.eqb countryMatch "" then trim regionName
              else trim countryMatch)
      | _ => Throw TypeError
      end.

(** [new Set(...)]: insertion order, first occurrence kept. *)
Definition set_add (seen : list string) (x : string) : list string :=
  if bool_decide (x ∈ seen) then seen else (seen ++ [x])%list.

Definition Set_of (l : list string) : list string := foldl set_add [] l.

(** The comparison of [sort()] without a comparator, on strings: code unit
    order. *)
Definition default_compare (a b : string) : result Z :=
  Ok (match String.compare a b with Lt => -1 | Eq => 0 | Gt => 1 end).

(** [index.js] 83-97. *)
Definition listCountries (regions : list value) : result (list string) :=
  countryNames ← mapM countryNameOf regions;
  let countryNames := List.filter (fun s => negb (String.eqb s "")) countryNames in
  sort_by default_compare (Set_of countryNames).

(** The callback of [data.regions.find] at [index.js] 123-125 (and 187-189):
    [region && region.name && region.name.startsWith(countryName)]. *)
Definition regionMatches (countryName : string) (region : value)
  : result bool :=
  if truthy region then
    name ← get region "name";
    if truthy name then
      match name with
      | VStr s => Ok (startsWith s countryName)
      | _ => Throw TypeError
      end
    else Ok false
  else Ok false.

Definition findRegion (regions : list value) (countryName : string)
  : result (option value) :=
  findM (regionMatches countryName) regions.

(** The callback of [reduce] at [index.js] 208-213. *)
Definition addCategory (allCompanies : list value) (category : value)
  : result (list value) :=
  companies ← get category "companies";
  if truthy companies && is_array companies then
    match companies with
    | VArr l => Ok (allCompanies ++ l)%list
    | _ => Ok allCompanies
    end
  else Ok allCompanies.

(** [index.js] 195-218: the value of [companies] before enrichment.
    [category] is [req.query.category]. *)
Definition selectCompanies
    (matchingRegion : value) (countryName : string) (category : value)
  : result value :=
  if startsWith countryName "United States" && truthy category
     && negb (strict_eq category (VStr "All")) then
    categories ← get matchingRegion "categories";
    cats ← as_array categories;
    matchingCategory ←
      findM (fun cat => name ← get cat "name"; Ok (strict_eq name category))
            cats;
    match matchingCategory with
    | Some cat =>
        if truthy cat then
          companies ← get cat "companies";
          Ok (if truthy companies then companies else VArr [])
        else Ok (VArr [])
    | None => Ok (VArr [])
    end
  else if startsWith countryName "United States" then
    categories ← get matchingRegion "categories";
    cats ← as_array categories;
    all ← reduceM addCategory cats [];
    Ok (VArr all)
  else
    companies ← get matchingRegion "companies";
    Ok (if truthy companies then companies else VArr []).

(** ** The ticker maps of [index.js] 238-255

    [financialDataMap] and [valuationMetricsMap] are plain objects, so a
    lookup also sees what they inherit. A member of [Object.prototype] is
    truthy and has none of the properties the enrichment reads, which makes
    it indistinguishable there from the [{}] of [|| {}]. Assigning under the
    key ["__proto__"] does not add a property: it makes the document the
    prototype of the map, and its own properties are then inherited. *)

Record tickerMap := { own : object; proto : option value }.

Definition map_empty : tickerMap := {| own := []; proto := None |}.

(** [map[k] = data]. *)
Definition map_set (k : string) (data : value) (m : tickerMap) : tickerMap :=
  if String.eqb k "__proto__" then
    match data with
    | VObj _ | VArr _ | VDate _ => {| own := own m; proto := Some data |}
    | _ => m
    end
  else {| own := obj_set k data (own m); proto := proto m |}.

(** The names under which every plain object finds a member of
    [Object.prototype]. *)
Definition inherited (k : string) : bool :=
  existsb (String.eqb k)
    ["constructor"; "hasOwnProperty"; "isPrototypeOf"; "propertyIsEnumerable";
     "toLocaleString"; "toString"; "valueOf"; "__proto__";
     "__defineGetter__"; "__defineSetter__";
     "__lookupGetter__"; "__lookupSetter__"].

(** What [map[k]] evaluates to: a stored value ([undefined] when the key
    is found nowhere), or a member of [Object.prototype], a function or the
    prototype itself, which is no stored value. *)
Inductive looked_up := Value (v : value) | Builtin.

(** [map[k]]: the map's own property, else the property of the document
    that was made its prototype, else what [Object.prototype] has. *)
Definition map_get (k : string) (m : tickerMap) : looked_up :=
  match lookup_field k (own m) with
  | Some v => Value v
  | None =>
      let of_Object := if inherited k then Builtin else Value VUndefined in
      match proto m with
      | Some p =>
          if String.eqb k "__proto__" then Value p
          else
            match p with
            | VObj o =>
                match lookup_field k o with
                | Some v => Value v
                | None => of_Object
                end
            | _ => of_Object
            end
      | None => of_Object
      end
  end.

(** [map[k] || {}], as the enrichment sees it: a member of
    [Object.prototype] is truthy, so it is what the expression gives, and
    [VObj []] stands for it, the enrichment reading none of its properties. *)
Definition lookup_or_empty (k : string) (m : tickerMap) : value :=
  match map_get k m with
  | Value v => or_else v (VObj [])
  | Builtin => VObj []
  end.

Section Companies.
Context `{Host}.

(** The [forEach] loops at [index.js] 238-250. *)
Definition buildMap (docs : list value) : result tickerMap :=
  reduceM (fun m data =>
             ticker ← get data "ticker";
             if truthy ticker then k ← ToString ticker; Ok (map_set k data m)
             else Ok m)
          docs map_empty.

(** The callback of [companies.map] at [index.js] 253-338. *)
Definition enrichCompany (financialDataMap valuationMetricsMap : tickerMap)
    (company : value) : result value :=
  ticker ← get company "ticker";
  k ← ToString ticker;
  let financialData := lookup_or_empty k financialDataMap in
  let valuationMetrics := lookup_or_empty k valuationMetricsMap in
  enrich company financialData valuationMetrics.

End Companies.

(** ** The document store and the handlers *)

Record response := { status : Z; body : value }.

Inductive collection := FinancialData | ValuationMetrics.
Inductive subscriptions := Notification | MetricsNotification.

(** The operations of mongoose the handlers call, as transitions of a store
    state: each returns or throws, and leaves a new state. *)
Class DocStore (Store : Type) := {
  connectToDatabase : Store -> result unit * Store;
  (** [SaasCompany.findOne({}).lean()]: the document or [null] *)
  SaasCompany_findOne : Store -> result value * Store;
  (** [C.find({ ticker: { $in: tickers } }).lean()] *)
  find_tickers : collection -> list value -> Store -> result (list value) * Store;
  (** [C.findOne({ ticker }).lean()]: the document or [null] *)
  findOne_ticker : collection -> string -> Store -> result value * Store;
  (** [C.findOne({ email })]: the document or [null] *)
  findOne_email : subscriptions -> value -> Store -> result value * Store;
  (** [C.updateOne({ email }, { phone })] *)
  updateOne_phone : subscriptions -> value -> value -> Store -> result unit * Store;
  (** [new C(userData).save()] *)
  save : subscriptions -> value -> Store -> result unit * Store
}.

Section Handlers.
Context `{Host} {Store : Type} `{!DocStore Store}.

Definition M (A : Type) : Type := Store -> result A * Store.

#[local] Instance M_ret : MRet M := fun A a s => (Ok a, s).
#[local] Instance M_bind : MBind M :=
  fun A B f m s =>
    match m s with
    | (Ok a, s') => f a s'
    | (Throw e, s') => (Throw e, s')
    end.

Definition lift {A : Type} (r : result A) : M A := fun s => (r, s).

(** [try { m } catch (error) { h error }] around a whole handler. *)
Definition try_catch (m : M response) (h : exn -> response)
  : Store -> response * Store :=
  fun s =>
    match m s with
    | (Ok r, s') => (r, s')
    | (Throw e, s') => (h e, s')
    end.

Definition json (code : Z) (v : value) : M response :=
  mret {| status := code; body := v |}.

Definition message (text : string) : value := VObj [("message", VStr text)].

Definition error_message (e : exn) : string :=
  match e with
  | TypeError => TypeErrorMessage
  | StoreError m => m
  end.

(** [GET /api/countries], [index.js] 62-106. *)
Definition getCountries : Store -> response * Store :=
  try_catch
    (_ ← connectToDatabase;
     data ← SaasCompany_findOne;
     if negb (truthy data) then json 404 (VArr [])
     else
       regions ← lift (get data "regions");
       if negb (truthy regions) || negb (is_array regions)
       then json 404 (VArr [])
       else
         l ← lift (as_array regions);
         uniqueCountries ← lift (listCountries l);
         json 200 (VArr (VStr <$> uniqueCountries)))
    (fun _ => {| status := 500; body := VArr [] |}).

(** [GET /api/country/:countryName], [index.js] 109-136. *)
Definition getCountry (countryName : string) : Store -> response * Store :=
  try_catch
    (_ ← connectToDatabase;
     data ← SaasCompany_findOne;
     if negb (truthy data) then json 404 (message "No data found")
     else
       regions ← lift (get data "regions");
       if negb (truthy regions) then json 404 (message "No data found")
       else
         l ← lift (as_array regions);
         matchingRegion ← lift (findRegion l countryName);
         match matchingRegion with
         | None => json 404 (message "Country not found")
         | Some region => json 200 region
         end)
    (fun _ => {| status := 500; body := message "Server error" |}).

(** [index.js] 221-339: the enrichment of the selected companies. *)
Definition enrichAll (companies : value) : M value :=
  cs ← lift (as_array companies);
  tickers ← lift (mapM (fun company => get company "ticker") cs);
  financialDataArray ← find_tickers FinancialData tickers;
  valuationMetricsArray ← find_tickers ValuationMetrics tickers;
  financialDataMap ← lift (buildMap financialDataArray);
  valuationMetricsMap ← lift (buildMap valuationMetricsArray);
  enriched ← lift (mapM (enrichCompany financialDataMap valuationMetricsMap) cs);
  mret (VArr enriched).

(** [GET /api/companies/:countryName], [index.js] 171-351. The first step
    is the template literal of the log line at 176, which converts a truthy
    [category] to a string. *)
Definition getCompanies (countryName : string) (category : value)
  : Store -> response * Store :=
  try_catch
    (_ ← lift (if truthy category then ToString category else Ok "All");
     _ ← connectToDatabase;
     data ← SaasCompany_findOne;
     if negb (truthy data) then json 404 (message "No data found")
     else
       regions ← lift (get data "regions");
       if negb (truthy regions) then json 404 (message "No data found")
       else
         l ← lift (as_array regions);
         found ← lift (findRegion l countryName);
         match found with
         | None => json 404 (message "Country not found")
         | Some matchingRegion =>
             companies ← lift (selectCompanies matchingRegion countryName category);
             companies ←
               (if startsWith countryName "United States"
                then enrichAll companies else mret companies);
             exchange ← lift (get matchingRegion "exchangeName");
             json 200 (VObj [("exchangeName",
                              or_else exchange (VStr "Unknown Exchange"));
                             ("companies", companies)])
         end)
    (fun _ => {| status := 500; body := message "Server error" |}).

(** The callback of [usaRegion.categories.map] at [index.js] 161:
    [category.name || 'Unknown']. *)
Definition categoryNameOf (category : value) : result value :=
  name ← get category "name"; Ok (or_else name (VStr "Unknown")).

(** [GET /api/categories/usa], [index.js] 139-168. *)
Definition getUsaCategories : Store -> response * Store :=
  try_catch
    (_ ← connectToDatabase;
     data ← SaasCompany_findOne;
     if negb (truthy data) then json 404 (message "No data found")
     else
       regions ← lift (get data "regions");
       if negb (truthy regions) then json 404 (message "No data found")
       else
         l ← lift (as_array regions);
         found ← lift (findRegion l "United States");
         match found with
         | None => json 404 (message "USA categories not found")
         | Some usaRegion =>
             categories ← lift (get usaRegion "categories");
             if negb (truthy categories) || negb (is_array categories)
             then json 404 (message "USA categories not found")
             else
               cats ← lift (as_array categories);
               names ← lift (mapM categoryNameOf cats);
               json 200 (VArr (List.filter truthy names))
         end)
    (fun _ => {| status := 500; body := message "Server error" |}).

(** [GET /api/health], [index.js] 538-540. *)
Definition getHealth : Store -> response * Store :=
  fun s => ({| status := 200; body := VObj [("status", VStr "ok")] |}, s).

(** [/^[^\s@]+@[^\s@]+\.[^\s@]+$/]: no white space, exactly one ["@"],
    something before it, and behind it a ["."] with something on both
    sides. *)
Definition plain (c : ascii) : bool :=
  negb (is_white c) && negb (Ascii.eqb c "@"%char).

(** [s] matches [[^\s@]+] in full. *)
Definition plain1 (s : list ascii) : bool :=
  bool_decide (s <> []) && forallb plain s.

(** [s] matches [[^\s@]+\.[^\s@]+] in full. *)
Fixpoint domain (s : list ascii) : bool :=
  match s with
  | [] => false
  | c :: r =>
      plain c &&
      match r with
      | [] => false
      | d :: r' => (Ascii.eqb d "."%char && plain1 r') || domain r
      end
  end.

(** [s] matches the whole expression. *)
Fixpoint emailFormat (s : list ascii) : bool :=
  match s with
  | [] => false
  | c :: r =>
      plain c &&
      match r with
      | [] => false
      | d :: r' => (Ascii.eqb d "@"%char && domain r') || emailFormat r
      end
  end.

(** [emailRegex.test(email)]: the argument is converted with [ToString]. *)
Definition emailRegex_test (email : value) : result bool :=
  s ← ToString email; Ok (emailFormat (list_ascii_of_string s)).

(** The two blocks at [index.js] 434-455 and 458-479, for one collection. *)
Definition subscribeTo (C : subscriptions) (email phone userData : value)
  : M value :=
  existing ← findOne_email C email;
  if truthy existing then
    existingPhone ← lift (get existing "phone");
    _ ← (if truthy phone && negb (strict_eq existingPhone phone)
         then updateOne_phone C email phone else mret ());
    mret (VStr "updated")
  else
    _ ← save C userData;
    mret (VStr "created").

(** [POST /api/notifications/subscribe], [index.js] 402-491;
    [reqBody] is [req.body]. The log lines between the steps only read what
    a successful connection has set, and the inner [try]/[catch] blocks
    rethrow what they catch. *)
Definition subscribe (reqBody : value) : Store -> response * Store :=
  try_catch
    (email ← lift (get reqBody "email");
     phone ← lift (get reqBody "phone");
     notifyAllCountries ← lift (get reqBody "notifyAllCountries");
     notifyMetricsUpdates ← lift (get reqBody "notifyMetricsUpdates");
     if negb (truthy email) then json 400 (message "Email is required")
     else
       valid ← lift (emailRegex_test email);
       if negb valid then json 400 (message "Invalid email format")
       else
         _ ← connectToDatabase;
         let userData :=
           VObj [("email", email); ("phone", or_else phone VUndefined)] in
         allCountries ←
           (if truthy notifyAllCountries
            then subscribeTo Notification email phone userData
            else mret (VBool false));
         metricsUpdates ←
           (if truthy notifyMetricsUpdates
            then subscribeTo MetricsNotification email phone userData
            else mret (VBool false));
         json 201 (VObj [("message", VStr "Successfully subscribed");
                         ("results", VObj [("allCountries", allCountries);
                                           ("metricsUpdates", metricsUpdates)])]))
    (fun e => {| status := 500;
                 body := VObj [("message", VStr "Server error");
                               ("error", VStr (error_message e))] |}).

(** [combinedData.k = v]. *)
Definition assign (k : string) (v : value) (o : object) : object :=
  obj_set k v o.

(** [GET /api/financials/:ticker], [index.js] 494-535. *)
Definition getFinancials (ticker : string) : Store -> response * Store :=
  try_catch
    (_ ← connectToDatabase;
     valuationMetrics ← findOne_ticker ValuationMetrics ticker;
     financialData ← findOne_ticker FinancialData ticker;
     if negb (truthy financialData)
     then json 404 (message "Financial data not found")
     else
       let combinedData := spread financialData in
       if truthy valuationMetrics then
         growth_metrics ← lift (get valuationMetrics "growth_metrics");
         raw_values ← lift (get valuationMetrics "raw_values");
         market_cap ← lift (get valuationMetrics "market_cap");
         multiples ← lift (get valuationMetrics "valuation_multiples");
         multiples_raw ← lift (get valuationMetrics "valuation_multiples_raw");
         fiscal_year ← lift (get valuationMetrics "latest_fiscal_year");
         current_revenue ← lift (get_opt raw_values "current_revenue");
         current_grossProfit ← lift (get_opt raw_values "current_grossProfit");
         current_netIncome ← lift (get_opt raw_values "current_netIncome");
         json 200 (VObj
           (assign "current_netIncome" current_netIncome
           (assign "current_grossProfit" current_grossProfit
           (assign "current_revenue" current_revenue
           (assign "latest_fiscal_year" fiscal_year
           (assign "valuation_multiples_raw" multiples_raw
           (assign "valuation_multiples" multiples
           (assign "market_cap" market_cap
           (assign "raw_values" raw_values
           (assign "growth_metrics" growth_metrics combinedData))))))))))
       else json 200 (VObj combinedData))
    (fun _ => {| status := 500; body := message "Server error" |}).

End Handlers.

(** ** A host and a store to run the handlers on

    [Sample.host] implements the builtins on the fragment the examples use:
    the date-only form [YYYY-MM-DD] of the ECMAScript date-time string
    format (UTC midnight), unsigned decimal integers as numeric strings, and
    the printing of integers. [Sample.store] keeps the collections in
    memory. *)

Module Sample.

(** Days from 1970-01-01 to a day of the proleptic Gregorian calendar. *)
Definition days_from_civil (y m d : Z) : Z :=
  let y := if m <=? 2 then y - 1 else y in
  let era := y / 400 in
  let yoe := y - era * 400 in
  let doy := (153 * (if 2 <? m then m - 3 else m + 9) + 2) / 5 + d - 1 in
  let doe := yoe * 365 + yoe / 4 - yoe / 100 + doy in
  era * 146097 + doe - 719468.

Definition is_leap (y : Z) : bool :=
  (y mod 4 =? 0) && (negb (y mod 100 =? 0) || (y mod 400 =? 0)).

Definition days_in_month (y m : Z) : Z :=
  if m =? 2 then (if is_leap y then 29 else 28)
  else if (m =? 4) || (m =? 6) || (m =? 9) || (m =? 11) then 30 else 31.

Definition digit (c : ascii) : option Z :=
  let n := Z.of_nat (nat_of_ascii c) in
  if (48 <=? n) && (n <=? 57) then Some (n - 48) else None.

Fixpoint digits (acc : Z) (s : list ascii) : option Z :=
  match s with
  | [] => Some acc
  | c :: r => d ← digit c; digits (10 * acc + d) r
  end.

Definition parse_date (s : string) : option Z :=
  match list_ascii_of_string s with
  | [y1; y2; y3; y4; "-"%char; m1; m2; "-"%char; d1; d2] =>
      y ← digits 0 [y1; y2; y3; y4];
      m ← digits 0 [m1; m2];
      d ← digits 0 [d1; d2];
      if (1 <=? m) && (m <=? 12) && (1 <=? d) && (d <=? days_in_month y m)
      then Some (days_from_civil y m d * 86400000)
      else None
  | _ => None
  end.

Definition parse_number (s : string) : number :=
  match list_ascii_of_string s with
  | [] => Num.zero
  | l => from_option Num.of_Z Num.NaN (digits 0 l)
  end.

Definition print_number (x : number) : string :=
  match x with
  | S754_nan => "NaN"
  | S754_infinity s => if s then "-Infinity" else "Infinity"
  | S754_zero _ => "0"
  | S754_finite s m e =>
      (if s then "-" else "") +:+
      pretty (Z.to_N (if 0 <=? e then Z.pos m * 2 ^ e else Z.pos m / 2 ^ (- e)))
  end.

#[export] Instance host : Host := {|
  NumberToString := print_number;
  StringToNumber := parse_number;
  DateParse := parse_date;
  DateToString := fun t => from_option (fun z => pretty z) "Invalid Date" t;
  TypeErrorMessage := "TypeError"
|}.

Record store := {
  saascompnies : value;
  incomeusa : list value;
  valuation_metrics : list value;
  notification_subscriptions : list value;
  metrics_update_subscriptions : list value
}.

Definition field_is (k : string) (v : value) (doc : value) : bool :=
  match get doc k with
  | Ok x => strict_eq x v
  | Throw _ => false
  end.

Definition docs_of (C : collection) (s : store) : list value :=
  match C with
  | FinancialData => incomeusa s
  | ValuationMetrics => valuation_metrics s
  end.

Definition subs_of (C : subscriptions) (s : store) : list value :=
  match C with
  | Notification => notification_subscriptions s
  | MetricsNotification => metrics_update_subscriptions s
  end.

Definition with_subs (C : subscriptions) (l : list value) (s : store) : store :=
  match C with
  | Notification =>
      {| saascompnies := saascompnies s; incomeusa := incomeusa s;
         valuation_metrics := valuation_metrics s;
         notification_subscriptions := l;
         metrics_update_subscriptions := metrics_update_subscriptions s |}
  | MetricsNotification =>
      {| saascompnies := saascompnies s; incomeusa := incomeusa s;
         valuation_metrics := valuation_metrics s;
         notification_subscriptions := notification_subscriptions s;
         metrics_update_subscriptions := l |}
  end.

Fixpoint set_phone (email phone : value) (l : list value) : list value :=
  match l with
  | [] => []
  | doc :: r =>
      if field_is "email" email doc
      then VObj (obj_set "phone" phone (spread doc)) :: r
      else doc :: set_phone email phone r
  end.

#[export] Instance docStore : DocStore store := {|
  connectToDatabase := fun s => (Ok (), s);
  SaasCompany_findOne := fun s => (Ok (saascompnies s), s);
  find_tickers := fun C tickers s =>
    (Ok (List.filter (fun doc => existsb (fun t => field_is "ticker" t doc) tickers)
                     (docs_of C s)), s);
  findOne_ticker := fun C ticker s =>
    (Ok (default VNull (List.find (field_is "ticker" (VStr ticker)) (docs_of C s))), s);
  findOne_email := fun C email s =>
    (Ok (default VNull (List.find (field_is "email" email) (subs_of C s))), s);
  updateOne_phone := fun C email phone s =>
    (Ok (), with_subs C (set_phone email phone (subs_of C s)) s);
  save := fun C userData s =>
    (Ok (), with_subs C (subs_of C s ++ [userData])%list s)
|}.

(** A store that is out of reach: the connection may still succeed, every
    query fails. *)
Inductive offline := Offline (connects : bool).

Definition failed {A : Type} (s : offline) : result A * offline :=
  (Throw (StoreError "query failed"), s).

#[export] Instance offlineStore : DocStore offline := {|
  connectToDatabase := fun s =>
    match s with
    | Offline true => (Ok (), s)
    | Offline false => (Throw (StoreError "no connection"), s)
    end;
  SaasCompany_findOne := failed;
  find_tickers := fun _ _ => failed;
  findOne_ticker := fun _ _ => failed;
  findOne_email := fun _ _ => failed;
  updateOne_phone := fun _ _ _ => failed;
  save := fun _ _ => failed
|}.

(** A store whose [metrics_update_subscriptions] collection is out of
    reach, the other collections answering as above. *)
Inductive metricsDown := MetricsDown (s : store).

Definition served {A : Type} (f : store -> result A * store) (d : metricsDown)
  : result A * metricsDown :=
  match d with
  | MetricsDown s => let (r, s') := f s in (r, MetricsDown s')
  end.

Definition reached {A : Type} (C : subscriptions)
    (f : store -> result A * store) (d : metricsDown)
  : result A * metricsDown :=
  match C with
  | Notification => served f d
  | MetricsNotification => (Throw (StoreError "metrics out of reach"), d)
  end.

#[export] Instance metricsDownStore : DocStore metricsDown := {|
  connectToDatabase := served connectToDatabase;
  SaasCompany_findOne := served SaasCompany_findOne;
  find_tickers := fun C tickers => served (find_tickers C tickers);
  findOne_ticker := fun C ticker => served (findOne_ticker C ticker);
  findOne_email := fun C email => reached C (findOne_email C email);
  updateOne_phone := fun C email phone =>
    reached C (updateOne_phone C email phone);
  save := fun C userData => reached C (save C userData)
|}.

End Sample.
(** ** The data model of the documents

    What the entries of a well-formed document look like: an entry of a
    series is dated when its [date] gives a valid time value, and the
    precomputed percentages and multiples are numbers where they are
    present. *)

Section DataModel.
Context `{Host}.

Definition entryTime (e : value) : option Z :=
  match get e "date" ≫= Date_new with
  | Ok (Some t) => Some t
  | _ => None
  end.

Definition dated (e : value) : Prop := is_Some (entryTime e).

End DataModel.

Definition numeric_or_absent (v : value) : bool :=
  match v with
  | VUndefined | VNull | VNum _ => true
  | _ => false
  end.

Definition metrics_numeric (valuationMetrics : value) : bool :=
  forallb (fun k => numeric_or_absent
                      (member (member valuationMetrics "growth_metrics") k))
    ["revenue_growth_pct"; "gross_profit_growth_pct"; "net_income_growth_pct"]
  &&
  forallb (fun k => numeric_or_absent
                      (member (member valuationMetrics "valuation_multiples_raw") k))
    ["marketcap_to_revenue"; "marketcap_to_netincome"; "marketcap_to_grossprofit"].

(** The fallback of the precomputed tier in the words of the specification:
    the raw value, and the field of the income statement only when the raw
    value is absent. *)
Definition spec_raw_or_statement (raw statement : value) : value :=
  if nullish raw then statement else raw.

Definition statement_numeric (latestIncomeStatement : value) : bool :=
  forallb (fun k => numeric_or_absent (member latestIncomeStatement k))
    ["netIncome"; "grossProfit"; "revenue"].

(** A region is named by text when its [name] is a string, or is falsy
    (absent, [null], ...). *)
Definition name_is_text (region : value) : bool :=
  match member region "name" with
  | VStr _ => true
  | v => negb (truthy v)
  end.

(** The country of a region named by text, as the code computes it. *)
Definition country_of (region : value) : string :=
  match member region "name" with
  | VStr regionName =>
      if String.eqb regionName "" then "Unknown"
      else if String.eqb (before_paren regionName) "" then trim regionName
      else trim (before_paren regionName)
  | _ => "Unknown"
  end.

(** The country of a region in the words of the specification: the trimmed
    substring of the name before the first ["("], and ["Unknown"] for a
    region that lacks a name. *)
Definition spec_countryName (region : value) : string :=
  match member region "name" with
  | VStr regionName =>
      if String.eqb regionName "" then "Unknown"
      else trim (before_paren regionName)
  | _ => "Unknown"
  end.

(** The names the specification keeps: the non-empty ones. *)
Definition spec_countryNames (regions : list value) : list string :=
  List.filter (fun s => negb (String.eqb s "")) (spec_countryName <$> regions).

(** The region has a name that starts with [countryName]. *)
Definition name_startsWith (countryName : string) (region : value) : bool :=
  match member region "name" with
  | VStr s => startsWith s countryName
  | _ => false
  end.

(** The companies a category contributes to the listing of all of them. *)
Definition companiesOf (category : value) : list value :=
  match member category "companies" with
  | VArr l => l
  | _ => []
  end.

(** ** The cached connection, [index.js] 6-30

    [mongoose] is outside the repository: its connection has a ready state,
    and [mongoose.connect] returns a client or throws, changing the
    connection. The module variable [cachedDb] is the state of the
    function. *)

Section Connection.
Context {Mongoose Client : Type}.
Context (readyState : Mongoose -> Z).
Context (mongoose_connect : Mongoose -> result Client * Mongoose).

Record connectionState := { cachedDb : option Client; mongoose : Mongoose }.

(** [mongoose.connect(...)], then [cachedDb = client]; a failure is thrown
    on and leaves [cachedDb] as it was. *)
Definition freshConnect (st : connectionState) : result Client * connectionState :=
  match mongoose_connect (mongoose st) with
  | (Ok client, m) => (Ok client, {| cachedDb := Some client; mongoose := m |})
  | (Throw e, m) => (Throw e, {| cachedDb := cachedDb st; mongoose := m |})
  end.

(** [connectToDatabase()]. *)
Definition cachedConnect (st : connectionState) : result Client * connectionState :=
  match cachedDb st with
  | Some client =>
      if readyState (mongoose st) =? 1 then (Ok client, st) else freshConnect st
  | None => freshConnect st
  end.

End Connection.

(** ** Documents keyed by ticker *)

(** The document is filed under the ticker [k]. *)
Definition has_ticker (k : string) (doc : value) : bool :=
  match member doc "ticker" with
  | VStr s => String.eqb s k
  | _ => false
  end.

(** A document whose [ticker] is a string other than ["__proto__"], or is
    falsy (absent, [null], ...). *)
Definition ticker_is_text (doc : value) : bool :=
  negb (nullish doc) &&
  match member doc "ticker" with
  | VStr s => negb (String.eqb s "__proto__")
  | v => negb (truthy v)
  end.

(** The last document filed under [k], [{}] when there is none. *)
Definition last_with_ticker (k : string) (docs : list value) : value :=
  default (VObj []) (List.find (has_ticker k) (rev docs)).

(** The entry of the array that is in front of all later ones of the same
    date and behind none of an earlier date: the first one, in array order,
    among those of the maximum date. *)
Definition first_latest `{Host} (l : list value) : option value :=
  foldr (fun x best =>
           match best with
           | None => Some x
           | Some h =>
               if default 0 (entryTime h) <=? default 0 (entryTime x)
               then Some x else Some h
           end) None l.

(** The names of the valuation fields [/api/financials/:ticker] copies. *)
Definition copied_fields : list string :=
  ["growth_metrics"; "raw_values"; "market_cap"; "valuation_multiples";
   "valuation_multiples_raw"; "latest_fiscal_year"].

Definition echoed_fields : list string :=
  ["current_revenue"; "current_grossProfit"; "current_netIncome"].

(** The ticker of a company record, when it is a non-empty string. *)
Definition ticker_of (company : value) : string :=
  match member company "ticker" with
  | VStr k => k
  | _ => ""
  end.

Definition has_text_ticker (company : value) : bool :=
  match member company "ticker" with
  | VStr k => negb (String.eqb k "")
  | _ => false
  end.

(** ** Subscription requests *)

(** The request asks for the collection. *)
Definition asks_for (reqBody : value) (C : subscriptions) : bool :=
  match C with
  | Notification => truthy (member reqBody "notifyAllCountries")
  | MetricsNotification => truthy (member reqBody "notifyMetricsUpdates")
  end.

(** The [results] of a request that touched the collection [C] alone. *)
Definition results_for (C : subscriptions) (outcome : value) : value :=
  match C with
  | Notification =>
      VObj [("allCountries", outcome); ("metricsUpdates", VBool false)]
  | MetricsNotification =>
      VObj [("allCountries", VBool false); ("metricsUpdates", outcome)]
  end.

Definition other (C : subscriptions) : subscriptions :=
  match C with
  | Notification => MetricsNotification
  | MetricsNotification => Notification
  end.

Definition subscribed (results : value) : response :=
  {| status := 201;
     body := VObj [("message", VStr "Successfully subscribed");
                   ("results", results)] |}.

(** ** Sample documents *)

Module Examples.
Import Sample.

Definition num (z : Z) : value := VNum (Num.of_Z z).

Definition statement2022 : value :=
  VObj [("date", VStr "2022-01-01"); ("revenue", num 100);
        ("grossProfit", num 40); ("netIncome", num 5);
        ("calendarYear", VStr "2022")].

Definition statement2023 : value :=
  VObj [("date", VStr "2023-01-01"); ("revenue", num 200);
        ("grossProfit", num 80); ("netIncome", num 7);
        ("calendarYear", VStr "2023")].

(** A year without profit. *)
Definition statementZero : value :=
  VObj [("date", VStr "2023-01-01"); ("revenue", num 200);
        ("grossProfit", num 80); ("netIncome", num 0);
        ("calendarYear", VStr "2023")].

Definition cap2023 : value :=
  VObj [("date", VStr "2023-06-01"); ("marketCap", num 1000)].

(** A market-cap entry that lacks its [marketCap]. *)
Definition capWithoutValue : value := VObj [("date", VStr "2023-06-01")].

Definition financialData : value :=
  VObj [("ticker", VStr "X");
        ("income_statement", VArr [statement2022; statement2023]);
        ("market_cap", VArr [cap2023])].

Definition financialDataZero : value :=
  VObj [("ticker", VStr "X");
        ("income_statement", VArr [statementZero]);
        ("market_cap", VArr [cap2023])].

Definition financialDataNoCap : value :=
  VObj [("ticker", VStr "X");
        ("income_statement", VArr [statement2023]);
        ("market_cap", VArr [capWithoutValue])].

(** The largest finite number over the smallest positive one. *)
Definition financialDataExtreme : value :=
  VObj [("ticker", VStr "X");
        ("income_statement",
         VArr [VObj [("date", VStr "2023-01-01");
                     ("netIncome", VNum (S754_finite false 1 (-1074)))]]);
        ("market_cap",
         VArr [VObj [("date", VStr "2023-06-01");
                     ("marketCap",
                      VNum (S754_finite false 9007199254740991 971))]])].

Definition valuationMetrics : value :=
  VObj [("ticker", VStr "X"); ("market_cap", num 5555);
        ("latest_fiscal_year", VStr "2023");
        ("growth_metrics", VObj [("revenue_growth_pct", num 12)]);
        ("raw_values", VObj [("current_revenue", num 300);
                             ("current_netIncome", num 0)]);
        ("valuation_multiples_raw", VObj [("marketcap_to_revenue", num 18)])].

Definition company : value :=
  VObj [("ticker", VStr "X"); ("name", VStr "Xco")].

Definition india : value :=
  VObj [("name", VStr "India (NSE)"); ("exchangeName", VStr "NSE");
        ("companies", VArr [VObj [("ticker", VStr "INFY")]])].

Definition unitedStates : value :=
  VObj [("name", VStr "United States (NYSE/NASDAQ)");
        ("exchangeName", VStr "NYSE/NASDAQ");
        ("categories",
         VArr [VObj [("name", VStr "CRM");
                     ("companies", VArr [VObj [("ticker", VStr "CRM")];
                                         VObj [("ticker", VStr "HUBS")]])];
               VObj [("name", VStr "Empty")];
               VObj [("name", VStr "Odd"); ("companies", VStr "none")];
               VObj [("name", VStr "Security");
                     ("companies", VArr [VObj [("ticker", VStr "X")]])]])].

(** A United States region that has no categories. *)
Definition bareUnitedStates : value :=
  VObj [("name", VStr "United States (NYSE/NASDAQ)");
        ("companies", VArr [VObj [("ticker", VStr "X")]])].

(** A region whose name opens with its qualifier. *)
Definition qualifierFirst : value := VObj [("name", VStr "(NYSE) Foo")].

Definition regions : list value := [india; unitedStates; india].

Definition valuationOnly : Sample.store :=
  {| Sample.saascompnies := VObj [("regions", VArr regions)];
     Sample.incomeusa := [];
     Sample.valuation_metrics := [valuationMetrics];
     Sample.notification_subscriptions := [];
     Sample.metrics_update_subscriptions := [] |}.

Definition store : Sample.store :=
  {| Sample.saascompnies := VObj [("regions", VArr regions)];
     Sample.incomeusa := [financialData];
     Sample.valuation_metrics := [];
     Sample.notification_subscriptions := [];
     Sample.metrics_update_subscriptions := [] |}.




Definition goodRequest : value :=
  VObj [("email", VStr "ann@example.com"); ("notifyAllCountries", VBool true)].

(** Valuation metrics with a percentage kept as text. *)
Definition valuationMetricsText : value :=
  VObj [("ticker", VStr "X"); ("market_cap", num 5555);
        ("growth_metrics", VObj [("revenue_growth_pct", VStr "12.3")])].

Definition fullStore : Sample.store :=
  {| Sample.saascompnies := VObj [("regions", VArr regions)];
     Sample.incomeusa := [financialDataZero; financialData];
     Sample.valuation_metrics := [valuationMetrics];
     Sample.notification_subscriptions :=
       [VObj [("email", VStr "ann@example.com"); ("phone", VStr "1")]];
     Sample.metrics_update_subscriptions := [] |}.

Definition bareStore : Sample.store :=
  {| Sample.saascompnies := VObj [("regions", VArr [bareUnitedStates])];
     Sample.incomeusa := [financialData];
     Sample.valuation_metrics := [];
     Sample.notification_subscriptions := [];
     Sample.metrics_update_subscriptions := [] |}.


Definition phoneRequest : value :=
  VObj [("email", VStr "ann@example.com"); ("phone", VStr "2");
        ("notifyAllCountries", VBool true)].

Definition idleRequest : value := VObj [("email", VStr "ann@example.com")].

(** A request for both collections. *)
Definition bothRequest : value :=
  VObj [("email", VStr "ann@example.com"); ("notifyAllCountries", VBool true);
        ("notifyMetricsUpdates", VBool true)].

End Examples.

(** * Properties *)

(** ** Division never invents a NaN *)

Section Rounding.

Lemma iter_pos_invariant {A : Type} (f : A -> A) (P : A -> Prop) :
  (forall x, P x -> P (f x)) -> forall p x, P x -> P (SpecFloat.iter_pos f p x).
Proof.
  intros Hf p. induction p as [p IH | p IH |]; intros x Hx; simpl; auto.
Qed.

Lemma shr_1_nonneg mrs : 0 <= shr_m mrs -> 0 <= shr_m (shr_1 mrs).
Proof.
  destruct mrs as [m r s]. simpl.
  destruct m as [| [p | p |] | [p | p |]]; simpl; lia.
Qed.

Lemma shr_nonneg mrs e n : 0 <= shr_m mrs -> 0 <= shr_m (fst (shr mrs e n)).
Proof.
  intros Hm. destruct n; simpl; auto.
  apply iter_pos_invariant; auto using shr_1_nonneg.
Qed.

Lemma shr_fexp_nonneg m e l :
  0 <= m -> 0 <= shr_m (fst (shr_fexp Num.prec Num.emax m e l)).
Proof.
  intros Hm. unfold shr_fexp. apply shr_nonneg.
  destruct l as [| []]; simpl; lia.
Qed.

Lemma round_nearest_even_nonneg m l : 0 <= m -> 0 <= round_nearest_even m l.
Proof.
  intros Hm. destruct l as [| []]; simpl; try lia.
  destruct (Z.even m); lia.
Qed.

Lemma binary_round_aux_not_nan s m e l :
  0 <= m -> binary_round_aux Num.prec Num.emax s m e l <> S754_nan.
Proof.
  intros Hm. unfold binary_round_aux.
  pose proof (shr_fexp_nonneg m e l Hm) as H1.
  destruct (shr_fexp Num.prec Num.emax m e l) as [mrs' e'] eqn:E1. simpl in H1.
  pose proof (shr_fexp_nonneg
                (round_nearest_even (shr_m mrs') (loc_of_shr_record mrs'))
                e' loc_Exact (round_nearest_even_nonneg _ _ H1)) as H2.
  destruct (shr_fexp _ _ (round_nearest_even _ _) e' loc_Exact)
    as [mrs'' e''] eqn:E2. simpl in H2.
  destruct (shr_m mrs'') as [| p | p]; try discriminate; try lia.
  destruct (e'' <=? Num.emax - Num.prec); discriminate.
Qed.

Lemma div_core_nonneg m1 e1 m2 e2 :
  0 <= fst (fst (SFdiv_core_binary Num.prec Num.emax (Z.pos m1) e1 (Z.pos m2) e2)).
Proof.
  unfold SFdiv_core_binary.
  set (s := _ - _ - _).
  set (m' := match s with Z.pos _ => _ | 0 => _ | Z.neg _ => _ end).
  assert (Hm : 0 <= m').
  { subst m'. destruct s; try lia. apply Z.shiftl_nonneg. lia. }
  pose proof (Z_div_mod m' (Z.pos m2) ltac:(lia)) as Hd.
  destruct (Z.div_eucl m' (Z.pos m2)) as [q r]. simpl.
  destruct Hd as [Hq Hr]. nia.
Qed.

(** A finite dividend and a divisor that is not [NaN] and not zero give a
    quotient that is not [NaN]. *)
Lemma div_not_nan (x y : number) :
  Num.is_finite x = true -> Num.truthy y = true -> Num.is_nan (Num.div x y) = false.
Proof.
  intros Hx Hy.
  destruct x as [sx | sx | | sx mx ex]; try discriminate;
    destruct y as [sy | sy | | sy my ey]; try discriminate; try reflexivity.
  unfold Num.div, SFdiv.
  pose proof (div_core_nonneg mx ex my ey) as Hq.
  destruct (SFdiv_core_binary _ _ _ _ _ _) as [[mz ez] lz]. simpl in Hq.
  pose proof (binary_round_aux_not_nan (xorb sx sy) mz ez lz Hq) as Hn.
  destruct (binary_round_aux _ _ _ _ _ _); try reflexivity. congruence.
Qed.

End Rounding.

(** ** [toFixed] rounds to the nearest multiple of [10^-f]

    For a finite [x = m * 2^e] below [10^21] the digits printed are those of
    [n = round_scaled m e f]: [n / 10^f] is exact when [x] is an integer, and
    otherwise within half a unit of the last place of [x], ties going up. *)

Lemma round_scaled_exact (m : positive) (e : Z) (f : nat) :
  0 <= e -> Num.round_scaled m e f = Z.pos m * 2 ^ e * 10 ^ Z.of_nat f.
Proof.
  intros He. unfold Num.round_scaled.
  destruct (Z.leb_spec 0 e); [reflexivity | lia].
Qed.

Lemma round_scaled_nearest (m : positive) (e : Z) (f : nat) :
  e < 0 ->
  let n := Num.round_scaled m e f in
  let scaled := Z.pos m * 10 ^ Z.of_nat f in
  - 2 ^ (- e) < 2 * (2 ^ (- e) * n - scaled) <= 2 ^ (- e).
Proof.
  intros He. unfold Num.round_scaled.
  destruct (Z.leb_spec 0 e); [lia |]. cbv zeta.
  replace (1 - e) with (Z.succ (- e)) by lia.
  rewrite Z.pow_succ_r by lia.
  set (k := 2 ^ (- e)). assert (Hk : 0 < k) by (apply Z.pow_pos_nonneg; lia).
  set (a := Z.pos m * 10 ^ Z.of_nat f).
  replace (2 * Z.pos m * 10 ^ Z.of_nat f) with (2 * a) by (unfold a; ring).
  pose proof (Z.div_mod (2 * a + k) (2 * k) ltac:(lia)) as Hd.
  pose proof (Z.mod_pos_bound (2 * a + k) (2 * k) ltac:(lia)) as Hm.
  nia.
Qed.

(** ** The completion monad *)

Lemma bind_Ok {A B : Type} (m : result A) (f : A -> result B) (b : B) :
  m ≫= f = Ok b <-> exists a, m = Ok a /\ f a = Ok b.
Proof.
  destruct m as [a | e]; simpl; split.
  - intros Hf. eauto.
  - intros (a' & [= <-] & Hf). exact Hf.
  - discriminate.
  - intros (a' & [=] & _).
Qed.

Lemma get_Ok (v : value) (k : string) :
  nullish v = false -> get v k = Ok (member v k).
Proof. intros Hv. unfold get. now rewrite Hv. Qed.

Lemma get_opt_Ok (v : value) (k : string) : get_opt v k = Ok (member v k).
Proof.
  unfold get_opt, get. destruct (nullish v) eqn:E; [| reflexivity].
  destruct v; try discriminate; reflexivity.
Qed.

Lemma truthy_not_nullish (v : value) : truthy v = true -> nullish v = false.
Proof. destruct v; simpl; congruence. Qed.

(** ** Sorting with a comparator that decides a total preorder *)

Section SortFacts.
Context {A : Type} (cmp : A -> A -> result Z).
Context (P : A -> Prop) (R : A -> A -> Prop).
Hypothesis cmp_R :
  forall x y, P x -> P y -> exists c, cmp x y = Ok c /\ (c <= 0 <-> R x y).
Hypothesis R_total : forall x y, P x -> P y -> R x y \/ R y x.
Hypothesis R_trans : forall x y z, R x y -> R y z -> R x z.

Lemma insert_sorted_spec (x : A) (l : list A) :
  P x -> Forall P l -> StronglySorted R l ->
  exists r, insert_sorted cmp x l = Ok r /\ r ≡ₚ x :: l /\ StronglySorted R r.
Proof.
  intros Hx. induction l as [| y l IH]; intros Hl Hs.
  - exists [x]. repeat split; auto. repeat constructor.
  - inversion Hl as [| ? ? Hy Hl']; subst.
    inversion Hs as [| ? ? Hs' Hyl]; subst.
    destruct (cmp_R x y Hx Hy) as (c & Hc & Hiff).
    simpl. rewrite Hc. simpl.
    destruct (Z.leb_spec c 0) as [Hle | Hgt].
    + exists (x :: y :: l). repeat split; auto.
      constructor; auto. constructor; [tauto |].
      eapply Forall_impl; [exact Hyl |]. intros z Hz.
      apply R_trans with y; tauto.
    + destruct (IH Hl' Hs') as (r & Hr & Hperm & Hsorted).
      rewrite Hr. simpl. exists (y :: r). repeat split.
      * rewrite Hperm. apply perm_swap.
      * constructor; auto.
        rewrite Hperm. constructor; auto.
        destruct (R_total x y Hx Hy) as [Hxy | Hyx]; auto.
        apply Hiff in Hxy. lia.
Qed.

Lemma sort_by_spec (l : list A) :
  Forall P l ->
  exists s, sort_by cmp l = Ok s /\ s ≡ₚ l /\ StronglySorted R s.
Proof.
  induction l as [| x l IH]; intros Hl.
  - exists []. repeat split; auto. constructor.
  - inversion Hl as [| ? ? Hx Hl']; subst.
    destruct (IH Hl') as (s & Hs & Hperm & Hsorted).
    simpl. rewrite Hs. simpl.
    assert (Hps : Forall P s) by (rewrite Hperm; exact Hl').
    destruct (insert_sorted_spec x s Hx Hps Hsorted) as (r & Hr & Hp & Hso).
    exists r. repeat split; auto. rewrite Hp, Hperm. reflexivity.
Qed.

(** The first element of the sorted array is in front of every element. *)
Lemma sort_by_head (l : list A) :
  Forall P l -> l <> [] ->
  exists h s, sort_by cmp l = Ok (h :: s) /\ h ∈ l /\ forall y, y ∈ l -> R h y.
Proof.
  intros Hl Hne.
  destruct (sort_by_spec l Hl) as (s & Hs & Hperm & Hsorted).
  destruct s as [| h s].
  - apply Permutation_nil_l in Hperm. congruence.
  - exists h, s. split; [exact Hs |].
    assert (Hh : h ∈ l) by (rewrite <- Hperm; left).
    split; [exact Hh |]. intros y Hy.
    rewrite <- Hperm in Hy. inversion Hsorted as [| ? ? _ Hall]; subst.
    apply elem_of_cons in Hy as [-> | Hy].
    + rewrite Forall_forall in Hl.
      destruct (R_total h h); auto.
    + rewrite Forall_forall in Hall. auto.
Qed.

End SortFacts.

(** ** Objects *)

Lemma field_obj_set (k : string) (v : value) (o : object) :
  field (obj_set k v o) k = v.
Proof.
  unfold field, lookup_field.
  induction o as [| [k' v'] o IH]; simpl.
  - now rewrite String.eqb_refl.
  - destruct (String.eqb k' k) eqn:E; simpl.
    + now rewrite String.eqb_refl.
    + now rewrite E.
Qed.

Lemma field_obj_set_other (k k' : string) (v : value) (o : object) :
  k <> k' -> field (obj_set k v o) k' = field o k'.
Proof.
  intros Hne. unfold field, lookup_field.
  induction o as [| [k0 v0] o IH]; simpl.
  - destruct (String.eqb_spec k k'); [contradiction | reflexivity].
  - destruct (String.eqb_spec k0 k) as [-> | Hk]; simpl.
    + destruct (String.eqb_spec k k'); [contradiction | reflexivity].
    + destruct (String.eqb_spec k0 k'); [reflexivity | exact IH].
Qed.

(** ** The latest entry of a series *)

Section Latest.
Context `{Host}.

Lemma byDateDesc_dated (a b : value) (ta tb : Z) :
  entryTime a = Some ta -> entryTime b = Some tb ->
  byDateDesc a b = Ok (tb - ta).
Proof.
  unfold entryTime, byDateDesc. intros Ha Hb.
  destruct (get b "date") as [db |]; simpl in *; [| discriminate].
  destruct (Date_new db) as [[t1 |] |]; simpl in *; try discriminate.
  destruct (get a "date") as [da |]; simpl in *; [| discriminate].
  destruct (Date_new da) as [[t2 |] |]; simpl in *; try discriminate.
  congruence.
Qed.

Lemma dated_defined (l : list value) :
  Forall dated l ->
  List.filter (fun v => negb (is_undefined v)) l = l
  /\ List.filter is_undefined l = [].
Proof.
  induction 1 as [| e l He _ [IH1 IH2]]; [auto |].
  destruct He as [t Ht]. destruct e; try discriminate; simpl; rewrite IH1, IH2; auto.
Qed.

(** On a non-empty array of dated entries the latest entry is an entry of
    the array, and no entry has a later date. *)
Lemma latestEntry_max (l : list value) :
  l <> [] -> Forall dated l ->
  exists e t, latestEntry (VArr l) = Ok e /\ e ∈ l /\ entryTime e = Some t
    /\ forall e' t', e' ∈ l -> entryTime e' = Some t' -> t' <= t.
Proof.
  intros Hne Hl.
  set (time := fun e => default 0 (entryTime e)).
  destruct (sort_by_head byDateDesc dated (fun a b => time b <= time a))
    with (l := l) as (h & s & Hs & Hh & Hmax); auto.
  - intros x y [tx Hx] [ty Hy]. exists (ty - tx). split.
    + now apply byDateDesc_dated.
    + unfold time. rewrite Hx, Hy. simpl. lia.
  - intros x y _ _. lia.
  - intros x y z. lia.
  - assert (Hd : dated h) by (rewrite Forall_forall in Hl; auto).
    destruct Hd as [t Ht]. exists h, t.
    unfold latestEntry, js_sort. simpl.
    rewrite bool_decide_true by exact Hne.
    destruct (dated_defined l Hl) as [-> ->]. rewrite Hs. simpl.
    repeat split; auto.
    intros e' t' He' Ht'. specialize (Hmax e' He').
    unfold time in Hmax. now rewrite Ht, Ht' in Hmax.
Qed.

Lemma latestEntry_absent : latestEntry VUndefined = Ok VNull.
Proof. reflexivity. Qed.

Lemma latestEntry_empty : latestEntry (VArr []) = Ok VNull.
Proof. reflexivity. Qed.

Lemma entryTime_string (e : value) (s : string) :
  member e "date" = VStr s -> entryTime e = DateParse s.
Proof.
  intros Hm. unfold entryTime.
  destruct e; try discriminate. rewrite get_Ok by reflexivity.
  rewrite Hm. simpl. now destruct (DateParse s).
Qed.

(** C5. For the [income_statement] series and, by the same rule, for the
    [market_cap] series of a ticker's financial data: the latest entry is
    [null] when the array is absent or empty; on a non-empty array of dated
    entries it is an entry of the array with the maximum date; and of two
    entries dated 2022-01-01 and 2023-01-01, in either order, it is the one
    of 2023. The host is asked only to read those two dates in their
    calendar order, as ECMAScript prescribes for the date-only format. *)
Theorem latest_entry_has_maximum_date (t22 t23 : Z) :
  DateParse "2022-01-01" = Some t22 ->
  DateParse "2023-01-01" = Some t23 ->
  t22 < t23 ->
  forall (series : string) (latestOf : value -> result value),
    (series = "income_statement" /\ latestOf = latestIncomeStatementOf)
    \/ (series = "market_cap" /\ latestOf = latestMarketCapOf) ->
    forall financialData : value,
      nullish financialData = false ->
      (member financialData series = VUndefined ->
       latestOf financialData = Ok VNull)
      /\ (member financialData series = VArr [] ->
          latestOf financialData = Ok VNull)
      /\ (forall l : list value,
            member financialData series = VArr l -> l <> [] -> Forall dated l ->
            exists e t, latestOf financialData = Ok e /\ e ∈ l
              /\ entryTime e = Some t
              /\ forall e' t', e' ∈ l -> entryTime e' = Some t' -> t' <= t)
      /\ (forall e22 e23 l : value,
            member e22 "date" = VStr "2022-01-01" ->
            member e23 "date" = VStr "2023-01-01" ->
            l = VArr [e22; e23] \/ l = VArr [e23; e22] ->
            member financialData series = l ->
            latestOf financialData = Ok e23).
Proof.
  intros H22 H23 Hlt series latestOf Hseries fd Hfd.
  assert (Hof : forall v, member fd series = v -> latestOf fd = latestEntry v).
  { intros v Hv.
    destruct Hseries as [[-> ->] | [-> ->]];
      unfold latestIncomeStatementOf, latestMarketCapOf;
      rewrite get_Ok by exact Hfd; now rewrite Hv. }
  assert (Hmax : forall l, member fd series = VArr l -> l <> [] -> Forall dated l ->
            exists e t, latestOf fd = Ok e /\ e ∈ l /\ entryTime e = Some t
              /\ forall e' t', e' ∈ l -> entryTime e' = Some t' -> t' <= t).
  { intros l Hl Hne Hd. rewrite (Hof _ Hl). now apply latestEntry_max. }
  repeat split.
  - intros Hv. now rewrite (Hof _ Hv).
  - intros Hv. now rewrite (Hof _ Hv).
  - exact Hmax.
  - intros e22 e23 l He22 He23 Hl Hv.
    pose proof (entryTime_string _ _ He22) as T22. rewrite H22 in T22.
    pose proof (entryTime_string _ _ He23) as T23. rewrite H23 in T23.
    assert (Hin : exists l', l = VArr l' /\ l' <> [] /\ Forall dated l'
                  /\ e23 ∈ l' /\ forall e, e ∈ l' -> e = e22 \/ e = e23).
    { destruct Hl as [-> | ->]; eexists; (split; [reflexivity |]);
        (split; [discriminate |]);
        (split; [repeat constructor; unfold dated; rewrite ?T22, ?T23; eauto |]);
        (split; [| intros e]); rewrite !elem_of_cons, elem_of_nil; tauto. }
    destruct Hin as (l' & -> & Hne & Hd & H23in & Hcases).
    destruct (Hmax l' Hv Hne Hd) as (e & t & He & Hein & Ht & Hle).
    rewrite He. f_equal.
    destruct (Hcases e Hein) as [-> | ->]; [| reflexivity].
    specialize (Hle e23 t23 H23in T23). rewrite T22 in Ht. injection Ht as <-. lia.
Qed.

End Latest.

(** ** The enrichment tiers *)

Section EnrichmentFacts.
Context `{Host}.

Lemma member_truthy (v : value) (k : string) :
  truthy (member v k) = true -> exists o, v = VObj o.
Proof. destruct v; simpl; try discriminate. eauto. Qed.

Lemma or_statement_Ok (a latestIncomeStatement : value) (k : string) :
  or_statement a latestIncomeStatement k
  = Ok (if truthy a then a else member latestIncomeStatement k).
Proof.
  unfold or_statement. destruct (truthy a); [reflexivity | apply get_opt_Ok].
Qed.

Lemma fixed_field_numeric (o : value) (k : string) (f : nat) :
  numeric_or_absent (member o k) = true ->
  fixed_field o k f
  = Ok (match member o k with VNum x => VStr (toFixed x f) | _ => VUndefined end).
Proof.
  intros Hn. unfold fixed_field. rewrite get_opt_Ok. simpl.
  destruct (member o k); try discriminate; reflexivity.
Qed.

(** The enrichment is the tier that [select_tier] names. *)
Lemma enrich_tier (company financialData valuationMetrics lis lmc : value) :
  latestIncomeStatementOf financialData = Ok lis ->
  latestMarketCapOf financialData = Ok lmc ->
  nullish valuationMetrics = false ->
  enrich company financialData valuationMetrics =
    let raw_values := member valuationMetrics "raw_values" in
    let growth_metrics := member valuationMetrics "growth_metrics" in
    match select_tier valuationMetrics growth_metrics raw_values lis lmc with
    | Precomputed =>
        precomputed company valuationMetrics growth_metrics raw_values
          (member raw_values "current_revenue")
          (member raw_values "current_grossProfit")
          (member raw_values "current_netIncome") lis
    | Derived => derived company lis lmc
    | NoData => Ok company
    end.
Proof.
  intros Hlis Hlmc Hvm. unfold enrich. rewrite Hlis, Hlmc. simpl.
  rewrite !get_Ok by exact Hvm. simpl. rewrite !get_opt_Ok. reflexivity.
Qed.

Lemma select_precomputed (valuationMetrics lis lmc : value) :
  truthy (member valuationMetrics "growth_metrics")
  || truthy (member valuationMetrics "raw_values") = true ->
  select_tier valuationMetrics (member valuationMetrics "growth_metrics")
    (member valuationMetrics "raw_values") lis lmc = Precomputed.
Proof.
  intros Hor. unfold select_tier. rewrite Hor.
  apply orb_true_iff in Hor as [Hm | Hm];
    apply member_truthy in Hm as [o ->]; reflexivity.
Qed.

(** The record the precomputed tier returns. *)
Lemma precomputed_Ok (company valuationMetrics lis : value) :
  nullish valuationMetrics = false ->
  metrics_numeric valuationMetrics = true ->
  let raw_values := member valuationMetrics "raw_values" in
  let growth_metrics := member valuationMetrics "growth_metrics" in
  let multiples := member valuationMetrics "valuation_multiples_raw" in
  let from_raw raw k :=
    if truthy (member raw_values raw) then member raw_values raw
    else member lis k in
  let fixed o k f :=
    match member o k with VNum x => VStr (toFixed x f) | _ => VUndefined end in
  precomputed company valuationMetrics growth_metrics raw_values
    (member raw_values "current_revenue")
    (member raw_values "current_grossProfit")
    (member raw_values "current_netIncome") lis
  = Ok (VObj (obj_set "financials"
      (VObj [("marketCap", member valuationMetrics "market_cap");
             ("revenue", from_raw "current_revenue" "revenue");
             ("grossProfit", from_raw "current_grossProfit" "grossProfit");
             ("netIncome", from_raw "current_netIncome" "netIncome");
             ("revenueGrowth", fixed growth_metrics "revenue_growth_pct" 1%nat);
             ("grossProfitGrowth",
              fixed growth_metrics "gross_profit_growth_pct" 1%nat);
             ("netIncomeGrowth",
              fixed growth_metrics "net_income_growth_pct" 1%nat);
             ("year",
              if truthy (member valuationMetrics "latest_fiscal_year")
              then member valuationMetrics "latest_fiscal_year"
              else member lis "calendarYear");
             ("marketCapToRevenueMultiple",
              or_else (fixed multiples "marketcap_to_revenue" 2%nat) VNull);
             ("marketCapToNetIncomeMultiple",
              or_else (fixed multiples "marketcap_to_netincome" 2%nat) VNull);
             ("marketCapToGrossProfitMultiple",
              or_else (fixed multiples "marketcap_to_grossprofit" 2%nat) VNull);
             ("raw_values", raw_values);
             ("current_revenue", member raw_values "current_revenue");
             ("current_grossProfit", member raw_values "current_grossProfit");
             ("current_netIncome", member raw_values "current_netIncome")])
      (spread company))).
Proof.
  intros Hvm Hnum. unfold metrics_numeric in Hnum. simpl in Hnum.
  repeat (apply andb_prop in Hnum as [? Hnum]).
  repeat match goal with H : _ && _ = true |- _ => apply andb_prop in H as [? ?] end.
  cbv zeta. unfold precomputed.
  rewrite !get_Ok by exact Hvm. simpl.
  rewrite !or_statement_Ok. simpl.
  rewrite !fixed_field_numeric by assumption. reflexivity.
Qed.

(** C1. A company whose valuation metrics have a truthy [growth_metrics] or
    [raw_values] (any object is truthy) gets the precomputed tier, whatever
    the latest income statement and the latest market-cap entry are, and
    [financials.marketCap] is the [market_cap] of the valuation metrics.
    The documents are well-formed: the latest entries resolve, and the
    precomputed percentages and multiples are numbers where present. *)
Theorem precomputed_tier_wins
    (company financialData valuationMetrics lis lmc : value) :
  latestIncomeStatementOf financialData = Ok lis ->
  latestMarketCapOf financialData = Ok lmc ->
  truthy (member valuationMetrics "growth_metrics")
  || truthy (member valuationMetrics "raw_values") = true ->
  metrics_numeric valuationMetrics = true ->
  select_tier valuationMetrics (member valuationMetrics "growth_metrics")
    (member valuationMetrics "raw_values") lis lmc = Precomputed
  /\ exists enriched,
       enrich company financialData valuationMetrics = Ok enriched
       /\ member (member enriched "financials") "marketCap"
          = member valuationMetrics "market_cap".
Proof.
  intros Hlis Hlmc Hor Hnum.
  pose proof (select_precomputed valuationMetrics lis lmc Hor) as Hsel.
  split; [exact Hsel |].
  assert (Hvm : nullish valuationMetrics = false).
  { apply orb_true_iff in Hor as [Hm | Hm];
      apply member_truthy in Hm as [o ->]; reflexivity. }
  rewrite (enrich_tier _ _ _ _ _ Hlis Hlmc Hvm). cbv zeta. rewrite Hsel.
  rewrite (precomputed_Ok _ _ _ Hvm Hnum). cbv zeta.
  eexists. split; [reflexivity |].
  simpl. rewrite field_obj_set. reflexivity.
Qed.

(** C2, as the code has it. In the precomputed tier [revenue],
    [grossProfit] and [netIncome] are each the raw current value of the
    valuation metrics when that value is truthy, and otherwise the field of
    the latest income statement ([undefined] when there is no statement):
    a raw value that is present but zero, [NaN], [null], [false] or the
    empty string falls back as well. *)
Theorem precomputed_raw_or_statement
    (company financialData valuationMetrics lis lmc : value) :
  latestIncomeStatementOf financialData = Ok lis ->
  latestMarketCapOf financialData = Ok lmc ->
  truthy (member valuationMetrics "growth_metrics")
  || truthy (member valuationMetrics "raw_values") = true ->
  metrics_numeric valuationMetrics = true ->
  exists enriched,
    enrich company financialData valuationMetrics = Ok enriched
    /\ forall out raw statement : string,
         (out, raw, statement) ∈
           [("revenue", "current_revenue", "revenue");
            ("grossProfit", "current_grossProfit", "grossProfit");
            ("netIncome", "current_netIncome", "netIncome")] ->
         member (member enriched "financials") out
         = (let x := member (member valuationMetrics "raw_values") raw in
            if truthy x then x else member lis statement).
Proof.
  intros Hlis Hlmc Hor Hnum.
  pose proof (select_precomputed valuationMetrics lis lmc Hor) as Hsel.
  assert (Hvm : nullish valuationMetrics = false).
  { apply orb_true_iff in Hor as [Hm | Hm];
      apply member_truthy in Hm as [o ->]; reflexivity. }
  rewrite (enrich_tier _ _ _ _ _ Hlis Hlmc Hvm). cbv zeta. rewrite Hsel.
  rewrite (precomputed_Ok _ _ _ Hvm Hnum). cbv zeta.
  eexists. split; [reflexivity |].
  intros out raw statement Hin.
  simpl. rewrite field_obj_set.
  rewrite !elem_of_cons, elem_of_nil in Hin.
  destruct Hin as [[= -> -> ->] | [[= -> -> ->] | [[= -> -> ->] | []]]];
    reflexivity.
Qed.

(** C4. When neither tier applies, the enrichment returns the company
    record itself: no [financials] property is added, so a record without
    one comes back without one. *)
Theorem no_data_returns_company
    (company financialData valuationMetrics lis lmc : value) :
  latestIncomeStatementOf financialData = Ok lis ->
  latestMarketCapOf financialData = Ok lmc ->
  nullish valuationMetrics = false ->
  truthy (member valuationMetrics "growth_metrics")
  || truthy (member valuationMetrics "raw_values") = false ->
  truthy lis && truthy lmc = false ->
  enrich company financialData valuationMetrics = Ok company
  /\ forall o, company = VObj o -> has_key "financials" o = false ->
       exists o', enrich company financialData valuationMetrics = Ok (VObj o')
         /\ has_key "financials" o' = false.
Proof.
  intros Hlis Hlmc Hvm Hor Hand.
  assert (He : enrich company financialData valuationMetrics = Ok company).
  { rewrite (enrich_tier _ _ _ _ _ Hlis Hlmc Hvm). cbv zeta.
    unfold select_tier. rewrite Hor, Hand, andb_false_r. reflexivity. }
  split; [exact He |].
  intros o -> Ho. exists o. split; [exact He | exact Ho].
Qed.

(** A company that neither map knows is returned as it is. *)
Lemma unmatched_company_unchanged
    (financialDataMap valuationMetricsMap : tickerMap)
    (company ticker : value) (k : string) :
  get company "ticker" = Ok ticker -> ToString ticker = Ok k ->
  lookup_or_empty k financialDataMap = VObj [] ->
  lookup_or_empty k valuationMetricsMap = VObj [] ->
  enrichCompany financialDataMap valuationMetricsMap company = Ok company.
Proof.
  intros Ht Hk Hf Hv. unfold enrichCompany. rewrite Ht. simpl. rewrite Hk. simpl.
  rewrite Hf, Hv.
  now rewrite (enrich_tier company (VObj []) (VObj []) VNull VNull).
Qed.

End EnrichmentFacts.

(** ** The derived tier *)

Section DerivedFacts.
Context `{Host}.

Lemma multiple_numeric (marketCap : number) (d : value) :
  numeric_or_absent d = true ->
  multiple (VNum marketCap) d
  = Ok (match d with
        | VNum y =>
            if Num.truthy y then VStr (toFixed (Num.div marketCap y) 2) else VNull
        | _ => VNull
        end).
Proof.
  intros Hd. unfold multiple.
  destruct d as [| | | y | | | |]; try discriminate; try reflexivity.
  simpl. destruct (Num.truthy y); reflexivity.
Qed.

(** The record the derived tier returns on numeric data. *)
Lemma derived_Ok (company lis lmc : value) (marketCap : number) :
  truthy lis = true -> truthy lmc = true ->
  member lmc "marketCap" = VNum marketCap ->
  statement_numeric lis = true ->
  let ratio k :=
    match member lis k with
    | VNum y =>
        if Num.truthy y then VStr (toFixed (Num.div marketCap y) 2) else VNull
    | _ => VNull
    end in
  derived company lis lmc
  = Ok (VObj (obj_set "financials"
      (VObj [("marketCap", VNum marketCap);
             ("revenue", member lis "revenue");
             ("grossProfit", member lis "grossProfit");
             ("netIncome", member lis "netIncome");
             ("marketCapToRevenueMultiple", ratio "revenue");
             ("marketCapToNetIncomeMultiple", ratio "netIncome");
             ("marketCapToGrossProfitMultiple", ratio "grossProfit");
             ("year", member lis "calendarYear")])
      (spread company))).
Proof.
  intros Hlis Hlmc Hcap Hnum. unfold statement_numeric in Hnum. simpl in Hnum.
  repeat (apply andb_prop in Hnum as [? Hnum]).
  cbv zeta. unfold derived.
  rewrite !get_Ok by (apply truthy_not_nullish; assumption).
  simpl. rewrite Hcap.
  rewrite !multiple_numeric by assumption. reflexivity.
Qed.

(** C3, as the code has it. In the derived tier, with a finite number as
    the latest [marketCap] and numbers (or nothing) as the statement's
    [netIncome], [grossProfit] and [revenue]: the enrichment returns, each
    multiple is [null] when its denominator is zero, [NaN] or absent, and
    otherwise the string [(marketCap / denominator).toFixed(2)], whose
    quotient is not [NaN]. *)
Theorem derived_multiples
    (company financialData valuationMetrics lis lmc : value)
    (marketCap : number) :
  latestIncomeStatementOf financialData = Ok lis ->
  latestMarketCapOf financialData = Ok lmc ->
  nullish valuationMetrics = false ->
  truthy (member valuationMetrics "growth_metrics")
  || truthy (member valuationMetrics "raw_values") = false ->
  truthy lis = true -> truthy lmc = true ->
  member lmc "marketCap" = VNum marketCap ->
  Num.is_finite marketCap = true ->
  statement_numeric lis = true ->
  exists enriched,
    enrich company financialData valuationMetrics = Ok enriched
    /\ forall out denominator : string,
         (out, denominator) ∈
           [("marketCapToNetIncomeMultiple", "netIncome");
            ("marketCapToGrossProfitMultiple", "grossProfit");
            ("marketCapToRevenueMultiple", "revenue")] ->
         match member lis denominator with
         | VNum y =>
             if Num.truthy y then
               member (member enriched "financials") out
               = VStr (toFixed (Num.div marketCap y) 2)
               /\ Num.is_nan (Num.div marketCap y) = false
             else member (member enriched "financials") out = VNull
         | _ => member (member enriched "financials") out = VNull
         end.
Proof.
  intros Hlis Hlmc Hvm Hor Tlis Tlmc Hcap Hfin Hnum.
  rewrite (enrich_tier _ _ _ _ _ Hlis Hlmc Hvm). cbv zeta.
  unfold select_tier. rewrite Hor, Tlis, Tlmc, andb_false_r. simpl.
  rewrite (derived_Ok _ _ _ _ Tlis Tlmc Hcap Hnum). cbv zeta.
  eexists. split; [reflexivity |].
  intros out d Hin. simpl. rewrite field_obj_set.
  rewrite !elem_of_cons, elem_of_nil in Hin.
  destruct Hin as [[= -> ->] | [[= -> ->] | [[= -> ->] | []]]];
    match goal with |- context [member lis ?k] =>
      destruct (member lis k) as [| | | y | | | |]; try reflexivity;
      destruct (Num.truthy y) eqn:Ty; [split; [reflexivity |] | reflexivity];
      now apply div_not_nan
    end.
Qed.

End DerivedFacts.

(** ** The order of strings *)

Lemma compare_lt_trans (a b c : string) :
  String.compare a b = Lt -> String.compare b c = Lt -> String.compare a c = Lt.
Proof.
  change String.compare with OrdersEx.String_as_OT.compare.
  apply (@StrictOrder_Transitive _ _ OrdersEx.String_as_OT.lt_strorder).
Qed.

Lemma leb_cases (a b : string) :
  String.leb a b = true <-> String.compare a b = Lt \/ a = b.
Proof.
  unfold String.leb. destruct (String.compare a b) eqn:E; split; auto.
  - intros _. right. now apply String.compare_eq_iff.
  - discriminate.
  - intros [| ->]; [discriminate |].
    pose proof (String.compare_antisym b b) as Ha. rewrite E in Ha. discriminate.
Qed.

Lemma leb_trans (a b c : string) :
  String.leb a b = true -> String.leb b c = true -> String.leb a c = true.
Proof.
  rewrite !leb_cases. intros [Hab | ->] [Hbc | ->]; auto.
  left. eapply compare_lt_trans; eassumption.
Qed.

Lemma default_compare_spec (a b : string) :
  exists c, default_compare a b = Ok c /\ (c <= 0 <-> String.leb a b = true).
Proof.
  unfold default_compare, String.leb. eexists. split; [reflexivity |].
  destruct (String.compare a b); split; intros; first [lia | reflexivity | discriminate].
Qed.

(** [sort()] returns, and returns its argument in ascending order. *)
Lemma sort_strings (l : list string) :
  exists s, sort_by default_compare l = Ok s /\ s ≡ₚ l
    /\ StronglySorted (fun a b => String.leb a b = true) s.
Proof.
  apply (sort_by_spec default_compare (fun _ => True)).
  - intros x y _ _. apply default_compare_spec.
  - intros x y _ _. apply String.leb_total.
  - apply leb_trans.
  - apply Forall_forall. auto.
Qed.

Lemma sorted_nodup_strict (l : list string) :
  NoDup l -> StronglySorted (fun a b => String.leb a b = true) l ->
  StronglySorted (fun a b => String.ltb a b = true) l.
Proof.
  induction 2 as [| x l Hs IH Hall]; constructor.
  - apply IH. now apply NoDup_cons_1_2 with x.
  - apply NoDup_cons in H as [Hx _].
    rewrite Forall_forall in *. intros y Hy. specialize (Hall y Hy).
    apply leb_cases in Hall as [Hlt | ->]; [| contradiction].
    unfold String.ltb. now rewrite Hlt.
Qed.

Lemma elem_of_List_filter {A : Type} (f : A -> bool) (l : list A) (x : A) :
  x ∈ List.filter f l <-> x ∈ l /\ f x = true.
Proof. rewrite !list_elem_of_In. apply filter_In. Qed.

(** ** [new Set] *)

Lemma set_add_spec (seen l : list string) :
  NoDup seen ->
  NoDup (foldl set_add seen l)
  /\ (forall x, x ∈ foldl set_add seen l <-> x ∈ seen \/ x ∈ l)
  /\ (length (foldl set_add seen l) <= length seen + length l)%nat.
Proof.
  revert seen. induction l as [| y l IH]; intros seen Hnd; simpl.
  - repeat split; auto; [| lia]. intros [| Hx]; auto. inversion Hx.
  - assert (Hnd' : NoDup (set_add seen y)).
    { unfold set_add. case_bool_decide; auto.
      apply NoDup_app. repeat split; auto.
      - intros x Hx Hy. apply list_elem_of_singleton in Hy as ->. contradiction.
      - apply NoDup_singleton. }
    destruct (IH _ Hnd') as (H1 & H2 & H3). repeat split; auto.
    + intros Hx. apply H2 in Hx as [Hx | Hx].
      * unfold set_add in Hx. case_bool_decide; auto.
        apply elem_of_app in Hx as [Hx | Hx]; auto.
        apply list_elem_of_singleton in Hx as ->. right. left.
      * right. now right.
    + intros [Hx | Hx]; apply H2.
      * left. unfold set_add. case_bool_decide; auto.
        apply elem_of_app. now left.
      * apply elem_of_cons in Hx as [-> | Hx]; auto.
        left. unfold set_add. case_bool_decide; auto.
        apply elem_of_app. right. left.
    + assert (length (set_add seen y) <= S (length seen))%nat.
      { unfold set_add. case_bool_decide; [lia |].
        rewrite length_app. simpl. lia. }
      lia.
Qed.

Lemma Set_of_spec (l : list string) :
  NoDup (Set_of l) /\ (forall x, x ∈ Set_of l <-> x ∈ l)
  /\ (length (Set_of l) <= length l)%nat.
Proof.
  destruct (set_add_spec [] l (NoDup_nil_2)) as (H1 & H2 & H3).
  repeat split; auto.
  - intros Hx. apply H2 in Hx as [Hx | Hx]; auto. inversion Hx.
  - intros Hx. apply H2. auto.
Qed.

(** ** The region index *)

Lemma countryNameOf_text (region : value) :
  name_is_text region = true -> countryNameOf region = Ok (country_of region).
Proof.
  unfold name_is_text, countryNameOf, country_of. intros Hn.
  destruct (truthy region) eqn:Tr; simpl.
  - rewrite get_Ok by now apply truthy_not_nullish. simpl.
    destruct (member region "name") as [| | b | n | s | t | l | o];
      simpl in *; try reflexivity; try (rewrite Hn; reflexivity);
      try discriminate.
    destruct (String.eqb s ""); reflexivity.
  - destruct region; simpl in *; try discriminate; reflexivity.
Qed.

Lemma mapM_countryNameOf (regions : list value) :
  forallb name_is_text regions = true ->
  mapM countryNameOf regions = Ok (country_of <$> regions).
Proof.
  induction regions as [| r l IH]; simpl; [reflexivity |].
  intros Hall. apply andb_prop in Hall as [Hr Hl].
  rewrite (countryNameOf_text r Hr), (IH Hl). reflexivity.
Qed.

(** C6, as the code has it. For regions named by text, [listCountries]
    returns the list that is strictly ascending (so sorted and without
    duplicates), no longer than the region list, and made of exactly the
    non-empty countries of the regions; the country of a region is
    ["Unknown"] when the name is absent or empty, the trimmed name when the
    name opens with ["("], and the trimmed part of the name before the first
    ["("] otherwise. *)
Theorem listCountries_sorted_unique (regions : list value) :
  forallb name_is_text regions = true ->
  exists out,
    listCountries regions = Ok out
    /\ StronglySorted (fun a b => String.ltb a b = true) out
    /\ NoDup out
    /\ (length out <= length regions)%nat
    /\ (forall x, x ∈ out <->
          x <> "" /\ exists region, region ∈ regions /\ country_of region = x)
    /\ (forall region, region ∈ regions ->
          countryNameOf region = Ok (country_of region)).
Proof.
  intros Htext. unfold listCountries.
  rewrite (mapM_countryNameOf regions Htext). simpl.
  set (names := List.filter _ _).
  destruct (Set_of_spec names) as (Hnd & Hin & Hlen).
  destruct (sort_strings (Set_of names)) as (out & Hout & Hperm & Hsorted).
  exists out. split; [exact Hout |].
  assert (Hnd' : NoDup out) by now rewrite Hperm.
  split; [now apply sorted_nodup_strict |].
  split; [exact Hnd' |].
  split.
  { rewrite Hperm. etransitivity; [exact Hlen |].
    subst names. etransitivity; [apply List.filter_length_le |].
    now rewrite length_fmap. }
  split.
  - intros x. rewrite Hperm, Hin. subst names.
    rewrite elem_of_List_filter, list_elem_of_fmap.
    destruct (String.eqb_spec x ""); simpl; split.
    + intros [_ [=]].
    + intros [Hx _]. contradiction.
    + intros [(r & -> & Hr) _]. split; eauto.
    + intros [_ (r & Hr & <-)]. split; eauto.
  - intros region Hr. apply countryNameOf_text.
    rewrite forallb_forall in Htext. apply Htext. now apply list_elem_of_In.
Qed.

Lemma regionMatches_text (countryName : string) (region : value) :
  countryName <> "" -> name_is_text region = true ->
  regionMatches countryName region = Ok (name_startsWith countryName region).
Proof.
  unfold name_is_text, regionMatches, name_startsWith. intros Hne Hn.
  destruct (truthy region) eqn:Tr.
  - rewrite get_Ok by now apply truthy_not_nullish. simpl.
    destruct (member region "name") as [| | b | n | s | t | l | o];
      simpl in *; try reflexivity; try discriminate;
      try (apply negb_true_iff in Hn; rewrite Hn; reflexivity).
    destruct (String.eqb_spec s "") as [-> | Hs]; simpl; [| reflexivity].
    unfold startsWith. destruct countryName; [contradiction | reflexivity].
  - destruct region; simpl in *; try discriminate; reflexivity.
Qed.

Lemma findM_pure {A : Type} (p : A -> result bool) (q : A -> bool) (l : list A) :
  (forall x, x ∈ l -> p x = Ok (q x)) -> findM p l = Ok (List.find q l).
Proof.
  induction l as [| x l IH]; intros Hp; simpl; [reflexivity |].
  rewrite (Hp x) by left. simpl.
  destruct (q x); [reflexivity |]. apply IH. intros y Hy. apply Hp. now right.
Qed.

(** C7. For regions named by text and a route parameter (which is never
    empty), [findRegion] returns the first region whose name starts with
    [countryName], and nothing when there is none. The match is a prefix
    match on the whole stored name, case-sensitive: ["United States"] finds
    the region named ["United States (NYSE/NASDAQ)"], and so does that whole
    name; ["united states"] and the inner ["States"] find nothing. *)
Theorem findRegion_first_prefix (regions : list value) (countryName : string) :
  countryName <> "" ->
  forallb name_is_text regions = true ->
  findRegion regions countryName
  = Ok (List.find (name_startsWith countryName) regions)
  /\ findRegion Examples.regions "United States" = Ok (Some Examples.unitedStates)
  /\ findRegion Examples.regions "United States (NYSE/NASDAQ)"
     = Ok (Some Examples.unitedStates)
  /\ findRegion Examples.regions "united states" = Ok None
  /\ findRegion Examples.regions "States" = Ok None.
Proof.
  intros Hne Htext. split; [| repeat split; reflexivity].
  apply findM_pure. intros r Hr. apply regionMatches_text; [exact Hne |].
  rewrite forallb_forall in Htext. apply Htext. now apply list_elem_of_In.
Qed.

Lemma addCategory_Ok (allCompanies : list value) (category : value) :
  nullish category = false ->
  addCategory allCompanies category
  = Ok (allCompanies ++ companiesOf category)%list.
Proof.
  intros Hc. unfold addCategory, companiesOf. rewrite get_Ok by exact Hc.
  simpl. destruct (member category "companies");
    rewrite ?andb_false_r, ?app_nil_r; reflexivity.
Qed.

Lemma reduceM_addCategory (cats acc : list value) :
  forallb (fun c => negb (nullish c)) cats = true ->
  reduceM addCategory cats acc
  = Ok (acc ++ List.concat (companiesOf <$> cats))%list.
Proof.
  revert acc. induction cats as [| c cats IH]; intros acc Hall; simpl.
  - now rewrite app_nil_r.
  - apply andb_prop in Hall as [Hc Hcats]. apply negb_true_iff in Hc.
    rewrite (addCategory_Ok _ _ Hc). simpl.
    rewrite (IH _ Hcats), <- app_assoc. reflexivity.
Qed.

(** C8. When [countryName] starts with ["United States"] and the category
    is missing (or otherwise falsy) or is ["All"], the selected companies
    are the companies of all categories of the matching region, in category
    order and each category in its own order; a category whose [companies]
    is missing or is not an array contributes nothing. *)
Theorem all_categories_concatenated
    (matchingRegion category : value) (countryName : string)
    (categories : list value) :
  startsWith countryName "United States" = true ->
  truthy category = false \/ category = VStr "All" ->
  member matchingRegion "categories" = VArr categories ->
  forallb (fun c => negb (nullish c)) categories = true ->
  selectCompanies matchingRegion countryName category
  = Ok (VArr (List.concat (companiesOf <$> categories))).
Proof.
  intros Hus Hcat Hcats Hall. unfold selectCompanies. rewrite Hus. simpl.
  assert (Hsel : truthy category && negb (strict_eq category (VStr "All")) = false).
  { destruct Hcat as [-> | ->]; reflexivity. }
  rewrite Hsel.
  assert (Hr : nullish matchingRegion = false).
  { destruct matchingRegion; try discriminate; reflexivity. }
  rewrite get_Ok by exact Hr. rewrite Hcats. simpl.
  rewrite (reduceM_addCategory _ _ Hall). reflexivity.
Qed.

(** ** The subscription and the financials handlers *)

(** The pattern of [emailRegex], read off [domain] and [emailFormat]. *)
Lemma plain1_cons (c : ascii) (s : list ascii) :
  plain1 (c :: s) = plain c && (bool_decide (s = []) || plain1 s).
Proof.
  unfold plain1. simpl. destruct s; simpl; [now rewrite andb_true_r |].
  reflexivity.
Qed.

Lemma domain_spec (s : list ascii) :
  domain s = true <->
  exists b c, s = (b ++ "."%char :: c)%list /\ plain1 b = true /\ plain1 c = true.
Proof.
  induction s as [| c0 r IH].
  - split; [discriminate |]. intros (b & c & Hs & _). now destruct b.
  - simpl. split.
    + intros Hd. apply andb_prop in Hd as [Hc0 Hr].
      destruct r as [| d r']; [discriminate |].
      apply orb_prop in Hr as [Hr | Hr].
      * apply andb_prop in Hr as [Hd Hr']. apply Ascii.eqb_eq in Hd as ->.
        exists [c0], r'. repeat split; auto.
        unfold plain1. simpl. now rewrite Hc0.
      * apply IH in Hr as (b & c & -> & Hb & Hc).
        exists (c0 :: b), c. repeat split; auto.
        rewrite plain1_cons, Hc0, Hb. simpl. apply orb_true_r.
    + intros (b & c & Hs & Hb & Hc).
      destruct b as [| b0 b]; [discriminate |].
      injection Hs as <- ->.
      rewrite plain1_cons in Hb. apply andb_prop in Hb as [Hc0 Hb].
      rewrite Hc0. simpl.
      destruct b as [| b1 b]; simpl.
      * rewrite Hc. reflexivity.
      * apply orb_true_iff. right. apply IH.
        exists (b1 :: b), c. repeat split; auto.
Qed.

Lemma emailFormat_spec (s : list ascii) :
  emailFormat s = true <->
  exists a b c, s = (a ++ "@"%char :: b ++ "."%char :: c)%list
    /\ plain1 a = true /\ plain1 b = true /\ plain1 c = true.
Proof.
  induction s as [| c0 r IH].
  - split; [discriminate |]. intros (a & b & c & Hs & _). now destruct a.
  - simpl. split.
    + intros Hd. apply andb_prop in Hd as [Hc0 Hr].
      destruct r as [| d r']; [discriminate |].
      apply orb_prop in Hr as [Hr | Hr].
      * apply andb_prop in Hr as [Hd Hr']. apply Ascii.eqb_eq in Hd as ->.
        apply domain_spec in Hr' as (b & c & -> & Hb & Hc).
        exists [c0], b, c. repeat split; auto.
        unfold plain1. simpl. now rewrite Hc0.
      * apply IH in Hr as (a & b & c & -> & Ha & Hb & Hc).
        exists (c0 :: a), b, c. repeat split; auto.
        rewrite plain1_cons, Hc0, Ha. simpl. apply orb_true_r.
    + intros (a & b & c & Hs & Ha & Hb & Hc).
      destruct a as [| a0 a]; [discriminate |].
      injection Hs as <- ->.
      rewrite plain1_cons in Ha. apply andb_prop in Ha as [Hc0 Ha].
      rewrite Hc0. simpl.
      destruct a as [| a1 a]; simpl.
      * assert (Hdom : domain (b ++ "."%char :: c) = true)
          by (apply domain_spec; eauto).
        rewrite Hdom. reflexivity.
      * apply orb_true_iff. right. apply IH.
        exists (a1 :: a), b, c. repeat split; auto.
Qed.

Section HandlerFacts.
Context `{Host} {Store : Type} `{!DocStore Store}.


(** C10. Once the database answers, [/api/financials/:ticker] replies 404
    exactly when there is no [FinancialData] document for the ticker, and
    200 otherwise, whatever [ValuationMetrics] holds for it: valuation
    metrics alone never give a 200. *)
Theorem financials_404_iff_no_financial_data
    (ticker : string) (s s1 s2 s3 : Store)
    (valuationMetrics financialData : value) :
  connectToDatabase s = (Ok (), s1) ->
  findOne_ticker ValuationMetrics ticker s1 = (Ok valuationMetrics, s2) ->
  findOne_ticker FinancialData ticker s2 = (Ok financialData, s3) ->
  financialData = VNull \/ (exists doc, financialData = VObj doc) ->
  (status (fst (getFinancials ticker s)) = 404 <-> financialData = VNull)
  /\ (status (fst (getFinancials ticker s)) = 200 <-> financialData <> VNull).
Proof.
  intros Hc Hvm Hfd Hdoc.
  unfold getFinancials, try_catch, lift, json, mbind, mret.
  unfold M_bind. rewrite Hc, Hvm, Hfd.
  destruct Hdoc as [-> | [doc ->]]; cbn.
  - repeat split; intros; congruence.
  - destruct (truthy valuationMetrics) eqn:Tv; cbn.
    + rewrite !get_Ok by now apply truthy_not_nullish. cbn.
      rewrite !get_opt_Ok. cbn. repeat split; intros; congruence.
    + repeat split; intros; congruence.
Qed.

End HandlerFacts.

(** ** The enrichment on the sample documents *)

Module Worked.
Import Sample Examples.

Lemma latest_entry_witness :
  DateParse "2022-01-01" = Some 1640995200000
  /\ DateParse "2023-01-01" = Some 1672531200000
  /\ 1640995200000 < 1672531200000
  /\ nullish financialData = false
  /\ latestIncomeStatementOf financialData = Ok statement2023.
Proof.
  do 4 (split; [reflexivity |]).
  pose proof (latest_entry_has_maximum_date
                1640995200000 1672531200000 eq_refl eq_refl eq_refl
                "income_statement" latestIncomeStatementOf
                (or_introl (conj eq_refl eq_refl))
                financialData eq_refl) as (_ & _ & _ & Hpair).
  exact (Hpair statement2022 statement2023 _
               eq_refl eq_refl (or_introl eq_refl) eq_refl).
Defined.

Lemma precomputed_tier_witness :
  latestIncomeStatementOf financialData = Ok statement2023
  /\ latestMarketCapOf financialData = Ok cap2023
  /\ truthy (member valuationMetrics "growth_metrics")
     || truthy (member valuationMetrics "raw_values") = true
  /\ metrics_numeric valuationMetrics = true
  /\ member cap2023 "marketCap" = num 1000
  /\ exists enriched,
       enrich company financialData valuationMetrics = Ok enriched
       /\ member (member enriched "financials") "marketCap" = num 5555.
Proof.
  assert (Hlis : latestIncomeStatementOf financialData = Ok statement2023)
    by (vm_compute; reflexivity).
  assert (Hlmc : latestMarketCapOf financialData = Ok cap2023)
    by (vm_compute; reflexivity).
  repeat (split; [first [assumption | reflexivity] |]).
  exact (proj2 (precomputed_tier_wins company financialData valuationMetrics
                  statement2023 cap2023 Hlis Hlmc eq_refl eq_refl)).
Defined.

(** C2 as stated fails: the raw net income is present and is zero, yet
    [financials.netIncome] is the 7 of the income statement. *)
Lemma raw_zero_falls_back :
  exists enriched,
    enrich company financialData valuationMetrics = Ok enriched
    /\ member (member valuationMetrics "raw_values") "current_netIncome" = num 0
    /\ nullish (num 0) = false
    /\ member (member enriched "financials") "netIncome" = num 7
    /\ member (member enriched "financials") "netIncome"
       <> spec_raw_or_statement
            (member (member valuationMetrics "raw_values") "current_netIncome")
            (member statement2023 "netIncome").
Proof.
  eexists. split; [vm_compute; reflexivity |].
  repeat split; try reflexivity. vm_compute. discriminate.
Qed.

Lemma precomputed_raw_or_statement_witness :
  latestIncomeStatementOf financialData = Ok statement2023
  /\ latestMarketCapOf financialData = Ok cap2023
  /\ truthy (member valuationMetrics "growth_metrics")
     || truthy (member valuationMetrics "raw_values") = true
  /\ metrics_numeric valuationMetrics = true
  /\ exists enriched,
       enrich company financialData valuationMetrics = Ok enriched
       /\ member (member enriched "financials") "revenue" = num 300
       /\ member (member enriched "financials") "grossProfit" = num 80
       /\ member (member enriched "financials") "netIncome" = num 7.
Proof.
  assert (Hlis : latestIncomeStatementOf financialData = Ok statement2023)
    by (vm_compute; reflexivity).
  assert (Hlmc : latestMarketCapOf financialData = Ok cap2023)
    by (vm_compute; reflexivity).
  repeat (split; [first [assumption | reflexivity] |]).
  destruct (precomputed_raw_or_statement company financialData valuationMetrics
              statement2023 cap2023 Hlis Hlmc eq_refl eq_refl)
    as (enriched & He & Hfields).
  exists enriched. split; [exact He |].
  repeat split.
  - rewrite (Hfields "revenue" "current_revenue" "revenue"); [reflexivity |].
    rewrite !elem_of_cons. tauto.
  - rewrite (Hfields "grossProfit" "current_grossProfit" "grossProfit");
      [reflexivity |].
    rewrite !elem_of_cons. tauto.
  - rewrite (Hfields "netIncome" "current_netIncome" "netIncome");
      [reflexivity |].
    rewrite !elem_of_cons. tauto.
Defined.

(** C3 as stated fails: with a truthy [netIncome] and a market-cap entry
    that lacks its [marketCap], the multiple is the string ["NaN"]. *)
Lemma missing_marketCap_gives_NaN :
  exists enriched,
    enrich company financialDataNoCap (VObj []) = Ok enriched
    /\ latestMarketCapOf financialDataNoCap = Ok capWithoutValue
    /\ truthy (member statement2023 "netIncome") = true
    /\ member (member enriched "financials") "marketCapToNetIncomeMultiple"
       = VStr "NaN".
Proof.
  eexists. split; [vm_compute; reflexivity |].
  repeat split; reflexivity.
Qed.

(** Two finite operands can also overflow: the multiple is then the string
    ["Infinity"]. *)
Lemma quotient_overflow_gives_Infinity :
  exists enriched,
    enrich company financialDataExtreme (VObj []) = Ok enriched
    /\ member (member enriched "financials") "marketCapToNetIncomeMultiple"
       = VStr "Infinity".
Proof.
  eexists. split; [vm_compute; reflexivity |]. reflexivity.
Qed.

Lemma derived_multiples_witness :
  latestIncomeStatementOf financialDataZero = Ok statementZero
  /\ latestMarketCapOf financialDataZero = Ok cap2023
  /\ nullish (VObj []) = false
  /\ truthy (member (VObj []) "growth_metrics")
     || truthy (member (VObj []) "raw_values") = false
  /\ truthy statementZero = true /\ truthy cap2023 = true
  /\ member cap2023 "marketCap" = VNum (Num.of_Z 1000)
  /\ Num.is_finite (Num.of_Z 1000) = true
  /\ statement_numeric statementZero = true
  /\ exists enriched,
       enrich company financialDataZero (VObj []) = Ok enriched
       /\ member (member enriched "financials") "marketCapToNetIncomeMultiple"
          = VNull
       /\ member (member enriched "financials") "marketCapToRevenueMultiple"
          = VStr "5.00".
Proof.
  assert (Hlis : latestIncomeStatementOf financialDataZero = Ok statementZero)
    by (vm_compute; reflexivity).
  assert (Hlmc : latestMarketCapOf financialDataZero = Ok cap2023)
    by (vm_compute; reflexivity).
  repeat (split; [first [assumption | reflexivity] |]).
  destruct (derived_multiples company financialDataZero (VObj [])
              statementZero cap2023 (Num.of_Z 1000)
              Hlis Hlmc eq_refl eq_refl eq_refl eq_refl eq_refl eq_refl eq_refl)
    as (enriched & He & Hfields).
  exists enriched. split; [exact He |]. split.
  - refine (Hfields "marketCapToNetIncomeMultiple" "netIncome" _).
    rewrite !elem_of_cons. tauto.
  - refine (proj1 (Hfields "marketCapToRevenueMultiple" "revenue" _)).
    rewrite !elem_of_cons. tauto.
Defined.

Lemma no_data_witness :
  latestIncomeStatementOf (VObj []) = Ok VNull
  /\ latestMarketCapOf (VObj []) = Ok VNull
  /\ nullish (VObj []) = false
  /\ truthy (member (VObj []) "growth_metrics")
     || truthy (member (VObj []) "raw_values") = false
  /\ truthy VNull && truthy VNull = false
  /\ enrich company (VObj []) (VObj []) = Ok company
  /\ has_key "financials" (spread company) = false.
Proof.
  do 5 (split; [reflexivity |]).
  split; [| reflexivity].
  exact (proj1 (no_data_returns_company company (VObj []) (VObj []) VNull VNull
                  eq_refl eq_refl eq_refl eq_refl eq_refl)).
Defined.

(** ** The region index and the handlers on the sample documents *)

(** C6 as stated fails: the name has nothing before its first ["("], so the
    specification keeps no country for the region, yet the code lists the
    whole name. *)
Lemma name_opening_with_paren_is_kept :
  listCountries [qualifierFirst] = Ok ["(NYSE) Foo"]
  /\ spec_countryName qualifierFirst = ""
  /\ spec_countryNames [qualifierFirst] = [].
Proof. repeat split; reflexivity. Qed.

Lemma listCountries_witness :
  forallb name_is_text (qualifierFirst :: VNull :: regions) = true
  /\ exists out,
       listCountries (qualifierFirst :: VNull :: regions) = Ok out
       /\ StronglySorted (fun a b => String.ltb a b = true) out
       /\ NoDup out
       /\ (length out <= length (qualifierFirst :: VNull :: regions))%nat
       /\ out = ["(NYSE) Foo"; "India"; "United States"; "Unknown"].
Proof.
  split; [reflexivity |].
  destruct (listCountries_sorted_unique (qualifierFirst :: VNull :: regions)
              eq_refl) as (out & Hout & Hsorted & Hnd & Hlen & _).
  exists out. repeat (split; [assumption |]).
  assert (Hrun : listCountries (qualifierFirst :: VNull :: regions)
                 = Ok ["(NYSE) Foo"; "India"; "United States"; "Unknown"])
    by reflexivity.
  congruence.
Defined.

Lemma findRegion_witness :
  "India" <> ""
  /\ forallb name_is_text regions = true
  /\ findRegion regions "India" = Ok (Some india).
Proof.
  assert (Hne : "India" <> "") by discriminate.
  split; [exact Hne |]. split; [reflexivity |].
  exact (proj1 (findRegion_first_prefix regions "India" Hne eq_refl)).
Defined.

Lemma all_categories_witness :
  startsWith "United States" "United States" = true
  /\ (truthy VUndefined = false \/ VUndefined = VStr "All")
  /\ selectCompanies unitedStates "United States" VUndefined
     = Ok (VArr [VObj [("ticker", VStr "CRM")]; VObj [("ticker", VStr "HUBS")];
                 VObj [("ticker", VStr "X")]])
  /\ selectCompanies unitedStates "United States" (VStr "All")
     = Ok (VArr [VObj [("ticker", VStr "CRM")]; VObj [("ticker", VStr "HUBS")];
                 VObj [("ticker", VStr "X")]]).
Proof.
  split; [reflexivity |]. split; [left; reflexivity |]. split.
  - exact (all_categories_concatenated unitedStates VUndefined "United States"
             _ eq_refl (or_introl eq_refl) eq_refl eq_refl).
  - exact (all_categories_concatenated unitedStates (VStr "All") "United States"
             _ eq_refl (or_intror eq_refl) eq_refl eq_refl).
Defined.


(** A well-formed request does reach the store. *)
Lemma valid_email_is_stored :
  status (fst (subscribe goodRequest valuationOnly)) = 201
  /\ notification_subscriptions (snd (subscribe goodRequest valuationOnly))
     = [VObj [("email", VStr "ann@example.com"); ("phone", VUndefined)]].
Proof. split; reflexivity. Qed.

Lemma financials_404_witness :
  connectToDatabase valuationOnly = (Ok (), valuationOnly)
  /\ findOne_ticker ValuationMetrics "X" valuationOnly
     = (Ok valuationMetrics, valuationOnly)
  /\ findOne_ticker FinancialData "X" valuationOnly = (Ok VNull, valuationOnly)
  /\ status (fst (getFinancials "X" valuationOnly)) = 404.
Proof.
  assert (Hc : connectToDatabase valuationOnly = (Ok (), valuationOnly))
    by reflexivity.
  assert (Hvm : findOne_ticker ValuationMetrics "X" valuationOnly
                = (Ok valuationMetrics, valuationOnly)) by reflexivity.
  assert (Hfd : findOne_ticker FinancialData "X" valuationOnly
                = (Ok VNull, valuationOnly)) by reflexivity.
  do 3 (split; [assumption |]).
  apply (financials_404_iff_no_financial_data "X" valuationOnly valuationOnly
           valuationOnly valuationOnly valuationMetrics VNull
           Hc Hvm Hfd (or_introl eq_refl)).
  reflexivity.
Defined.

(** The handlers from end to end. With financial data only, the company of
    the category is enriched by the derived tier, from the statement of
    2023. *)
Lemma getCompanies_derived :
  fst (getCompanies "United States" (VStr "Security") store)
  = {| status := 200;
       body := VObj
         [("exchangeName", VStr "NYSE/NASDAQ");
          ("companies",
           VArr [VObj [("ticker", VStr "X");
                       ("financials",
                        VObj [("marketCap", num 1000);
                              ("revenue", num 200);
                              ("grossProfit", num 80);
                              ("netIncome", num 7);
                              ("marketCapToRevenueMultiple", VStr "5.00");
                              ("marketCapToNetIncomeMultiple", VStr "142.86");
                              ("marketCapToGrossProfitMultiple", VStr "12.50");
                              ("year", VStr "2023")])]])] |}.
Proof. vm_compute. reflexivity. Qed.

(** A shorter prefix finds the same region, but the request is then served
    as one for a country without categories. *)
Lemma getCompanies_shorter_prefix :
  findRegion regions "United" = Ok (Some unitedStates)
  /\ selectCompanies unitedStates "United" VUndefined = Ok (VArr []).
Proof. split; reflexivity. Qed.

Lemma getCountries_sample :
  fst (getCountries store)
  = {| status := 200; body := VArr [VStr "India"; VStr "United States"] |}.
Proof. vm_compute. reflexivity. Qed.

(** The same address subscribed twice is created, then updated. *)
Lemma subscribe_twice :
  let first := subscribe goodRequest store in
  let second := subscribe goodRequest (snd first) in
  member (member (body (fst first)) "results") "allCountries" = VStr "created"
  /\ member (member (body (fst second)) "results") "allCountries"
     = VStr "updated"
  /\ snd second = snd first.
Proof. repeat split; reflexivity. Qed.


(** A document filed under ["__proto__"] becomes the prototype of the map:
    it is found under no ticker of its own, and its properties answer for
    tickers the map does not hold. *)
Lemma proto_ticker_is_inherited :
  let doc := VObj [("ticker", VStr "__proto__"); ("raw_values", VStr "r")] in
  exists m, buildMap [doc] = Ok m
    /\ own m = []
    /\ lookup_or_empty "raw_values" m = VStr "r"
    /\ lookup_or_empty "X" m = VObj [].
Proof. eexists. repeat split; reflexivity. Qed.

End Worked.

(** * Further properties of the handlers *)

(** ** What the enrichment leaves alone *)

Ltac bind_inv H :=
  let x := fresh "x" in
  let Hx := fresh "Hx" in
  apply bind_Ok in H as (x & Hx & H).

Section EnrichmentFrame.
Context `{Host}.

Lemma precomputed_shape
    (company vm gm rv cr cg cn lis enriched : value) :
  precomputed company vm gm rv cr cg cn lis = Ok enriched ->
  exists financials,
    enriched = VObj (obj_set "financials" financials (spread company)).
Proof.
  unfold precomputed. intros Hp. repeat bind_inv Hp.
  injection Hp as <-. eauto.
Qed.

Lemma derived_shape (company lis lmc enriched : value) :
  derived company lis lmc = Ok enriched ->
  exists financials,
    enriched = VObj (obj_set "financials" financials (spread company)).
Proof.
  unfold derived. intros Hp. repeat bind_inv Hp.
  injection Hp as <-. eauto.
Qed.

(** The enrichment returns the company itself, or a copy of it with
    [financials] set. *)
Lemma enrich_shape (company financialData valuationMetrics enriched : value) :
  enrich company financialData valuationMetrics = Ok enriched ->
  enriched = company
  \/ exists financials,
       enriched = VObj (obj_set "financials" financials (spread company)).
Proof.
  unfold enrich. intros He. repeat bind_inv He.
  destruct (select_tier _ _ _ _ _).
  - right. eapply precomputed_shape. exact He.
  - right. eapply derived_shape. exact He.
  - left. congruence.
Qed.

(** X1. Whatever tier applies, the enrichment changes nothing of a company
    record but its [financials]: every other property of the output is the
    property of the input. *)
Theorem enrich_keeps_other_properties
    (company financialData valuationMetrics enriched : value)
    (record : object) (k : string) :
  company = VObj record ->
  enrich company financialData valuationMetrics = Ok enriched ->
  k <> "financials" ->
  member enriched k = member company k.
Proof.
  intros -> He Hk.
  destruct (enrich_shape _ _ _ _ He) as [-> | [financials ->]]; [reflexivity |].
  simpl. apply field_obj_set_other. congruence.
Qed.

End EnrichmentFrame.

(** ** More of the precomputed and of the derived tier *)

Section TierDetails.
Context `{Host}.

Lemma fixed_field_text (o : value) (k : string) (f : nat) :
  numeric_or_absent (member o k) = false ->
  fixed_field o k f = Throw TypeError.
Proof.
  intros Hn. unfold fixed_field. rewrite get_opt_Ok. simpl.
  destruct (member o k); try discriminate; reflexivity.
Qed.

(** X2. In the precomputed tier each growth figure is the percentage of
    [growth_metrics] printed with one decimal, and absent ([undefined])
    when the percentage is; each multiple is the figure of
    [valuation_multiples_raw] printed with two decimals, and [null] when the
    figure is absent; [year] is [latest_fiscal_year], or the calendar year
    of the latest income statement when that is falsy; [raw_values] is
    copied. *)
Theorem precomputed_growth_and_multiples
    (company financialData valuationMetrics lis lmc : value) :
  latestIncomeStatementOf financialData = Ok lis ->
  latestMarketCapOf financialData = Ok lmc ->
  truthy (member valuationMetrics "growth_metrics")
  || truthy (member valuationMetrics "raw_values") = true ->
  metrics_numeric valuationMetrics = true ->
  exists enriched,
    enrich company financialData valuationMetrics = Ok enriched
    /\ (forall out pct : string,
          (out, pct) ∈ [("revenueGrowth", "revenue_growth_pct");
                        ("grossProfitGrowth", "gross_profit_growth_pct");
                        ("netIncomeGrowth", "net_income_growth_pct")] ->
          member (member enriched "financials") out
          = match member (member valuationMetrics "growth_metrics") pct with
            | VNum x => VStr (toFixed x 1)
            | _ => VUndefined
            end)
    /\ (forall out raw : string,
          (out, raw) ∈ [("marketCapToRevenueMultiple", "marketcap_to_revenue");
                        ("marketCapToNetIncomeMultiple", "marketcap_to_netincome");
                        ("marketCapToGrossProfitMultiple", "marketcap_to_grossprofit")] ->
          member (member enriched "financials") out
          = match member (member valuationMetrics "valuation_multiples_raw") raw with
            | VNum x => or_else (VStr (toFixed x 2)) VNull
            | _ => VNull
            end)
    /\ member (member enriched "financials") "year"
       = or_else (member valuationMetrics "latest_fiscal_year")
                 (member lis "calendarYear")
    /\ member (member enriched "financials") "raw_values"
       = member valuationMetrics "raw_values".
Proof.
  intros Hlis Hlmc Hor Hnum.
  pose proof (select_precomputed valuationMetrics lis lmc Hor) as Hsel.
  assert (Hvm : nullish valuationMetrics = false).
  { apply orb_true_iff in Hor as [Hm | Hm];
      apply member_truthy in Hm as [o ->]; reflexivity. }
  rewrite (enrich_tier _ _ _ _ _ Hlis Hlmc Hvm). cbv zeta. rewrite Hsel.
  rewrite (precomputed_Ok _ _ _ Hvm Hnum). cbv zeta.
  eexists. split; [reflexivity |].
  simpl. rewrite field_obj_set. repeat split.
  - intros out pct Hin. rewrite !elem_of_cons, elem_of_nil in Hin.
    destruct Hin as [[= -> ->] | [[= -> ->] | [[= -> ->] | []]]]; reflexivity.
  - intros out raw Hin. rewrite !elem_of_cons, elem_of_nil in Hin.
    destruct Hin as [[= -> ->] | [[= -> ->] | [[= -> ->] | []]]];
      match goal with |- _ = match ?m with _ => _ end => destruct m end;
      reflexivity.
Qed.

(** X3. A precomputed percentage or multiple that is present and is not a
    number has no [toFixed]: the enrichment of that company throws. *)
Theorem precomputed_throws_on_text_metric
    (company financialData valuationMetrics lis lmc : value) :
  latestIncomeStatementOf financialData = Ok lis ->
  latestMarketCapOf financialData = Ok lmc ->
  truthy (member valuationMetrics "growth_metrics")
  || truthy (member valuationMetrics "raw_values") = true ->
  metrics_numeric valuationMetrics = false ->
  enrich company financialData valuationMetrics = Throw TypeError.
Proof.
  intros Hlis Hlmc Hor Hnum.
  pose proof (select_precomputed valuationMetrics lis lmc Hor) as Hsel.
  assert (Hvm : nullish valuationMetrics = false).
  { apply orb_true_iff in Hor as [Hm | Hm];
      apply member_truthy in Hm as [o ->]; reflexivity. }
  rewrite (enrich_tier _ _ _ _ _ Hlis Hlmc Hvm). cbv zeta. rewrite Hsel.
  unfold precomputed.
  rewrite !get_Ok by exact Hvm. simpl. rewrite !or_statement_Ok. simpl.
  repeat match goal with
  | |- context [fixed_field ?o ?k ?f] =>
      let E := fresh "E" in
      destruct (numeric_or_absent (member o k)) eqn:E;
      [ rewrite (fixed_field_numeric o k f E); simpl
      | rewrite (fixed_field_text o k f E); reflexivity ]
  end.
  unfold metrics_numeric in Hnum. simpl in Hnum.
  repeat match goal with E : numeric_or_absent _ = true |- _ =>
    rewrite E in Hnum; clear E end.
  discriminate.
Qed.

(** X4. In the derived tier [marketCap] is the figure of the latest
    market-cap entry, and [revenue], [grossProfit], [netIncome] and [year]
    are the fields of the latest income statement. *)
Theorem derived_copies_latest_entries
    (company financialData valuationMetrics lis lmc : value)
    (marketCap : number) :
  latestIncomeStatementOf financialData = Ok lis ->
  latestMarketCapOf financialData = Ok lmc ->
  nullish valuationMetrics = false ->
  truthy (member valuationMetrics "growth_metrics")
  || truthy (member valuationMetrics "raw_values") = false ->
  truthy lis = true -> truthy lmc = true ->
  member lmc "marketCap" = VNum marketCap ->
  statement_numeric lis = true ->
  exists enriched,
    enrich company financialData valuationMetrics = Ok enriched
    /\ member (member enriched "financials") "marketCap" = VNum marketCap
    /\ member (member enriched "financials") "year" = member lis "calendarYear"
    /\ forall k : string,
         k ∈ ["revenue"; "grossProfit"; "netIncome"] ->
         member (member enriched "financials") k = member lis k.
Proof.
  intros Hlis Hlmc Hvm Hor Tlis Tlmc Hcap Hnum.
  rewrite (enrich_tier _ _ _ _ _ Hlis Hlmc Hvm). cbv zeta.
  unfold select_tier. rewrite Hor, Tlis, Tlmc, andb_false_r. simpl.
  rewrite (derived_Ok _ _ _ _ Tlis Tlmc Hcap Hnum). cbv zeta.
  eexists. split; [reflexivity |].
  simpl. rewrite field_obj_set. repeat split.
  intros k Hin. rewrite !elem_of_cons, elem_of_nil in Hin.
  destruct Hin as [-> | [-> | [-> | []]]]; reflexivity.
Qed.

End TierDetails.

(** ** More of the latest entry *)

Section LatestDetails.
Context `{Host}.

Lemma insert_sorted_dated (x : value) (s : list value) :
  dated x -> Forall dated s ->
  exists r, insert_sorted byDateDesc x s = Ok r /\ r ≡ₚ x :: s
    /\ hd_error r
       = match hd_error s with
         | None => Some x
         | Some h =>
             if default 0 (entryTime h) <=? default 0 (entryTime x)
             then Some x else Some h
         end.
Proof.
  intros [tx Hx]. induction s as [| h s IH]; intros Hs.
  - exists [x]. repeat split; auto.
  - inversion Hs as [| ? ? [th Hh] Hs']; subst. simpl.
    rewrite (byDateDesc_dated x h tx th Hx Hh). simpl.
    rewrite Hx, Hh. simpl.
    destruct (Z.leb_spec (th - tx) 0) as [Hle | Hgt].
    + exists (x :: h :: s). repeat split; auto.
      destruct (Z.leb_spec th tx); [reflexivity | lia].
    + destruct (IH Hs') as (r & Hr & Hperm & _). rewrite Hr. simpl.
      exists (h :: r). repeat split.
      * rewrite Hperm. apply perm_swap.
      * destruct (Z.leb_spec th tx); [lia | reflexivity].
Qed.

Lemma sort_by_dated (l : list value) :
  Forall dated l ->
  exists s, sort_by byDateDesc l = Ok s /\ s ≡ₚ l
    /\ hd_error s = first_latest l.
Proof.
  induction l as [| x l IH]; intros Hl.
  - exists []. repeat split; auto.
  - inversion Hl as [| ? ? Hx Hl']; subst.
    destruct (IH Hl') as (s & Hs & Hperm & Hhd). simpl. rewrite Hs. simpl.
    assert (Hds : Forall dated s) by (rewrite Hperm; exact Hl').
    destruct (insert_sorted_dated x s Hx Hds) as (r & Hr & Hp & Hh).
    exists r. repeat split; auto.
    + rewrite Hp, Hperm. reflexivity.
    + rewrite Hh, Hhd. reflexivity.
Qed.

Lemma first_latest_elem (l : list value) (e : value) :
  first_latest l = Some e -> e ∈ l.
Proof.
  revert e. induction l as [| x l IH]; intros e; simpl; [discriminate |].
  destruct (first_latest l) as [h |] eqn:E.
  - destruct (_ <=? _); intros [= <-]; [left | right; auto].
  - intros [= <-]. left.
Qed.

Lemma first_latest_split (l1 l2 : list value) (e : value) :
  (forall x, x ∈ l1 -> default 0 (entryTime x) < default 0 (entryTime e)) ->
  (forall x, x ∈ l2 -> default 0 (entryTime x) <= default 0 (entryTime e)) ->
  first_latest (l1 ++ e :: l2) = Some e.
Proof.
  intros H1 H2.
  assert (He : first_latest (e :: l2) = Some e).
  { simpl. destruct (first_latest l2) as [h |] eqn:E; [| reflexivity].
    apply first_latest_elem in E. specialize (H2 h E).
    destruct (Z.leb_spec (default 0 (entryTime h)) (default 0 (entryTime e)));
      [reflexivity | lia]. }
  induction l1 as [| x l1 IH]; [exact He |].
  simpl. rewrite IH by (intros y Hy; apply H1; now right).
  specialize (H1 x ltac:(left)).
  destruct (Z.leb_spec (default 0 (entryTime e)) (default 0 (entryTime x)));
    [lia | reflexivity].
Qed.

(** X5. The sort is stable, so among the entries of the maximum date the
    latest entry is the one that comes first in the array: an entry that is
    later than every entry before it and not earlier than any entry behind
    it is the one returned. *)
Theorem latest_entry_is_first_of_maximum
    (l1 l2 : list value) (e : value) (t : Z) :
  Forall dated (l1 ++ e :: l2) ->
  entryTime e = Some t ->
  (forall x tx, x ∈ l1 -> entryTime x = Some tx -> tx < t) ->
  (forall x tx, x ∈ l2 -> entryTime x = Some tx -> tx <= t) ->
  latestEntry (VArr (l1 ++ e :: l2)) = Ok e.
Proof.
  intros Hd He H1 H2.
  destruct (sort_by_dated _ Hd) as (s & Hs & _ & Hhd).
  assert (Hall : forall x, x ∈ (l1 ++ e :: l2)%list -> dated x)
    by (now apply Forall_forall).
  rewrite first_latest_split in Hhd.
  - unfold latestEntry, js_sort. simpl.
    rewrite bool_decide_true by (now destruct l1).
    destruct (dated_defined _ Hd) as [-> ->]. rewrite Hs. simpl.
    destruct s; [discriminate |]. simpl in *. congruence.
  - intros x Hx. destruct (Hall x) as [tx Hx']; [apply elem_of_app; now left |].
    rewrite Hx', He. simpl. eauto.
  - intros x Hx.
    destruct (Hall x) as [tx Hx']; [apply elem_of_app; right; now right |].
    rewrite Hx', He. simpl. eauto.
Qed.

(** X6. Only an array yields an entry: for a series that is anything else
    the function gives [null] or throws. *)
Theorem latest_entry_needs_an_array (series entry : value) :
  is_array series = false ->
  latestEntry series = Ok entry ->
  entry = VNull.
Proof.
  intros Harr. unfold latestEntry.
  destruct (truthy series); [| congruence].
  destruct series; try discriminate; simpl;
    try congruence;
    try (destruct (negb _); congruence).
  destruct (gt0 _) as [[] |]; simpl; congruence.
Qed.

End LatestDetails.

(** ** The ticker maps *)

Lemma lookup_field_obj_set (k : string) (v : value) (o : object) :
  lookup_field k (obj_set k v o) = Some v.
Proof.
  unfold lookup_field.
  induction o as [| [k' v'] o IH]; simpl.
  - now rewrite String.eqb_refl.
  - destruct (String.eqb k' k) eqn:E; simpl.
    + now rewrite String.eqb_refl.
    + now rewrite E.
Qed.

Lemma lookup_field_obj_set_other (k k' : string) (v : value) (o : object) :
  k <> k' -> lookup_field k' (obj_set k v o) = lookup_field k' o.
Proof.
  intros Hne. unfold lookup_field.
  induction o as [| [k0 v0] o IH]; simpl.
  - destruct (String.eqb_spec k k'); [contradiction | reflexivity].
  - destruct (String.eqb_spec k0 k) as [-> | Hk]; simpl.
    + destruct (String.eqb_spec k k'); [contradiction | reflexivity].
    + destruct (String.eqb_spec k0 k'); [reflexivity | exact IH].
Qed.

Lemma find_snoc {A : Type} (p : A -> bool) (l : list A) (x : A) :
  List.find p (l ++ [x])
  = match List.find p l with
    | Some y => Some y
    | None => if p x then Some x else None
    end.
Proof.
  induction l as [| y l IH]; simpl; [reflexivity |].
  destruct (p y); [reflexivity | exact IH].
Qed.

Section TickerMaps.
Context `{Host}.

Lemma buildMap_from (docs : list value) (m0 : tickerMap) (k : string) :
  forallb ticker_is_text docs = true -> k <> "" ->
  exists m,
    reduceM (fun m data =>
               ticker ← get data "ticker";
               if truthy ticker then k ← ToString ticker; Ok (map_set k data m)
               else Ok m)
            docs m0 = Ok m
    /\ proto m = proto m0
    /\ lookup_field k (own m)
       = match List.find (has_ticker k) (rev docs) with
         | Some doc => Some doc
         | None => lookup_field k (own m0)
         end.
Proof.
  intros Hall Hk. revert m0.
  induction docs as [| d docs IH]; intros m0; simpl.
  - exists m0. auto.
  - simpl in Hall. apply andb_prop in Hall as [Hd Hdocs].
    unfold ticker_is_text in Hd. apply andb_prop in Hd as [Hnull Hticker].
    apply negb_true_iff in Hnull.
    rewrite get_Ok by exact Hnull. simpl.
    rewrite find_snoc. unfold has_ticker at 2.
    destruct (member d "ticker") as [| | b | n | s | t | l | o] eqn:Et;
      simpl in Hticker |- *;
      try (destruct (IH Hdocs m0) as (m & Hm & Hp & Hl); exists m;
           repeat split; auto; rewrite Hl;
           destruct (List.find _ _); reflexivity);
      try discriminate.
    + apply negb_true_iff in Hticker. rewrite Hticker. simpl.
      destruct (IH Hdocs m0) as (m & Hm & Hp & Hl). exists m.
      repeat split; auto. rewrite Hl. destruct (List.find _ _); reflexivity.
    + apply negb_true_iff in Hticker. rewrite Hticker. simpl.
      destruct (IH Hdocs m0) as (m & Hm & Hp & Hl). exists m.
      repeat split; auto. rewrite Hl. destruct (List.find _ _); reflexivity.
    + destruct (String.eqb_spec s "") as [-> | Hs]; simpl.
      * destruct (IH Hdocs m0) as (m & Hm & Hp & Hl). exists m.
        repeat split; auto. rewrite Hl.
        destruct (List.find _ _); [reflexivity |].
        destruct k; [congruence | reflexivity].
      * apply negb_true_iff in Hticker. unfold map_set. rewrite Hticker.
        destruct (IH Hdocs {| own := obj_set s d (own m0); proto := proto m0 |})
          as (m & Hm & Hp & Hl).
        exists m. repeat split; auto. rewrite Hl. simpl.
        destruct (List.find _ _); [reflexivity |].
        destruct (String.eqb_spec s k) as [-> | Hne].
        -- apply lookup_field_obj_set.
        -- now apply lookup_field_obj_set_other.
Qed.

Lemma buildMap_lookup (docs : list value) (k : string) :
  forallb ticker_is_text docs = true -> k <> "" ->
  exists m, buildMap docs = Ok m
    /\ lookup_or_empty k m = last_with_ticker k docs.
Proof.
  intros Hall Hk.
  destruct (buildMap_from docs map_empty k Hall Hk) as (m & Hm & Hp & Hl).
  exists m. split; [exact Hm |].
  unfold lookup_or_empty, map_get, last_with_ticker. rewrite Hl, Hp. simpl.
  destruct (List.find _ _) as [doc |] eqn:E;
    [| destruct (inherited k); reflexivity].
  apply find_some in E as [_ Ht]. unfold has_ticker in Ht.
  destruct doc; try discriminate. reflexivity.
Qed.

Lemma buildMap_get (docs : list value) (k : string) :
  forallb ticker_is_text docs = true -> k <> "" -> inherited k = false ->
  exists m, buildMap docs = Ok m
    /\ map_get k m
       = Value (default VUndefined (List.find (has_ticker k) (rev docs))).
Proof.
  intros Hall Hk Hin.
  destruct (buildMap_from docs map_empty k Hall Hk) as (m & Hm & Hp & Hl).
  exists m. split; [exact Hm |].
  unfold map_get. rewrite Hl, Hp, Hin. simpl.
  destruct (List.find _ _); reflexivity.
Qed.

(** X7. A document is found again under its ticker: after the documents
    of a query are filed, [map[k]], for a ticker [k] that is not the name
    of a member of [Object.prototype], is the last document that carries
    [k], and [undefined] when none does, so that [map[k] || {}] is that
    document or [{}]. Documents without a ticker are not filed. *)
Theorem buildMap_last_document_wins (docs : list value) (k : string) :
  forallb ticker_is_text docs = true -> k <> "" -> inherited k = false ->
  exists m, buildMap docs = Ok m
    /\ map_get k m
       = Value (default VUndefined (List.find (has_ticker k) (rev docs)))
    /\ lookup_or_empty k m
       = default (VObj []) (List.find (has_ticker k) (rev docs)).
Proof.
  intros Hall Hk Hin.
  destruct (buildMap_get docs k Hall Hk Hin) as (m & Hm & Hget).
  destruct (buildMap_lookup docs k Hall Hk) as (m' & Hm' & Hlookup).
  assert (m' = m) by congruence. subst m'.
  exists m. auto.
Qed.

(** X8. The enrichment joins by ticker: a company is enriched from the
    last financial-data document and the last valuation-metrics document
    that carry its ticker, each replaced by [{}] when there is none. *)
Theorem enrichCompany_joins_by_ticker
    (financialDataArray valuationMetricsArray : list value)
    (company : value) (k : string) :
  forallb ticker_is_text financialDataArray = true ->
  forallb ticker_is_text valuationMetricsArray = true ->
  member company "ticker" = VStr k -> k <> "" ->
  exists financialDataMap valuationMetricsMap,
    buildMap financialDataArray = Ok financialDataMap
    /\ buildMap valuationMetricsArray = Ok valuationMetricsMap
    /\ enrichCompany financialDataMap valuationMetricsMap company
       = enrich company (last_with_ticker k financialDataArray)
                (last_with_ticker k valuationMetricsArray).
Proof.
  intros Hf Hv Ht Hk.
  destruct (buildMap_lookup _ k Hf Hk) as (fm & Hfm & Hfl).
  destruct (buildMap_lookup _ k Hv Hk) as (vm & Hvm & Hvl).
  exists fm, vm. repeat split; auto.
  unfold enrichCompany.
  assert (Hc : nullish company = false) by (destruct company; try discriminate; reflexivity).
  rewrite get_Ok by exact Hc. rewrite Ht. simpl. now rewrite Hfl, Hvl.
Qed.

End TickerMaps.

(** ** The region handlers *)

Lemma findRegion_text (regions : list value) (countryName : string) :
  countryName <> "" -> forallb name_is_text regions = true ->
  findRegion regions countryName
  = Ok (List.find (name_startsWith countryName) regions).
Proof.
  intros Hne Htext. apply findM_pure. intros r Hr.
  apply regionMatches_text; [exact Hne |].
  rewrite forallb_forall in Htext. apply Htext. now apply list_elem_of_In.
Qed.

Lemma member_array_truthy (v : value) (k : string) (l : list value) :
  member v k = VArr l -> truthy v = true /\ nullish v = false.
Proof. destruct v; try discriminate. auto. Qed.

Lemma categoryNameOf_Ok (category : value) :
  nullish category = false ->
  categoryNameOf category
  = Ok (or_else (member category "name") (VStr "Unknown")).
Proof. intros Hc. unfold categoryNameOf. now rewrite get_Ok. Qed.

Lemma mapM_categoryNameOf (cats : list value) :
  forallb (fun c => negb (nullish c)) cats = true ->
  mapM categoryNameOf cats
  = Ok ((fun c => or_else (member c "name") (VStr "Unknown")) <$> cats).
Proof.
  induction cats as [| c cats IH]; simpl; [reflexivity |].
  intros Hall. apply andb_prop in Hall as [Hc Hcats]. apply negb_true_iff in Hc.
  rewrite (categoryNameOf_Ok c Hc), (IH Hcats). reflexivity.
Qed.

Lemma filter_all {A : Type} (p : A -> bool) (l : list A) :
  Forall (fun x => p x = true) l -> List.filter p l = l.
Proof.
  induction 1 as [| x l Hx _ IH]; simpl; [reflexivity |].
  now rewrite Hx, IH.
Qed.

Lemma category_names_truthy (cats : list value) :
  List.filter truthy ((fun c => or_else (member c "name") (VStr "Unknown")) <$> cats)
  = (fun c => or_else (member c "name") (VStr "Unknown")) <$> cats.
Proof.
  apply filter_all, Forall_fmap, Forall_forall. intros c _. simpl.
  unfold or_else. destruct (truthy (member c "name")) eqn:E; [exact E | reflexivity].
Qed.

Section RegionHandlers.
Context `{Host} {Store : Type} `{!DocStore Store}.

Ltac run_handler :=
  unfold try_catch, lift, json, mbind, mret; unfold M_bind.

(** X9. With the database answering and the regions named by text,
    [/api/country/:countryName] answers 200 with the first region whose
    name starts with the parameter, the stored document as it is, and 404
    when there is none; the store is only read. *)
Theorem getCountry_response
    (countryName : string) (s s1 s2 : Store) (data : value)
    (regions : list value) :
  connectToDatabase s = (Ok (), s1) ->
  SaasCompany_findOne s1 = (Ok data, s2) ->
  member data "regions" = VArr regions ->
  countryName <> "" -> forallb name_is_text regions = true ->
  getCountry countryName s
  = (match List.find (name_startsWith countryName) regions with
     | Some region => {| status := 200; body := region |}
     | None => {| status := 404; body := message "Country not found" |}
     end, s2).
Proof.
  intros Hc Hd Hr Hne Htext.
  destruct (member_array_truthy _ _ _ Hr) as [Td Nd].
  unfold getCountry. run_handler. rewrite Hc, Hd, Td. simpl.
  rewrite get_Ok by exact Nd. rewrite Hr. simpl.
  rewrite (findRegion_text _ _ Hne Htext).
  destruct (List.find _ _); reflexivity.
Qed.

(** X10. With the database answering, [/api/countries] answers 404 with
    an empty array when there is no document or its [regions] is not an
    array; otherwise 200 with the sorted countries, or 500 with an empty
    array when a region name makes the extraction throw. *)
Theorem getCountries_response (s s1 s2 : Store) (data : value) :
  connectToDatabase s = (Ok (), s1) ->
  SaasCompany_findOne s1 = (Ok data, s2) ->
  getCountries s
  = (match member data "regions" with
     | VArr regions =>
         match listCountries regions with
         | Ok countries => {| status := 200; body := VArr (VStr <$> countries) |}
         | Throw _ => {| status := 500; body := VArr [] |}
         end
     | _ => {| status := 404; body := VArr [] |}
     end, s2).
Proof.
  intros Hc Hd. unfold getCountries. run_handler. rewrite Hc, Hd.
  destruct (truthy data) eqn:Td; simpl.
  - rewrite get_Ok by now apply truthy_not_nullish.
    destruct (member data "regions") as [| | b | n | r | t | l | o]; simpl;
      try reflexivity.
    + destruct b; reflexivity.
    + destruct (Num.truthy n); reflexivity.
    + destruct (negb (String.eqb r "")); reflexivity.
    + destruct (listCountries l); reflexivity.
  - destruct data; try discriminate; reflexivity.
Qed.

(** X11. With the database answering and the regions named by text,
    [/api/categories/usa] answers 200 with one name for every category of
    the first region named United States, in category order, ["Unknown"]
    standing for a missing name (so the [filter] drops nothing); it answers
    404 when there is no such region or its [categories] is not an array. *)
Theorem getUsaCategories_response
    (s s1 s2 : Store) (data : value) (regions : list value) :
  connectToDatabase s = (Ok (), s1) ->
  SaasCompany_findOne s1 = (Ok data, s2) ->
  member data "regions" = VArr regions ->
  forallb name_is_text regions = true ->
  (forall usaRegion categories,
     List.find (name_startsWith "United States") regions = Some usaRegion ->
     member usaRegion "categories" = VArr categories ->
     forallb (fun c => negb (nullish c)) categories = true ->
     getUsaCategories s
     = ({| status := 200;
           body := VArr ((fun c => or_else (member c "name") (VStr "Unknown"))
                           <$> categories) |}, s2))
  /\ (match List.find (name_startsWith "United States") regions with
      | Some usaRegion => is_array (member usaRegion "categories") = false
      | None => True
      end ->
      getUsaCategories s
      = ({| status := 404; body := message "USA categories not found" |}, s2)).
Proof.
  intros Hc Hd Hr Htext.
  destruct (member_array_truthy _ _ _ Hr) as [Td Nd].
  assert (Hrun : getUsaCategories s
    = match List.find (name_startsWith "United States") regions with
      | Some usaRegion =>
          match member usaRegion "categories" with
          | VArr cats =>
              match mapM categoryNameOf cats with
              | Ok names => ({| status := 200; body := VArr (List.filter truthy names) |}, s2)
              | Throw _ => ({| status := 500; body := message "Server error" |}, s2)
              end
          | _ => ({| status := 404; body := message "USA categories not found" |}, s2)
          end
      | None => ({| status := 404; body := message "USA categories not found" |}, s2)
      end).
  { unfold getUsaCategories. run_handler. rewrite Hc, Hd, Td. simpl.
    rewrite get_Ok by exact Nd. rewrite Hr. simpl.
    rewrite (findRegion_text _ "United States" ltac:(discriminate) Htext).
    destruct (List.find _ _) as [r |] eqn:Ef; [| reflexivity].
    apply find_some in Ef as [_ Ef]. unfold name_startsWith in Ef.
    assert (Nr : nullish r = false) by (destruct r; try discriminate; reflexivity).
    rewrite get_Ok by exact Nr.
    destruct (member r "categories") as [| | b | n | c | t | l | o]; simpl;
      try reflexivity.
    - destruct b; reflexivity.
    - destruct (Num.truthy n); reflexivity.
    - destruct (negb (String.eqb c "")); reflexivity.
    - destruct (mapM categoryNameOf l); reflexivity. }
  split.
  - intros usaRegion categories Hf Hcats Hall. rewrite Hrun, Hf, Hcats.
    rewrite (mapM_categoryNameOf _ Hall), category_names_truthy. reflexivity.
  - intros Hno. rewrite Hrun.
    destruct (List.find _ _) as [r |]; [| reflexivity].
    destruct (member r "categories"); try discriminate; reflexivity.
Qed.



End RegionHandlers.

(** ** The subscription handler *)

(** X14. The address test accepts exactly the strings made of a part
    before one ["@"], a part behind it, a ["."] and a last part, no part
    empty and none with white space or a further ["@"] in it. *)
Theorem emailRegex_accepts `{Host} (s : string) :
  emailRegex_test (VStr s) = Ok true <->
  exists a b c : list ascii,
    list_ascii_of_string s = (a ++ "@"%char :: b ++ "."%char :: c)%list
    /\ plain1 a = true /\ plain1 b = true /\ plain1 c = true.
Proof.
  unfold emailRegex_test. simpl. rewrite <- emailFormat_spec.
  split; [intros [= ->]; reflexivity | intros ->; reflexivity].
Qed.

Section SubscribeFacts.
Context `{Host} {Store : Type} `{!DocStore Store}.

Ltac run_handler :=
  unfold try_catch, lift, json, mbind, mret; unfold M_bind.

(** X15. A valid request that asks for one collection, and whose address
    is not in it yet, saves one document there, the address with the phone
    ([undefined] when no phone is given), and answers 201 with ['created']
    for that collection and [false] for the other. *)
Theorem subscribe_creates
    (reqBody email : value) (C : subscriptions) (s s1 s2 s3 : Store)
    (existing : value) :
  get reqBody "email" = Ok email ->
  truthy email = true -> emailRegex_test email = Ok true ->
  asks_for reqBody C = true -> asks_for reqBody (other C) = false ->
  connectToDatabase s = (Ok (), s1) ->
  findOne_email C email s1 = (Ok existing, s2) ->
  truthy existing = false ->
  save C (VObj [("email", email);
                ("phone", or_else (member reqBody "phone") VUndefined)]) s2
  = (Ok (), s3) ->
  subscribe reqBody s = (subscribed (results_for C (VStr "created")), s3).
Proof.
  intros Hget Te Hvalid Hasks Hother Hc Hfind Tex Hsave.
  assert (Hbody : nullish reqBody = false).
  { unfold get in Hget. now destruct (nullish reqBody). }
  assert (Hemail : email = member reqBody "email").
  { rewrite get_Ok in Hget by exact Hbody. congruence. }
  unfold subscribe, subscribeTo. run_handler.
  rewrite !get_Ok by exact Hbody. rewrite <- Hemail, Te. simpl.
  rewrite Hvalid. simpl. rewrite Hc.
  destruct C; simpl in Hasks, Hother; rewrite Hasks, Hother, ?Hfind, ?Tex;
    simpl; rewrite ?Hfind, ?Tex, ?Hsave; simpl; rewrite ?Hsave; reflexivity.
Qed.

(** X16. When the address is already in the collection, nothing is
    saved: the stored phone is updated if the request carries a phone that
    differs from it, and only then; the answer is 201 with ['updated']. *)
Theorem subscribe_updates
    (reqBody email : value) (C : subscriptions) (s s1 s2 : Store)
    (existing : value) :
  get reqBody "email" = Ok email ->
  truthy email = true -> emailRegex_test email = Ok true ->
  asks_for reqBody C = true -> asks_for reqBody (other C) = false ->
  connectToDatabase s = (Ok (), s1) ->
  findOne_email C email s1 = (Ok existing, s2) ->
  truthy existing = true ->
  let phone := member reqBody "phone" in
  (truthy phone && negb (strict_eq (member existing "phone") phone) = false ->
   subscribe reqBody s = (subscribed (results_for C (VStr "updated")), s2))
  /\ (forall s3,
        truthy phone && negb (strict_eq (member existing "phone") phone) = true ->
        updateOne_phone C email phone s2 = (Ok (), s3) ->
        subscribe reqBody s = (subscribed (results_for C (VStr "updated")), s3)).
Proof.
  intros Hget Te Hvalid Hasks Hother Hc Hfind Tex. cbv zeta.
  assert (Hbody : nullish reqBody = false).
  { unfold get in Hget. now destruct (nullish reqBody). }
  assert (Hemail : email = member reqBody "email").
  { rewrite get_Ok in Hget by exact Hbody. congruence. }
  assert (Nex : nullish existing = false) by now apply truthy_not_nullish.
  split; [intros Hsame | intros s3 Hdiff Hupd];
    unfold subscribe, subscribeTo; run_handler;
    rewrite !get_Ok by exact Hbody; rewrite <- Hemail, Te; simpl;
    rewrite Hvalid; simpl; rewrite Hc;
    destruct C; simpl in Hasks, Hother; rewrite Hasks, Hother; simpl;
    rewrite Hfind, Tex; simpl; rewrite !get_Ok by exact Nex; simpl;
    rewrite ?Hsame, ?Hdiff; simpl; rewrite ?Hupd; reflexivity.
Qed.

(** X17. A valid request that asks for neither collection is answered
    201 with both results [false]; after the connection nothing is read or
    written. *)
Theorem subscribe_to_nothing
    (reqBody email : value) (s s1 : Store) :
  get reqBody "email" = Ok email ->
  truthy email = true -> emailRegex_test email = Ok true ->
  asks_for reqBody Notification = false ->
  asks_for reqBody MetricsNotification = false ->
  connectToDatabase s = (Ok (), s1) ->
  subscribe reqBody s
  = (subscribed (VObj [("allCountries", VBool false);
                       ("metricsUpdates", VBool false)]), s1).
Proof.
  intros Hget Te Hvalid Hall Hmetrics Hc.
  assert (Hbody : nullish reqBody = false).
  { unfold get in Hget. now destruct (nullish reqBody). }
  assert (Hemail : email = member reqBody "email").
  { rewrite get_Ok in Hget by exact Hbody. congruence. }
  unfold subscribe. run_handler.
  rewrite !get_Ok by exact Hbody. rewrite <- Hemail, Te. simpl.
  rewrite Hvalid. simpl. rewrite Hc. simpl in Hall, Hmetrics.
  rewrite Hall, Hmetrics. reflexivity.
Qed.

(** X18. The two collections are served in turn and the first failure
    ends the request: when the lookup in [notification_subscriptions]
    throws, the answer is 500 with the message of the error, and the
    metrics collection is not reached, whatever the request asks for. *)
Theorem subscribe_stops_at_first_failure
    (reqBody email : value) (s s1 s2 : Store) (e : exn) :
  get reqBody "email" = Ok email ->
  truthy email = true -> emailRegex_test email = Ok true ->
  asks_for reqBody Notification = true ->
  connectToDatabase s = (Ok (), s1) ->
  findOne_email Notification email s1 = (Throw e, s2) ->
  subscribe reqBody s
  = ({| status := 500;
        body := VObj [("message", VStr "Server error");
                      ("error", VStr (error_message e))] |}, s2).
Proof.
  intros Hget Te Hvalid Hall Hc Hfind.
  assert (Hbody : nullish reqBody = false).
  { unfold get in Hget. now destruct (nullish reqBody). }
  assert (Hemail : email = member reqBody "email").
  { rewrite get_Ok in Hget by exact Hbody. congruence. }
  unfold subscribe, subscribeTo. run_handler.
  rewrite !get_Ok by exact Hbody. rewrite <- Hemail, Te. simpl.
  rewrite Hvalid. simpl. rewrite Hc. simpl in Hall.
  rewrite Hall. simpl. rewrite Hfind. reflexivity.
Qed.

End SubscribeFacts.

(** ** The financials handler and the failures of the store *)

Lemma field_obj_set_cases (k k' : string) (v : value) (o : object) :
  field (obj_set k v o) k' = if String.eqb k k' then v else field o k'.
Proof.
  destruct (String.eqb_spec k k') as [-> | Hne].
  - apply field_obj_set.
  - now apply field_obj_set_other.
Qed.

Section FinancialsFacts.
Context `{Host} {Store : Type} `{!DocStore Store}.

Ltac run_handler :=
  unfold try_catch, lift, json, mbind, mret; unfold M_bind.

(** X19. The answer of [/api/financials/:ticker] for a ticker with
    financial data: without valuation metrics it is the financial-data
    document as stored; with them, the six valuation fields and the three
    raw figures are set from the valuation metrics, over any property of
    the same name ([market_cap], the series of the financial data, among
    them), and every other property is the one of the financial data. *)
Theorem getFinancials_merges
    (ticker : string) (s s1 s2 s3 : Store)
    (valuationMetrics : value) (financialData : object) :
  connectToDatabase s = (Ok (), s1) ->
  findOne_ticker ValuationMetrics ticker s1 = (Ok valuationMetrics, s2) ->
  findOne_ticker FinancialData ticker s2 = (Ok (VObj financialData), s3) ->
  exists combined,
    getFinancials ticker s = ({| status := 200; body := combined |}, s3)
    /\ (truthy valuationMetrics = false -> combined = VObj financialData)
    /\ (truthy valuationMetrics = true ->
        (forall k, k ∈ copied_fields ->
           member combined k = member valuationMetrics k)
        /\ (forall k, k ∈ echoed_fields ->
              member combined k
              = member (member valuationMetrics "raw_values") k)
        /\ (forall k, k ∉ copied_fields -> k ∉ echoed_fields ->
              member combined k = field financialData k)).
Proof.
  intros Hc Hvm Hfd.
  unfold getFinancials. run_handler. rewrite Hc, Hvm, Hfd. simpl.
  destruct (truthy valuationMetrics) eqn:Tv; simpl.
  - rewrite !get_Ok by now apply truthy_not_nullish. simpl.
    rewrite !get_opt_Ok. simpl.
    eexists. split; [reflexivity |]. split; [discriminate |]. intros _.
    unfold assign, copied_fields, echoed_fields. simpl. repeat split.
    + intros k Hk. rewrite !elem_of_cons, elem_of_nil in Hk.
      rewrite !field_obj_set_cases.
      destruct Hk as [-> | [-> | [-> | [-> | [-> | [-> | []]]]]]]; reflexivity.
    + intros k Hk. rewrite !elem_of_cons, elem_of_nil in Hk.
      rewrite !field_obj_set_cases.
      destruct Hk as [-> | [-> | [-> | []]]]; reflexivity.
    + intros k Hk1 Hk2. rewrite !field_obj_set_cases.
      repeat match goal with
      | |- context [String.eqb ?a k] =>
          destruct (String.eqb_spec a k) as [<- | ?];
          [ exfalso;
            first [ apply Hk1; rewrite !elem_of_cons; tauto
                  | apply Hk2; rewrite !elem_of_cons; tauto ] |]
      end.
      reflexivity.
  - eexists. split; [reflexivity |]. split; [reflexivity | discriminate].
Qed.

(** X20. A failure of the connection is answered 500 by every handler
    that uses the database, with nothing done beyond the attempt; the
    subscription handler alone passes the message of the error on. *)
Theorem connection_failure_is_500
    (countryName ticker shown : string) (category reqBody email : value)
    (s s1 : Store) (e : exn) :
  connectToDatabase s = (Throw e, s1) ->
  (if truthy category then ToString category else Ok "All") = Ok shown ->
  get reqBody "email" = Ok email ->
  truthy email = true -> emailRegex_test email = Ok true ->
  let serverError := {| status := 500; body := message "Server error" |} in
  getCountries s = ({| status := 500; body := VArr [] |}, s1)
  /\ getCountry countryName s = (serverError, s1)
  /\ getUsaCategories s = (serverError, s1)
  /\ getCompanies countryName category s = (serverError, s1)
  /\ getFinancials ticker s = (serverError, s1)
  /\ subscribe reqBody s
     = ({| status := 500;
           body := VObj [("message", VStr "Server error");
                         ("error", VStr (error_message e))] |}, s1).
Proof.
  intros Hc Hshown Hget Te Hvalid. cbv zeta.
  assert (Hbody : nullish reqBody = false).
  { unfold get in Hget. now destruct (nullish reqBody). }
  assert (Hemail : email = member reqBody "email").
  { rewrite get_Ok in Hget by exact Hbody. congruence. }
  unfold getCountries, getCountry, getUsaCategories, getCompanies,
    getFinancials, subscribe. run_handler.
  rewrite Hshown, !get_Ok by exact Hbody. rewrite <- Hemail, Te. simpl.
  rewrite Hvalid. simpl. rewrite Hc. repeat split; reflexivity.
Qed.

End FinancialsFacts.

(** ** The cached connection *)

Section ConnectionFacts.
Context {Mongoose Client : Type}.
Context (readyState : Mongoose -> Z).
Context (mongoose_connect : Mongoose -> result Client * Mongoose).

(** X21. A client is connected once and then reused: after a call that
    succeeded, a further call made while the connection is ready returns
    the same client and does not connect again. A call that failed caches
    nothing new, so the call after it goes through the same test again. *)
Theorem cachedConnect_reuses :
  (forall (st st1 : connectionState (Mongoose := Mongoose) (Client := Client))
          (client : Client),
     cachedConnect readyState mongoose_connect st = (Ok client, st1) ->
     cachedDb st1 = Some client
     /\ (readyState (mongoose st1) = 1 ->
         cachedConnect readyState mongoose_connect st1 = (Ok client, st1)))
  /\ (forall (st st2 : connectionState (Mongoose := Mongoose) (Client := Client))
             (e : exn),
        cachedConnect readyState mongoose_connect st = (Throw e, st2) ->
        cachedDb st2 = cachedDb st).
Proof.
  split.
  - intros st st1 client Hok.
    assert (Hcached : cachedDb st1 = Some client).
    { revert Hok. unfold cachedConnect, freshConnect.
      destruct (cachedDb st) as [c |] eqn:Ec;
        [destruct (readyState (mongoose st) =? 1) |];
        try destruct (mongoose_connect (mongoose st)) as [[c' | e'] m'];
        intros [= <- <-]; auto. }
    split; [exact Hcached |].
    intros Hready. unfold cachedConnect. rewrite Hcached, Hready. reflexivity.
  - intros st st2 e. unfold cachedConnect, freshConnect.
    destruct (cachedDb st) as [c |] eqn:Ec;
      [destruct (readyState (mongoose st) =? 1) |];
      try destruct (mongoose_connect (mongoose st)) as [[c' | e'] m'];
      intros [= <- <-]; auto.
Qed.

End ConnectionFacts.

(** ** The listing of enriched companies *)

Lemma mapM_ext {A B : Type} (f g : A -> result B) (l : list A) :
  (forall x, x ∈ l -> f x = g x) -> mapM f l = mapM g l.
Proof.
  induction l as [| x l IH]; intros Hfg; simpl; [reflexivity |].
  rewrite (Hfg x) by left. rewrite IH; [reflexivity |].
  intros y Hy. apply Hfg. now right.
Qed.

Lemma mapM_Forall2 {A B : Type} (f : A -> result B) (l : list A) (l' : list B) :
  mapM f l = Ok l' -> Forall2 (fun x y => f x = Ok y) l l'.
Proof.
  revert l'. induction l as [| x l IH]; intros l'; simpl.
  - intros [= <-]. constructor.
  - destruct (f x) as [y |] eqn:Ef; simpl; [| discriminate].
    destruct (mapM f l) as [ys |]; simpl; [| discriminate].
    intros [= <-]. constructor; auto.
Qed.

Lemma mapM_tickers (cs : list value) :
  forallb has_text_ticker cs = true ->
  mapM (fun company => get company "ticker") cs
  = Ok ((fun company => member company "ticker") <$> cs).
Proof.
  induction cs as [| c cs IH]; simpl; [reflexivity |].
  intros Hall. apply andb_prop in Hall as [Hc Hcs].
  assert (Nc : nullish c = false).
  { unfold has_text_ticker in Hc. destruct c; try discriminate; reflexivity. }
  rewrite get_Ok by exact Nc. simpl. rewrite (IH Hcs). reflexivity.
Qed.

Section Listing.
Context `{Host} {Store : Type} `{!DocStore Store}.

(** X22. The companies of a United States listing are enriched from two
    queries, one per collection, for the tickers of all of them: each
    company is joined with the last document of either answer that carries
    its ticker, and the listing is the enriched companies in the order of
    the selection (or the first exception one of them throws). *)
Theorem enrichAll_joins
    (companies financialDataArray valuationMetricsArray : list value)
    (s s1 s2 : Store) :
  forallb has_text_ticker companies = true ->
  find_tickers FinancialData
    ((fun company => member company "ticker") <$> companies) s
  = (Ok financialDataArray, s1) ->
  find_tickers ValuationMetrics
    ((fun company => member company "ticker") <$> companies) s1
  = (Ok valuationMetricsArray, s2) ->
  forallb ticker_is_text financialDataArray = true ->
  forallb ticker_is_text valuationMetricsArray = true ->
  enrichAll (VArr companies) s
  = (VArr <$> mapM (fun company =>
                      enrich company
                        (last_with_ticker (ticker_of company) financialDataArray)
                        (last_with_ticker (ticker_of company) valuationMetricsArray))
                   companies,
     s2).
Proof.
  intros Hcs Hfind1 Hfind2 Hf Hv.
  destruct (buildMap_lookup financialDataArray "x" Hf ltac:(discriminate))
    as (fm & Hfm & _).
  destruct (buildMap_lookup valuationMetricsArray "x" Hv ltac:(discriminate))
    as (vm & Hvm & _).
  unfold enrichAll, lift, mbind, mret. unfold M_bind. simpl.
  rewrite (mapM_tickers _ Hcs), Hfind1, Hfind2, Hfm, Hvm.
  rewrite (mapM_ext (enrichCompany fm vm)
             (fun company =>
                enrich company
                  (last_with_ticker (ticker_of company) financialDataArray)
                  (last_with_ticker (ticker_of company) valuationMetricsArray))).
  - destruct (mapM _ companies); reflexivity.
  - intros c Hc. rewrite forallb_forall in Hcs.
    specialize (Hcs c ltac:(now apply list_elem_of_In)).
    unfold has_text_ticker in Hcs. unfold ticker_of.
    destruct (member c "ticker") as [| | | | k | | |] eqn:Et; try discriminate.
    assert (Hk : k <> "").
    { intros ->. discriminate. }
    destruct (buildMap_lookup financialDataArray k Hf Hk) as (fm' & Hfm' & Hfl).
    destruct (buildMap_lookup valuationMetricsArray k Hv Hk) as (vm' & Hvm' & Hvl).
    assert (fm' = fm) by congruence. assert (vm' = vm) by congruence. subst.
    unfold enrichCompany.
    assert (Nc : nullish c = false) by (destruct c; try discriminate; reflexivity).
    rewrite get_Ok by exact Nc. rewrite Et. simpl. now rewrite Hfl, Hvl.
Qed.

(** X23. A listing that is enriched has one entry for every selected
    company, in the same order, and each entry is the company itself or a
    copy of it with [financials] set: no company is dropped, added or
    reordered, whatever the store answers. *)
Theorem enrichAll_one_for_one (companies listing : value) (s s' : Store) :
  enrichAll companies s = (Ok listing, s') ->
  exists cs es,
    companies = VArr cs /\ listing = VArr es
    /\ Forall2 (fun company entry =>
                  entry = company
                  \/ exists financials,
                       entry = VObj (obj_set "financials" financials
                                             (spread company)))
               cs es.
Proof.
  unfold enrichAll, lift, mbind, mret. unfold M_bind.
  destruct companies as [| | | | | | cs |]; simpl; try discriminate.
  destruct (mapM _ cs) as [tickers |]; [| discriminate].
  destruct (find_tickers FinancialData tickers s) as [[fds |] s1]; [| discriminate].
  destruct (find_tickers ValuationMetrics tickers s1) as [[vms |] s2]; [| discriminate].
  destruct (buildMap fds) as [fm |]; [| discriminate].
  destruct (buildMap vms) as [vm |]; [| discriminate].
  destruct (mapM (enrichCompany fm vm) cs) as [es |] eqn:Em; [| discriminate].
  intros [= <- <-]. exists cs, es. repeat split.
  apply mapM_Forall2 in Em.
  eapply Forall2_impl; [exact Em |]. intros c e He. cbv beta in He.
  unfold enrichCompany in He. do 2 bind_inv He.
  now apply enrich_shape in He.
Qed.

End Listing.

(** ** The category filter *)

(** X24. For a country name that starts with ["United States"] and a
    category other than ["All"], the selection is the [companies] of the
    first category whose name is exactly the category asked for, as stored;
    it is the empty array when no category has that name or the category
    has no companies. *)
Theorem category_filter_selects_first_match
    (matchingRegion category : value) (countryName : string)
    (categories : list value) :
  startsWith countryName "United States" = true ->
  truthy category = true ->
  strict_eq category (VStr "All") = false ->
  member matchingRegion "categories" = VArr categories ->
  forallb (fun c => negb (nullish c)) categories = true ->
  selectCompanies matchingRegion countryName category
  = Ok (match List.find (fun c => strict_eq (member c "name") category)
                        categories with
        | Some found => or_else (member found "companies") (VArr [])
        | None => VArr []
        end).
Proof.
  intros Hus Tc Hall Hcats Hnn. unfold selectCompanies.
  rewrite Hus, Tc, Hall. simpl.
  destruct (member_array_truthy _ _ _ Hcats) as [_ Nr].
  rewrite get_Ok by exact Nr. rewrite Hcats. simpl.
  rewrite (findM_pure _ (fun c => strict_eq (member c "name") category)).
  - simpl. destruct (List.find _ _) as [found |] eqn:Ef; [| reflexivity].
    apply find_some in Ef as [_ Ef].
    assert (Hobj : exists o, found = VObj o).
    { destruct found; simpl in Ef; eauto;
        destruct category; simpl in *; discriminate. }
    destruct Hobj as [o ->]. reflexivity.
  - intros c Hc. rewrite forallb_forall in Hnn.
    specialize (Hnn c ltac:(now apply list_elem_of_In)).
    apply negb_true_iff in Hnn. now rewrite get_Ok.
Qed.

(** ** The listing of a United States region *)

Section ListingHandler.
Context `{Host} {Store : Type} `{!DocStore Store}.

Ltac run_handler :=
  unfold try_catch, lift, json, mbind, mret; unfold M_bind.

(** X25. The listing of a United States region is all or nothing: the
    answer is 200 with the [exchangeName] of the region, or
    ["Unknown Exchange"], and every selected company enriched; as soon as
    the enrichment of one company or a query throws, it is 500 and no
    company is listed. *)
Theorem getCompanies_united_states
    (countryName : string) (category : value) (shown : string)
    (s s1 s2 s3 : Store) (data : value) (regions : list value)
    (region companies : value) (enriched : result value) :
  (if truthy category then ToString category else Ok "All") = Ok shown ->
  connectToDatabase s = (Ok (), s1) ->
  SaasCompany_findOne s1 = (Ok data, s2) ->
  member data "regions" = VArr regions ->
  countryName <> "" -> forallb name_is_text regions = true ->
  startsWith countryName "United States" = true ->
  List.find (name_startsWith countryName) regions = Some region ->
  selectCompanies region countryName category = Ok companies ->
  enrichAll companies s2 = (enriched, s3) ->
  getCompanies countryName category s
  = (match enriched with
     | Ok listing =>
         {| status := 200;
            body := VObj [("exchangeName",
                           or_else (member region "exchangeName")
                                   (VStr "Unknown Exchange"));
                          ("companies", listing)] |}
     | Throw _ => {| status := 500; body := message "Server error" |}
     end, s3).
Proof.
  intros Hshown Hc Hd Hr Hne Htext Hus Hfind Hsel Hen.
  destruct (member_array_truthy _ _ _ Hr) as [Td Nd].
  unfold getCompanies. run_handler. rewrite Hshown, Hc, Hd, Td. simpl.
  rewrite get_Ok by exact Nd. rewrite Hr. simpl.
  rewrite (findRegion_text _ _ Hne Htext), Hfind.
  apply find_some in Hfind as [_ Hfind]. unfold name_startsWith in Hfind.
  assert (Nr : nullish region = false)
    by (destruct region; try discriminate; reflexivity).
  rewrite Hsel, Hus, Hen.
  destruct enriched as [listing | e]; [| reflexivity].
  rewrite get_Ok by exact Nr. reflexivity.
Qed.

(** X26. A United States region whose [categories] is not an array cannot
    be listed: [/api/companies] answers 500 for every category asked for,
    and no financial collection is read. *)
Theorem getCompanies_needs_categories
    (countryName : string) (category : value) (shown : string)
    (s s1 s2 : Store) (data : value) (regions : list value) (region : value) :
  (if truthy category then ToString category else Ok "All") = Ok shown ->
  connectToDatabase s = (Ok (), s1) ->
  SaasCompany_findOne s1 = (Ok data, s2) ->
  member data "regions" = VArr regions ->
  countryName <> "" -> forallb name_is_text regions = true ->
  startsWith countryName "United States" = true ->
  List.find (name_startsWith countryName) regions = Some region ->
  is_array (member region "categories") = false ->
  getCompanies countryName category s
  = ({| status := 500; body := message "Server error" |}, s2).
Proof.
  intros Hshown Hc Hd Hr Hne Htext Hus Hfind Hcats.
  destruct (member_array_truthy _ _ _ Hr) as [Td Nd].
  unfold getCompanies. run_handler. rewrite Hshown, Hc, Hd, Td. simpl.
  rewrite get_Ok by exact Nd. rewrite Hr. simpl.
  rewrite (findRegion_text _ _ Hne Htext), Hfind.
  apply find_some in Hfind as [_ Hfind]. unfold name_startsWith in Hfind.
  assert (Nr : nullish region = false)
    by (destruct region; try discriminate; reflexivity).
  assert (Hsel : selectCompanies region countryName category = Throw TypeError).
  { unfold selectCompanies. rewrite Hus, get_Ok by exact Nr.
    destruct (member region "categories"); try discriminate;
      destruct (_ && _); reflexivity. }
  rewrite Hsel. reflexivity.
Qed.

End ListingHandler.

(** ** A request for both collections *)

Section SubscribeBoth.
Context `{Host} {Store : Type} `{!DocStore Store}.

Ltac run_handler :=
  unfold try_catch, lift, json, mbind, mret; unfold M_bind.

(** X27. Nothing is undone when the second collection fails: a request
    for both collections whose address is new to
    [notification_subscriptions] has its document saved there, and when the
    lookup in [metrics_update_subscriptions] then throws, the answer is 500
    and the store is left with the saved document. *)
Theorem subscribe_keeps_first_on_failure
    (reqBody email : value) (s s1 s2 s3 s4 : Store) (existing : value)
    (e : exn) :
  get reqBody "email" = Ok email ->
  truthy email = true -> emailRegex_test email = Ok true ->
  asks_for reqBody Notification = true ->
  asks_for reqBody MetricsNotification = true ->
  connectToDatabase s = (Ok (), s1) ->
  findOne_email Notification email s1 = (Ok existing, s2) ->
  truthy existing = false ->
  save Notification
    (VObj [("email", email);
           ("phone", or_else (member reqBody "phone") VUndefined)]) s2
  = (Ok (), s3) ->
  findOne_email MetricsNotification email s3 = (Throw e, s4) ->
  subscribe reqBody s
  = ({| status := 500;
        body := VObj [("message", VStr "Server error");
                      ("error", VStr (error_message e))] |}, s4).
Proof.
  intros Hget Te Hvalid Hall Hmetrics Hc Hfind Tex Hsave Hfail.
  assert (Hbody : nullish reqBody = false).
  { unfold get in Hget. now destruct (nullish reqBody). }
  assert (Hemail : email = member reqBody "email").
  { rewrite get_Ok in Hget by exact Hbody. congruence. }
  unfold subscribe, subscribeTo. run_handler.
  rewrite !get_Ok by exact Hbody. rewrite <- Hemail, Te. simpl.
  rewrite Hvalid. simpl. rewrite Hc. simpl in Hall, Hmetrics.
  rewrite Hall, Hmetrics. simpl. rewrite Hfind, Tex. simpl.
  rewrite Hsave. simpl. rewrite Hfail. reflexivity.
Qed.

End SubscribeBoth.

(** ** The further properties on the sample documents *)

Module WorkedMore.
Import Sample Examples.

Lemma enrich_keeps_witness :
  exists enriched,
    enrich company financialData valuationMetrics = Ok enriched
    /\ "name" <> "financials"
    /\ member enriched "name" = VStr "Xco".
Proof.
  destruct (enrich company financialData valuationMetrics) as [enriched |] eqn:E;
    [| vm_compute in E; discriminate].
  exists enriched. split; [reflexivity |].
  assert (Hk : "name" <> "financials") by discriminate.
  split; [exact Hk |].
  exact (enrich_keeps_other_properties company financialData valuationMetrics
           enriched _ "name" eq_refl E Hk).
Defined.

Lemma precomputed_growth_witness :
  latestIncomeStatementOf financialData = Ok statement2023
  /\ latestMarketCapOf financialData = Ok cap2023
  /\ truthy (member valuationMetrics "growth_metrics")
     || truthy (member valuationMetrics "raw_values") = true
  /\ metrics_numeric valuationMetrics = true
  /\ exists enriched,
       enrich company financialData valuationMetrics = Ok enriched
       /\ member (member enriched "financials") "revenueGrowth" = VStr "12.0"
       /\ member (member enriched "financials") "netIncomeGrowth" = VUndefined
       /\ member (member enriched "financials") "marketCapToRevenueMultiple"
          = VStr "18.00"
       /\ member (member enriched "financials") "marketCapToNetIncomeMultiple"
          = VNull.
Proof.
  assert (Hlis : latestIncomeStatementOf financialData = Ok statement2023)
    by (vm_compute; reflexivity).
  assert (Hlmc : latestMarketCapOf financialData = Ok cap2023)
    by (vm_compute; reflexivity).
  repeat (split; [first [assumption | reflexivity] |]).
  destruct (precomputed_growth_and_multiples company financialData
              valuationMetrics statement2023 cap2023 Hlis Hlmc eq_refl eq_refl)
    as (enriched & He & Hgrowth & Hmult & _).
  exists enriched. split; [exact He |]. repeat split.
  - rewrite (Hgrowth "revenueGrowth" "revenue_growth_pct"); [reflexivity |].
    rewrite !elem_of_cons. tauto.
  - rewrite (Hgrowth "netIncomeGrowth" "net_income_growth_pct"); [reflexivity |].
    rewrite !elem_of_cons. tauto.
  - rewrite (Hmult "marketCapToRevenueMultiple" "marketcap_to_revenue");
      [reflexivity |].
    rewrite !elem_of_cons. tauto.
  - rewrite (Hmult "marketCapToNetIncomeMultiple" "marketcap_to_netincome");
      [reflexivity |].
    rewrite !elem_of_cons. tauto.
Defined.

Lemma text_metric_witness :
  latestIncomeStatementOf financialData = Ok statement2023
  /\ latestMarketCapOf financialData = Ok cap2023
  /\ truthy (member valuationMetricsText "growth_metrics")
     || truthy (member valuationMetricsText "raw_values") = true
  /\ metrics_numeric valuationMetricsText = false
  /\ enrich company financialData valuationMetricsText = Throw TypeError.
Proof.
  assert (Hlis : latestIncomeStatementOf financialData = Ok statement2023)
    by (vm_compute; reflexivity).
  assert (Hlmc : latestMarketCapOf financialData = Ok cap2023)
    by (vm_compute; reflexivity).
  repeat (split; [first [assumption | reflexivity] |]).
  exact (precomputed_throws_on_text_metric company financialData
           valuationMetricsText statement2023 cap2023 Hlis Hlmc eq_refl eq_refl).
Defined.

Lemma derived_copies_witness :
  latestIncomeStatementOf financialData = Ok statement2023
  /\ latestMarketCapOf financialData = Ok cap2023
  /\ nullish (VObj []) = false
  /\ truthy statement2023 = true /\ truthy cap2023 = true
  /\ member cap2023 "marketCap" = VNum (Num.of_Z 1000)
  /\ statement_numeric statement2023 = true
  /\ exists enriched,
       enrich company financialData (VObj []) = Ok enriched
       /\ member (member enriched "financials") "marketCap" = num 1000
       /\ member (member enriched "financials") "year" = VStr "2023".
Proof.
  assert (Hlis : latestIncomeStatementOf financialData = Ok statement2023)
    by (vm_compute; reflexivity).
  assert (Hlmc : latestMarketCapOf financialData = Ok cap2023)
    by (vm_compute; reflexivity).
  repeat (split; [first [assumption | reflexivity] |]).
  destruct (derived_copies_latest_entries company financialData (VObj [])
              statement2023 cap2023 (Num.of_Z 1000)
              Hlis Hlmc eq_refl eq_refl eq_refl eq_refl eq_refl eq_refl)
    as (enriched & He & Hcap & Hyear & _).
  exists enriched. repeat split; assumption.
Defined.

Lemma first_of_maximum_witness :
  Forall dated ([statement2022] ++ statement2023 :: [statementZero])%list
  /\ entryTime statement2023 = Some 1672531200000
  /\ latestEntry (VArr [statement2022; statement2023; statementZero])
     = Ok statement2023.
Proof.
  assert (Hd : Forall dated ([statement2022] ++ statement2023 :: [statementZero])%list).
  { repeat constructor; eexists; vm_compute; reflexivity. }
  split; [exact Hd |]. split; [reflexivity |].
  apply (latest_entry_is_first_of_maximum [statement2022] [statementZero]
           statement2023 1672531200000 Hd eq_refl).
  - intros x tx Hx Ht. apply list_elem_of_singleton in Hx as ->.
    vm_compute in Ht. injection Ht as <-. reflexivity.
  - intros x tx Hx Ht. apply list_elem_of_singleton in Hx as ->.
    vm_compute in Ht. injection Ht as <-. discriminate.
Defined.

Lemma needs_an_array_witness :
  is_array (VObj [("length", num 0)]) = false
  /\ latestEntry (VObj [("length", num 0)]) = Ok VNull
  /\ VNull = VNull.
Proof.
  assert (Hrun : latestEntry (VObj [("length", num 0)]) = Ok VNull)
    by reflexivity.
  split; [reflexivity |]. split; [exact Hrun |].
  exact (latest_entry_needs_an_array (VObj [("length", num 0)]) VNull
           eq_refl Hrun).
Defined.

Lemma last_document_witness :
  forallb ticker_is_text [financialDataZero; VObj []; financialData] = true
  /\ "X" <> "" /\ inherited "X" = false
  /\ exists m,
       buildMap [financialDataZero; VObj []; financialData] = Ok m
       /\ map_get "X" m = Value financialData
       /\ lookup_or_empty "X" m = financialData.
Proof.
  assert (Hk : "X" <> "") by discriminate.
  split; [reflexivity |]. split; [exact Hk |]. split; [reflexivity |].
  exact (buildMap_last_document_wins
           [financialDataZero; VObj []; financialData] "X" eq_refl Hk eq_refl).
Defined.

(** Under the name of a member of [Object.prototype] the map answers
    with that member when no document carries the name. *)
Lemma constructor_is_inherited :
  exists m,
    buildMap [financialData] = Ok m
    /\ map_get "X" m = Value financialData
    /\ map_get "constructor" m = Builtin
    /\ map_get "Y" m = Value VUndefined.
Proof. eexists. repeat split; reflexivity. Qed.

Lemma joins_by_ticker_witness :
  forallb ticker_is_text [financialDataZero; financialData] = true
  /\ forallb ticker_is_text [valuationMetrics] = true
  /\ member company "ticker" = VStr "X" /\ "X" <> ""
  /\ exists fm vm,
       buildMap [financialDataZero; financialData] = Ok fm
       /\ buildMap [valuationMetrics] = Ok vm
       /\ enrichCompany fm vm company
          = enrich company financialData valuationMetrics.
Proof.
  assert (Hk : "X" <> "") by discriminate.
  do 3 (split; [reflexivity |]). split; [exact Hk |].
  exact (enrichCompany_joins_by_ticker
           [financialDataZero; financialData] [valuationMetrics] company "X"
           eq_refl eq_refl eq_refl Hk).
Defined.

Lemma getCountry_witness :
  connectToDatabase store = (Ok (), store)
  /\ SaasCompany_findOne store = (Ok (VObj [("regions", VArr regions)]), store)
  /\ "India" <> "" /\ forallb name_is_text regions = true
  /\ getCountry "India" store = ({| status := 200; body := india |}, store).
Proof.
  assert (Hc : connectToDatabase store = (Ok (), store)) by reflexivity.
  assert (Hd : SaasCompany_findOne store
               = (Ok (VObj [("regions", VArr regions)]), store)) by reflexivity.
  assert (Hk : "India" <> "") by discriminate.
  do 2 (split; [assumption |]). split; [exact Hk |]. split; [reflexivity |].
  exact (getCountry_response "India" store store store _ regions
           Hc Hd eq_refl Hk eq_refl).
Defined.

Lemma getCountries_witness :
  connectToDatabase store = (Ok (), store)
  /\ SaasCompany_findOne store = (Ok (VObj [("regions", VArr regions)]), store)
  /\ getCountries store
     = ({| status := 200; body := VArr [VStr "India"; VStr "United States"] |},
        store).
Proof.
  assert (Hc : connectToDatabase store = (Ok (), store)) by reflexivity.
  assert (Hd : SaasCompany_findOne store
               = (Ok (VObj [("regions", VArr regions)]), store)) by reflexivity.
  do 2 (split; [assumption |]).
  exact (getCountries_response store store store _ Hc Hd).
Defined.

Lemma getUsaCategories_witness :
  connectToDatabase store = (Ok (), store)
  /\ SaasCompany_findOne store = (Ok (VObj [("regions", VArr regions)]), store)
  /\ forallb name_is_text regions = true
  /\ getUsaCategories store
     = ({| status := 200;
           body := VArr [VStr "CRM"; VStr "Empty"; VStr "Odd"; VStr "Security"] |},
        store).
Proof.
  assert (Hc : connectToDatabase store = (Ok (), store)) by reflexivity.
  assert (Hd : SaasCompany_findOne store
               = (Ok (VObj [("regions", VArr regions)]), store)) by reflexivity.
  do 2 (split; [assumption |]). split; [reflexivity |].
  exact (proj1 (getUsaCategories_response store store store _ regions
                  Hc Hd eq_refl eq_refl)
           unitedStates _ eq_refl eq_refl eq_refl).
Defined.



Lemma subscribe_creates_witness :
  get goodRequest "email" = Ok (VStr "ann@example.com")
  /\ truthy (VStr "ann@example.com") = true
  /\ emailRegex_test (VStr "ann@example.com") = Ok true
  /\ asks_for goodRequest Notification = true
  /\ asks_for goodRequest MetricsNotification = false
  /\ subscribe goodRequest store
     = (subscribed (VObj [("allCountries", VStr "created");
                          ("metricsUpdates", VBool false)]),
        with_subs Notification
          [VObj [("email", VStr "ann@example.com"); ("phone", VUndefined)]]
          store).
Proof.
  assert (Hvalid : emailRegex_test (VStr "ann@example.com") = Ok true)
    by reflexivity.
  assert (Hc : connectToDatabase store = (Ok (), store)) by reflexivity.
  assert (Hfind : findOne_email Notification (VStr "ann@example.com") store
                  = (Ok VNull, store)) by reflexivity.
  assert (Hsave : save Notification
                    (VObj [("email", VStr "ann@example.com");
                           ("phone", or_else (member goodRequest "phone")
                                             VUndefined)]) store
                  = (Ok (),
                     with_subs Notification
                       [VObj [("email", VStr "ann@example.com");
                              ("phone", VUndefined)]] store)) by reflexivity.
  do 2 (split; [reflexivity |]). split; [exact Hvalid |].
  do 2 (split; [reflexivity |]).
  exact (subscribe_creates goodRequest _ Notification store store store _ VNull
           eq_refl eq_refl Hvalid eq_refl eq_refl Hc Hfind eq_refl Hsave).
Defined.

Lemma subscribe_updates_witness :
  get phoneRequest "email" = Ok (VStr "ann@example.com")
  /\ truthy (VStr "ann@example.com") = true
  /\ emailRegex_test (VStr "ann@example.com") = Ok true
  /\ asks_for phoneRequest Notification = true
  /\ asks_for phoneRequest MetricsNotification = false
  /\ subscribe phoneRequest fullStore
     = (subscribed (VObj [("allCountries", VStr "updated");
                          ("metricsUpdates", VBool false)]),
        with_subs Notification
          [VObj [("email", VStr "ann@example.com"); ("phone", VStr "2")]]
          fullStore).
Proof.
  assert (Hvalid : emailRegex_test (VStr "ann@example.com") = Ok true)
    by reflexivity.
  assert (Hc : connectToDatabase fullStore = (Ok (), fullStore)) by reflexivity.
  assert (Hfind : findOne_email Notification (VStr "ann@example.com") fullStore
                  = (Ok (VObj [("email", VStr "ann@example.com");
                               ("phone", VStr "1")]), fullStore))
    by reflexivity.
  assert (Hupd : updateOne_phone Notification (VStr "ann@example.com")
                   (member phoneRequest "phone") fullStore
                 = (Ok (),
                    with_subs Notification
                      [VObj [("email", VStr "ann@example.com");
                             ("phone", VStr "2")]] fullStore)) by reflexivity.
  do 2 (split; [reflexivity |]). split; [exact Hvalid |].
  do 2 (split; [reflexivity |]).
  exact (proj2 (subscribe_updates phoneRequest _ Notification
                  fullStore fullStore fullStore _
                  eq_refl eq_refl Hvalid eq_refl eq_refl Hc Hfind eq_refl)
           _ eq_refl Hupd).
Defined.

Lemma subscribe_to_nothing_witness :
  get idleRequest "email" = Ok (VStr "ann@example.com")
  /\ truthy (VStr "ann@example.com") = true
  /\ emailRegex_test (VStr "ann@example.com") = Ok true
  /\ asks_for idleRequest Notification = false
  /\ asks_for idleRequest MetricsNotification = false
  /\ subscribe idleRequest (Offline true)
     = (subscribed (VObj [("allCountries", VBool false);
                          ("metricsUpdates", VBool false)]), Offline true).
Proof.
  assert (Hvalid : emailRegex_test (VStr "ann@example.com") = Ok true)
    by reflexivity.
  assert (Hc : connectToDatabase (Offline true) = (Ok (), Offline true))
    by reflexivity.
  do 2 (split; [reflexivity |]). split; [exact Hvalid |].
  do 2 (split; [reflexivity |]).
  exact (subscribe_to_nothing idleRequest _ (Offline true) (Offline true)
           eq_refl eq_refl Hvalid eq_refl eq_refl Hc).
Defined.

Lemma first_failure_witness :
  get bothRequest "email" = Ok (VStr "ann@example.com")
  /\ truthy (VStr "ann@example.com") = true
  /\ emailRegex_test (VStr "ann@example.com") = Ok true
  /\ asks_for bothRequest Notification = true
  /\ subscribe bothRequest (Offline true)
     = ({| status := 500;
           body := VObj [("message", VStr "Server error");
                         ("error", VStr "query failed")] |}, Offline true).
Proof.
  assert (Hvalid : emailRegex_test (VStr "ann@example.com") = Ok true)
    by reflexivity.
  assert (Hc : connectToDatabase (Offline true) = (Ok (), Offline true))
    by reflexivity.
  assert (Hfind : findOne_email Notification (VStr "ann@example.com")
                    (Offline true)
                  = (Throw (StoreError "query failed"), Offline true))
    by reflexivity.
  do 2 (split; [reflexivity |]). split; [exact Hvalid |].
  split; [reflexivity |].
  exact (subscribe_stops_at_first_failure bothRequest _
           (Offline true) (Offline true) (Offline true) _
           eq_refl eq_refl Hvalid eq_refl Hc Hfind).
Defined.

Lemma getFinancials_merges_witness :
  connectToDatabase fullStore = (Ok (), fullStore)
  /\ findOne_ticker ValuationMetrics "X" fullStore
     = (Ok valuationMetrics, fullStore)
  /\ findOne_ticker FinancialData "X" fullStore
     = (Ok financialDataZero, fullStore)
  /\ exists combined,
       getFinancials "X" fullStore
       = ({| status := 200; body := combined |}, fullStore)
       /\ member combined "market_cap" = num 5555
       /\ member combined "current_revenue" = num 300
       /\ member combined "income_statement" = VArr [statementZero].
Proof.
  assert (Hc : connectToDatabase fullStore = (Ok (), fullStore)) by reflexivity.
  assert (Hvm : findOne_ticker ValuationMetrics "X" fullStore
                = (Ok valuationMetrics, fullStore)) by reflexivity.
  assert (Hfd : findOne_ticker FinancialData "X" fullStore
                = (Ok financialDataZero, fullStore)) by reflexivity.
  do 3 (split; [assumption |]).
  destruct (getFinancials_merges "X" fullStore fullStore fullStore fullStore
              valuationMetrics _ Hc Hvm Hfd)
    as (combined & Hrun & _ & Hmerge).
  destruct (Hmerge eq_refl) as (Hcopied & Hechoed & Hrest).
  exists combined. split; [exact Hrun |]. repeat split.
  - rewrite Hcopied; [reflexivity |].
    unfold copied_fields. rewrite !elem_of_cons. tauto.
  - rewrite Hechoed; [reflexivity |].
    unfold echoed_fields. rewrite !elem_of_cons. tauto.
  - rewrite Hrest; [reflexivity | |];
      unfold copied_fields, echoed_fields;
      rewrite !elem_of_cons, elem_of_nil; intuition discriminate.
Defined.

Lemma connection_failure_witness :
  connectToDatabase (Offline false)
  = (Throw (StoreError "no connection"), Offline false)
  /\ (if truthy (VStr "CRM") then ToString (VStr "CRM") else Ok "All") = Ok "CRM"
  /\ get goodRequest "email" = Ok (VStr "ann@example.com")
  /\ truthy (VStr "ann@example.com") = true
  /\ emailRegex_test (VStr "ann@example.com") = Ok true
  /\ getCountries (Offline false)
     = ({| status := 500; body := VArr [] |}, Offline false)
  /\ subscribe goodRequest (Offline false)
     = ({| status := 500;
           body := VObj [("message", VStr "Server error");
                         ("error", VStr "no connection")] |}, Offline false).
Proof.
  assert (Hvalid : emailRegex_test (VStr "ann@example.com") = Ok true)
    by reflexivity.
  assert (Hc : connectToDatabase (Offline false)
               = (Throw (StoreError "no connection"), Offline false))
    by reflexivity.
  split; [exact Hc |]. do 3 (split; [reflexivity |]). split; [exact Hvalid |].
  pose proof (connection_failure_is_500 "United States" "X" "CRM" (VStr "CRM")
                goodRequest _ (Offline false) (Offline false) _
                Hc eq_refl eq_refl eq_refl Hvalid) as Hall.
  cbv zeta in Hall. split; [apply Hall |]. apply Hall.
Defined.

Lemma enrichAll_joins_witness :
  forallb has_text_ticker [company] = true
  /\ find_tickers FinancialData [VStr "X"] fullStore
     = (Ok [financialDataZero; financialData], fullStore)
  /\ find_tickers ValuationMetrics [VStr "X"] fullStore
     = (Ok [valuationMetrics], fullStore)
  /\ forallb ticker_is_text [financialDataZero; financialData] = true
  /\ forallb ticker_is_text [valuationMetrics] = true
  /\ enrichAll (VArr [company]) fullStore
     = (VArr <$> mapM (fun c => enrich c financialData valuationMetrics)
                      [company], fullStore).
Proof.
  assert (Hf : find_tickers FinancialData
                 ((fun c => member c "ticker") <$> [company]) fullStore
               = (Ok [financialDataZero; financialData], fullStore))
    by reflexivity.
  assert (Hv : find_tickers ValuationMetrics
                 ((fun c => member c "ticker") <$> [company]) fullStore
               = (Ok [valuationMetrics], fullStore)) by reflexivity.
  split; [reflexivity |]. do 2 (split; [assumption |]).
  do 2 (split; [reflexivity |]).
  exact (enrichAll_joins [company] _ _ fullStore fullStore fullStore
           eq_refl Hf Hv eq_refl eq_refl).
Defined.

Lemma one_for_one_witness :
  exists listing,
    enrichAll (VArr [company]) fullStore = (Ok listing, fullStore)
    /\ exists es,
         listing = VArr es
         /\ Forall2 (fun c entry =>
                       entry = c
                       \/ exists financials,
                            entry = VObj (obj_set "financials" financials
                                                  (spread c)))
                    [company] es.
Proof.
  destruct (enrichAll (VArr [company]) fullStore) as [[listing |] s'] eqn:E;
    [| vm_compute in E; discriminate].
  assert (Hs : s' = fullStore).
  { vm_compute in E. now injection E. }
  subst s'. exists listing. split; [reflexivity |].
  destruct (enrichAll_one_for_one (VArr [company]) listing fullStore fullStore E)
    as (cs & es & [= <-] & -> & Hall).
  exists es. split; [reflexivity | exact Hall].
Defined.

Lemma category_filter_witness :
  startsWith "United States" "United States" = true
  /\ truthy (VStr "Security") = true
  /\ strict_eq (VStr "Security") (VStr "All") = false
  /\ selectCompanies unitedStates "United States" (VStr "Security")
     = Ok (VArr [VObj [("ticker", VStr "X")]]).
Proof.
  do 3 (split; [reflexivity |]).
  exact (category_filter_selects_first_match unitedStates (VStr "Security")
           "United States" _ eq_refl eq_refl eq_refl eq_refl eq_refl).
Defined.

Lemma united_states_witness :
  (if truthy (VStr "Security") then ToString (VStr "Security") else Ok "All")
  = Ok "Security"
  /\ connectToDatabase fullStore = (Ok (), fullStore)
  /\ SaasCompany_findOne fullStore
     = (Ok (VObj [("regions", VArr regions)]), fullStore)
  /\ "United States" <> "" /\ forallb name_is_text regions = true
  /\ startsWith "United States" "United States" = true
  /\ List.find (name_startsWith "United States") regions = Some unitedStates
  /\ selectCompanies unitedStates "United States" (VStr "Security")
     = Ok (VArr [VObj [("ticker", VStr "X")]])
  /\ exists listing,
       enrichAll (VArr [VObj [("ticker", VStr "X")]]) fullStore
       = (Ok listing, fullStore)
       /\ getCompanies "United States" (VStr "Security") fullStore
          = ({| status := 200;
                body := VObj [("exchangeName", VStr "NYSE/NASDAQ");
                              ("companies", listing)] |}, fullStore).
Proof.
  assert (Hc : connectToDatabase fullStore = (Ok (), fullStore)) by reflexivity.
  assert (Hd : SaasCompany_findOne fullStore
               = (Ok (VObj [("regions", VArr regions)]), fullStore))
    by reflexivity.
  assert (Hk : "United States" <> "") by discriminate.
  assert (Hsel : selectCompanies unitedStates "United States" (VStr "Security")
                 = Ok (VArr [VObj [("ticker", VStr "X")]])) by reflexivity.
  split; [reflexivity |]. do 2 (split; [assumption |]). split; [exact Hk |].
  do 3 (split; [reflexivity |]). split; [exact Hsel |].
  destruct (enrichAll (VArr [VObj [("ticker", VStr "X")]]) fullStore)
    as [[listing |] s'] eqn:E; [| vm_compute in E; discriminate].
  assert (Hs : s' = fullStore).
  { vm_compute in E. now injection E. }
  subst s'. exists listing. split; [reflexivity |].
  exact (getCompanies_united_states "United States" (VStr "Security") "Security"
           fullStore fullStore fullStore fullStore _ regions unitedStates _
           (Ok listing) eq_refl Hc Hd eq_refl Hk eq_refl eq_refl eq_refl Hsel E).
Defined.

Lemma needs_categories_witness :
  (if truthy VUndefined then ToString VUndefined else Ok "All") = Ok "All"
  /\ connectToDatabase bareStore = (Ok (), bareStore)
  /\ SaasCompany_findOne bareStore
     = (Ok (VObj [("regions", VArr [bareUnitedStates])]), bareStore)
  /\ "United States" <> "" /\ forallb name_is_text [bareUnitedStates] = true
  /\ startsWith "United States" "United States" = true
  /\ List.find (name_startsWith "United States") [bareUnitedStates]
     = Some bareUnitedStates
  /\ is_array (member bareUnitedStates "categories") = false
  /\ getCompanies "United States" VUndefined bareStore
     = ({| status := 500; body := message "Server error" |}, bareStore).
Proof.
  assert (Hc : connectToDatabase bareStore = (Ok (), bareStore)) by reflexivity.
  assert (Hd : SaasCompany_findOne bareStore
               = (Ok (VObj [("regions", VArr [bareUnitedStates])]), bareStore))
    by reflexivity.
  assert (Hk : "United States" <> "") by discriminate.
  split; [reflexivity |]. do 2 (split; [assumption |]). split; [exact Hk |].
  do 4 (split; [reflexivity |]).
  exact (getCompanies_needs_categories "United States" VUndefined "All"
           bareStore bareStore bareStore _ [bareUnitedStates] bareUnitedStates
           eq_refl Hc Hd eq_refl Hk eq_refl eq_refl eq_refl eq_refl).
Defined.

Lemma keeps_first_witness :
  get bothRequest "email" = Ok (VStr "ann@example.com")
  /\ truthy (VStr "ann@example.com") = true
  /\ emailRegex_test (VStr "ann@example.com") = Ok true
  /\ asks_for bothRequest Notification = true
  /\ asks_for bothRequest MetricsNotification = true
  /\ subscribe bothRequest (MetricsDown store)
     = ({| status := 500;
           body := VObj [("message", VStr "Server error");
                         ("error", VStr "metrics out of reach")] |},
        MetricsDown
          (with_subs Notification
             [VObj [("email", VStr "ann@example.com"); ("phone", VUndefined)]]
             store)).
Proof.
  assert (Hvalid : emailRegex_test (VStr "ann@example.com") = Ok true)
    by reflexivity.
  assert (Hc : connectToDatabase (MetricsDown store) = (Ok (), MetricsDown store))
    by reflexivity.
  assert (Hfind : findOne_email Notification (VStr "ann@example.com")
                    (MetricsDown store)
                  = (Ok VNull, MetricsDown store)) by reflexivity.
  set (saved := MetricsDown
                  (with_subs Notification
                     [VObj [("email", VStr "ann@example.com");
                            ("phone", VUndefined)]] store)).
  assert (Hsave : save Notification
                    (VObj [("email", VStr "ann@example.com");
                           ("phone", or_else (member bothRequest "phone")
                                             VUndefined)]) (MetricsDown store)
                  = (Ok (), saved)) by reflexivity.
  assert (Hfail : findOne_email MetricsNotification (VStr "ann@example.com")
                    saved
                  = (Throw (StoreError "metrics out of reach"), saved))
    by reflexivity.
  do 2 (split; [reflexivity |]). split; [exact Hvalid |].
  do 2 (split; [reflexivity |]).
  exact (subscribe_keeps_first_on_failure bothRequest _
           (MetricsDown store) (MetricsDown store) (MetricsDown store) saved
           saved VNull _
           eq_refl eq_refl Hvalid eq_refl eq_refl Hc Hfind eq_refl Hsave Hfail).
Defined.

End WorkedMore.
